(** * WebSFTP: control scripts, user store, file manager and file routes

    A shallow embedding of the parts of the WebSFTP project manager that its
    specification talks about:

    - [JsString], [Path] : the string methods and the functions of Node's
                       [path] module that the sources call;
    - [Runtime]      : the world in which the modules run: files, stored
                       projects, log, supervised processes, commands;
    - [Scripts]      : modules/scripts.js, the generators of start.sh, stop.sh,
                       restart.sh, status.sh and deploy.sh, [generateScripts]
                       and [regenerateAllScripts];
    - [Users]        : modules/users.js, the JSON user store;
    - [FileManager]  : modules/fileManager.js, the guarded file operations;
    - [Server]       : the DELETE /api/projects/:name/files route and the
                       two routes that regenerate scripts, of web/server.js;
    - [Databases]    : modules/databases.js, the part that keeps
                       databases.json;
    - [Shell]        : the run of a generated script without service block.

    Text is a [string] of bytes: the UTF-8 encoding of the JavaScript text.
    Concatenation and the search for an ASCII needle commute with that
    encoding, which is all the script generators do with their text.  The
    length of a text, which JavaScript counts in UTF-16 code units, is
    computed from the bytes by [JsString.utf16_length]. *)

From Stdlib Require Import Ascii List Arith Bool Lia.
From Stdlib Require Import DecimalString NArith.
From stdpp Require Import gmap strings list fin_maps.


(* ===================================================================== *)
(** * JavaScript strings *)
(* ===================================================================== *)

Module JsString.

(** The double quote and the line feed, which the script templates contain. *)
Definition dq : string := String (ascii_of_nat 34) EmptyString.
Definition nl : string := String (ascii_of_nat 10) EmptyString.
Definition slash : ascii := ascii_of_nat 47.

(** A template literal that spans several source lines: every line is
    followed by a line feed. *)
Fixpoint unlines (ls : list string) : string :=
  match ls with
  | [] => EmptyString
  | l :: rest => l +:+ nl +:+ unlines rest
  end.

(** [s.startsWith(prefix)] *)
Definition startsWith (s pre : string) : bool := String.prefix pre s.

(** [s.includes(needle)] *)
Fixpoint includes (s needle : string) : bool :=
  if String.prefix needle s then true
  else match s with
       | EmptyString => false
       | String _ rest => includes rest needle
       end.

(** [parts.join(sep)] *)
Fixpoint join (sep : string) (parts : list string) : string :=
  match parts with
  | [] => EmptyString
  | [x] => x
  | x :: rest => x +:+ sep +:+ join sep rest
  end.

(** Truthiness of a string value: only the empty string is falsy. *)
Definition truthy (s : string) : bool :=
  match s with EmptyString => false | _ => true end.

(** [s.length]: the number of UTF-16 code units of the text.  In the
    UTF-8 encoding a character of the basic plane is one byte below 128, or
    a leading byte 110xxxxx or 1110xxxx followed by continuation bytes
    10xxxxxx; a character beyond the basic plane, which UTF-16 writes as a
    pair of surrogates, has the leading byte 11110xxx. *)
Definition utf16_units (c : ascii) : nat :=
  let n := nat_of_ascii c in
  if Nat.ltb n 128 then 1
  else if Nat.ltb n 192 then 0
  else if Nat.ltb n 240 then 1
  else 2.
Fixpoint utf16_length (s : string) : nat :=
  match s with
  | EmptyString => 0
  | String c rest => utf16_units c + utf16_length rest
  end.

(** A test of [s.length] against 0 is written with [String.length]: the
    empty text is the only one without a byte. *)

(** The positions at which [needle] occurs in [s], in increasing order. *)
Fixpoint occurrences_from (pos : nat) (s needle : string) : list nat :=
  let here := if String.prefix needle s then [pos] else [] in
  match s with
  | EmptyString => here
  | String _ rest => here ++ occurrences_from (S pos) rest needle
  end.
Definition occurrences (s needle : string) : list nat :=
  occurrences_from 0 s needle.

(** The lines of a text: [s.split('\n')]. *)
Fixpoint lines (s : string) : list string :=
  match s with
  | EmptyString => [EmptyString]
  | String c rest =>
      if Ascii.eqb c (ascii_of_nat 10) then EmptyString :: lines rest
      else match lines rest with
           | [] => [String c EmptyString]
           | l :: ls => String c l :: ls
           end
  end.

(** A text without a line feed. *)
Fixpoint single_line (s : string) : bool :=
  match s with
  | EmptyString => true
  | String c rest => negb (Ascii.eqb c (ascii_of_nat 10)) && single_line rest
  end.

(** [s.replace(/\/+/g, '/')]: every run of slashes becomes one slash. *)
Fixpoint collapse_slashes (s : string) : string :=
  match s with
  | EmptyString => EmptyString
  | String c rest =>
      if Ascii.eqb c slash then
        match rest with
        | String c' _ =>
            if Ascii.eqb c' slash then collapse_slashes rest
            else String c (collapse_slashes rest)
        | EmptyString => String c EmptyString
        end
      else String c (collapse_slashes rest)
  end.

(** A text without a slash, and a text of slashes only. *)
Fixpoint slash_free (s : string) : bool :=
  match s with
  | EmptyString => true
  | String c rest => negb (Ascii.eqb c slash) && slash_free rest
  end.
Fixpoint only_slashes (s : string) : bool :=
  match s with
  | EmptyString => true
  | String c rest => Ascii.eqb c slash && only_slashes rest
  end.

End JsString.

(* ===================================================================== *)
(** * Node's [path] module (POSIX flavour) *)
(* ===================================================================== *)

Module Path.
Import JsString.

(** [path.split('/')] *)
Fixpoint split_slash (s : string) : list string :=
  match s with
  | EmptyString => [EmptyString]
  | String c rest =>
      if Ascii.eqb c slash then EmptyString :: split_slash rest
      else match split_slash rest with
           | [] => [String c EmptyString]
           | seg :: segs => String c seg :: segs
           end
  end.

Definition first_is_slash (s : string) : bool :=
  match s with
  | String c _ => Ascii.eqb c slash
  | EmptyString => false
  end.

Fixpoint last_is_slash (s : string) : bool :=
  match s with
  | EmptyString => false
  | String c EmptyString => Ascii.eqb c slash
  | String _ rest => last_is_slash rest
  end.

(** One segment of [normalizeString]: the stack holds the kept segments,
    the last one first.  Empty segments and [.] are dropped; [..] removes
    the last kept segment unless there is none or it is [..] itself, in
    which case it is kept only when the path may climb above its root. *)
Definition normalize_step (allowAboveRoot : bool) (stack : list string)
    (seg : string) : list string :=
  if String.eqb seg EmptyString then stack
  else if String.eqb seg "." then stack
  else if String.eqb seg ".." then
    match stack with
    | top :: below =>
        if String.eqb top ".." then
          (if allowAboveRoot then seg :: stack else stack)
        else below
    | [] => if allowAboveRoot then [seg] else []
    end
  else seg :: stack.

Definition normalizeString (path : string) (allowAboveRoot : bool) : string :=
  join "/" (rev (fold_left (normalize_step allowAboveRoot) (split_slash path) [])).

(** [path.normalize(path)] *)
Definition normalize (path : string) : string :=
  if Nat.eqb (String.length path) 0 then "."
  else
    let isAbsolute := first_is_slash path in
    let trailingSeparator := last_is_slash path in
    let path := normalizeString path (negb isAbsolute) in
    if Nat.eqb (String.length path) 0 then
      if isAbsolute then "/"
      else if trailingSeparator then "./" else "."
    else
      let path := if trailingSeparator then path +:+ "/" else path in
      if isAbsolute then "/" +:+ path else path.

(** The accumulation loop of [path.join]: empty arguments are skipped. *)
Fixpoint join_args (joined : option string) (args : list string) : option string :=
  match args with
  | [] => joined
  | arg :: rest =>
      if Nat.ltb 0 (String.length arg) then
        match joined with
        | None => join_args (Some arg) rest
        | Some j => join_args (Some (j +:+ "/" +:+ arg)) rest
        end
      else join_args joined rest
  end.

(** [path.join(...args)] *)
Definition join (args : list string) : string :=
  match join_args None args with
  | None => "."
  | Some joined => normalize joined
  end.

(** [path.dirname(path)]: the scan from the end skips trailing slashes,
    then the last segment, and cuts at the slash before it.  [drop_last]
    works on the reversed text. *)
Fixpoint skip_slashes (r : list ascii) : list ascii :=
  match r with
  | c :: rest => if Ascii.eqb c slash then skip_slashes rest else r
  | [] => []
  end.
Fixpoint skip_segment (r : list ascii) : list ascii :=
  match r with
  | c :: rest => if Ascii.eqb c slash then r else skip_segment rest
  | [] => []
  end.
Definition dirname (path : string) : string :=
  match String.list_ascii_of_string path with
  | [] => "."
  | c0 :: tail =>
      let hasRoot := Ascii.eqb c0 slash in
      (* the scan looks at the indices [length - 1 .. 1] only *)
      match skip_segment (skip_slashes (rev tail)) with
      | [] => if hasRoot then "/" else "."
      | _ :: before =>
          (* [before] is the reversed text in front of the cut, without
             the first character *)
          if hasRoot && Nat.eqb (List.length before) 0 then "//"
          else String.string_of_list_ascii (c0 :: rev before)
      end
  end.

(** [path.basename(path)]: the scan from the end skips trailing slashes
    and takes the characters up to the slash before them. *)
Fixpoint take_segment (r : list ascii) : list ascii :=
  match r with
  | c :: rest => if Ascii.eqb c slash then [] else c :: take_segment rest
  | [] => []
  end.
Definition basename (path : string) : string :=
  String.string_of_list_ascii
    (rev (take_segment (skip_slashes (rev (String.list_ascii_of_string path))))).

End Path.

(* ===================================================================== *)
(** * The persisted project record *)
(* ===================================================================== *)

Module Project.

(** A service of a project record, as stored in project.json.  [pm2Name]
    is the optional explicit handle that web/server.js looks for. *)
Record Service := {
  name : string;
  directory : string;
  command : string;
  description : string;
  setupCommands : list string;
  pm2Name : option string
}.

(** The project record; [config_name] is its field [name].  [services] is
    absent in a record that never had a service ([services || []]). *)
Record Config := {
  config_name : string;
  services : option (list Service);
  createdAt : string
}.

End Project.

(* ===================================================================== *)
(** * Calls that may throw, over a mutable world *)
(* ===================================================================== *)

Module Js.

(** A thrown [Error]; only its message is ever read. *)
Record JsError := { message : string }.

(** A call either returns or throws; the world it leaves behind is kept in
    both cases, as nothing that was done before a [throw] is undone. *)
Inductive outcome (A : Type) :=
| Returned (a : A)
| Thrown (e : JsError).
Arguments Returned {A} a.
Arguments Thrown {A} e.

Definition js (W A : Type) : Type := W -> outcome A * W.

Definition ret {W A} (a : A) : js W A := fun w => (Returned a, w).
Definition throw {W A} (msg : string) : js W A :=
  fun w => (Thrown {| message := msg |}, w).
Definition bind {W A B} (c : js W A) (k : A -> js W B) : js W B :=
  fun w =>
    match c w with
    | (Returned a, w') => k a w'
    | (Thrown e, w') => (Thrown e, w')
    end.
(** [try { c } catch (error) { h error }] *)
Definition try_catch {W A} (c : js W A) (h : JsError -> js W A) : js W A :=
  fun w =>
    match c w with
    | (Returned a, w') => (Returned a, w')
    | (Thrown e, w') => h e w'
    end.

Notation "x <- c ;; k" := (bind c (fun x => k))
  (at level 100, c at next level, right associativity).
Notation "c ;;; k" := (bind c (fun _ => k))
  (at level 100, right associativity).

(** [for (const x of xs) { body x }] *)
Fixpoint for_of {W A} (xs : list A) (body : A -> js W unit) : js W unit :=
  match xs with
  | [] => ret tt
  | x :: rest => body x ;;; for_of rest body
  end.

End Js.

(* ===================================================================== *)
(** * The world the modules run in *)
(* ===================================================================== *)

Module Runtime.
Import JsString.
Export Js.

(** A node of the file system; a file carries its text and its mode. *)
Inductive node :=
| Dir
| File (content : string) (mode : string).

(** The methods of utils/logger.js that the modules call ([debug], [info],
    [success], [warn], [error]). *)
Inductive level := Debug | Info | Success | Warn | Failure.

Record World := {
  fs : gmap string node;
  projects : list Project.Config;
  log : list (level * string);
  processes : list string;
  commands : list string
}.

Definition with_fs (f : gmap string node) (w : World) : World :=
  {| fs := f; projects := projects w; log := log w;
     processes := processes w; commands := commands w |}.
Definition with_log (l : list (level * string)) (w : World) : World :=
  {| fs := fs w; projects := projects w; log := l;
     processes := processes w; commands := commands w |}.
Definition with_processes (ps : list string) (w : World) : World :=
  {| fs := fs w; projects := projects w; log := log w;
     processes := ps; commands := commands w |}.
Definition with_commands (cs : list string) (w : World) : World :=
  {| fs := fs w; projects := projects w; log := log w;
     processes := processes w; commands := cs |}.

Abbreviation js := (Js.js World).

(** ** The logger *)

(** Modelled from the spec: utils/logger.js is not among the sources.  A
    failure is logged with its context; a call of a method of the logger is
    recorded as one entry of the log, with the method and the message. *)
Definition logger (lvl : level) (msg : string) : js unit :=
  fun w => (Returned tt, with_log (log w ++ [(lvl, msg)]) w).

(** ** The [fs] module *)

(** The paths that the modules hand to the file system come from
    [path.join] and [path.dirname], which leave nothing to resolve in them
    but a slash at the end.  The file system passes over the slashes at the
    end of a path, and finds a directory only at a path that has one: the
    map [fs] holds each node under its path without them. *)
Fixpoint without_final_slashes (path : string) : string :=
  match path with
  | EmptyString => EmptyString
  | String c rest =>
      if Ascii.eqb c slash && only_slashes rest then EmptyString
      else String c (without_final_slashes rest)
  end.
Definition canonical (path : string) : string :=
  if truthy path && only_slashes path then "/" else without_final_slashes path.

(** What the file system finds at [path]. *)
Definition entry (files : gmap string node) (path : string) : option node :=
  match files !! canonical path with
  | Some (File content mode) =>
      if Path.last_is_slash path then None else Some (File content mode)
  | found => found
  end.

Definition existsSync (path : string) : js bool :=
  fun w => (Returned (match entry (fs w) path with Some _ => true | None => false end), w).

(** The directories that [mkdir -p path] walks through, outermost first.
    The root and the working directory always exist. *)
Fixpoint ancestors_fuel (fuel : nat) (path : string) : list string :=
  match fuel with
  | 0 => []
  | S fuel' =>
      let parent := Path.dirname path in
      if String.eqb parent path then []
      else ancestors_fuel fuel' parent ++ [path]
  end.
Definition ancestors (path : string) : list string :=
  ancestors_fuel (S (String.length path)) path.

(** One step of the walk for the directory [requested]: [path] is made
    unless it is there.  A file in the way fails the call, with the
    requested directory in the message. *)
Definition mkdir_one (requested path : string) : js unit :=
  fun w =>
    match fs w !! canonical path with
    | Some Dir => (Returned tt, w)
    | Some (File _ _) =>
        (Thrown {| message :=
                     (if String.eqb path requested
                      then "EEXIST: file already exists"
                      else "ENOTDIR: not a directory")
                     +:+ ", mkdir '" +:+ requested +:+ "'" |}, w)
    | None => (Returned tt, with_fs (<[canonical path := Dir]> (fs w)) w)
    end.

(** [fs.mkdirSync(path, { recursive: true })] *)
Definition mkdirSync_recursive (path : string) : js unit :=
  for_of (ancestors path) (mkdir_one path).

(** Whether a new entry can be made at [path]: its parent is a directory. *)
Definition parent_error (w : World) (path : string) : option string :=
  let parent := Path.dirname path in
  if String.eqb parent "/" || String.eqb parent "." then None
  else match fs w !! parent with
       | Some Dir => None
       | Some (File _ _) => Some "ENOTDIR: not a directory"
       | None => Some "ENOENT: no such file or directory"
       end.

(** Why a path with a slash at its end cannot be opened for writing. *)
Definition open_directory_error (w : World) (path : string) : string :=
  match fs w !! canonical path with
  | Some (File _ _) => "ENOTDIR: not a directory"
  | Some Dir => "EISDIR: illegal operation on a directory"
  | None =>
      match parent_error w path with
      | Some msg => msg
      | None => "EISDIR: illegal operation on a directory"
      end
  end.

(** [fs.writeFileSync(path, content)]: truncates an existing file and
    keeps its mode; a new file gets mode 644.  A path with a slash at its
    end names a directory, which cannot be opened for writing. *)
Definition writeFileSync (path content : string) : js unit :=
  fun w =>
    if Path.last_is_slash path then
      (Thrown {| message := open_directory_error w path +:+ ", open '" +:+ path +:+ "'" |}, w)
    else
      match fs w !! path with
      | Some Dir =>
          (Thrown {| message := "EISDIR: illegal operation on a directory, open '" +:+ path +:+ "'" |}, w)
      | Some (File _ mode) =>
          (Returned tt, with_fs (<[path := File content mode]> (fs w)) w)
      | None =>
          match parent_error w path with
          | Some msg => (Thrown {| message := msg +:+ ", open '" +:+ path +:+ "'" |}, w)
          | None => (Returned tt, with_fs (<[path := File content "644"]> (fs w)) w)
          end
      end.

(** [fs.chmodSync(path, mode)] *)
Definition chmodSync (path mode : string) : js unit :=
  fun w =>
    match entry (fs w) path with
    | Some (File content _) =>
        (Returned tt, with_fs (<[canonical path := File content mode]> (fs w)) w)
    | Some Dir => (Returned tt, w)
    | None =>
        (Thrown {| message := "ENOENT: no such file or directory, chmod '" +:+ path +:+ "'" |}, w)
    end.

(** ** modules/projects.js *)

(** Modelled from the spec: modules/projects.js is not among the sources.
    The store is the sequence of the persisted project records;
    [loadProjects] is the specification's [list()] and
    [loadProjectConfig] its [load(name) -> Project | NotFound]. *)
Definition loadProjects : js (list Project.Config) :=
  fun w => (Returned (projects w), w).

(** Modelled from the spec: [load(name) -> Project | NotFound] of
    modules/projects.js, which is not among the sources. *)
Definition loadProjectConfig (projectName : string) : js Project.Config :=
  fun w =>
    match List.find (fun p => String.eqb (Project.config_name p) projectName) (projects w) with
    | Some config => (Returned config, w)
    | None => (Thrown {| message := "Projet non trouvé: " +:+ projectName |}, w)
    end.

(** Modelled from the spec: [projects.getProject(name)] of
    modules/projects.js, which is not among the sources, gives the record
    of an existing project and [null] otherwise. *)
Definition getProject (projectName : string) : js (option Project.Config) :=
  fun w =>
    (Returned (List.find (fun p => String.eqb (Project.config_name p) projectName) (projects w)), w).

End Runtime.

(* ===================================================================== *)
(** * modules/scripts.js: the five generators *)
(* ===================================================================== *)

Module Scripts.
Import JsString.
Import Project.

Definition start_header (projectName : string) : string :=
  unlines [
    "#!/bin/bash";
    "# ============================================";
    "# Script de démarrage des services";
    "# Projet: " +:+ projectName;
    "# Généré automatiquement - Ne pas modifier";
    "# ============================================";
    EmptyString;
    "set -e";
    EmptyString;
    "echo " +:+ dq +:+ "==========================================" +:+ dq;
    "echo " +:+ dq +:+ "  Démarrage des services: " +:+ projectName +:+ dq;
    "echo " +:+ dq +:+ "==========================================" +:+ dq;
    "echo " +:+ dq +:+ dq;
    EmptyString;
    "# Vérifier si PM2 est installé";
    "if ! command -v pm2 &> /dev/null; then";
    "    echo " +:+ dq +:+ "ERREUR: PM2 n'est pas installé" +:+ dq;
    "    echo " +:+ dq +:+ "Installez-le avec: npm install -g pm2" +:+ dq;
    "    exit 1";
    "fi";
    EmptyString
  ].

(** The body of [for (const service of services)] in [generateStartScript]. *)
Definition start_loop_body (projectName : string) (script : string)
    (service : Service) : string :=
  let pm2Name := projectName +:+ "-" +:+ name service in
  let script := script +:+ ("# Service: " +:+ name service +:+ nl) in
  let script := script +:+ ("echo " +:+ dq +:+ "Démarrage de " +:+ name service +:+ "..." +:+ dq +:+ nl) in
  let script := script +:+ ("cd " +:+ dq +:+ directory service +:+ dq +:+ nl) in
  let script :=
    if truthy (command service)
       && (includes (command service) "build" || includes (command service) "tsc")
    then
      let script := script +:+ ("echo " +:+ dq +:+ "⚠ ATTENTION: La commande '" +:+ command service +:+ "' semble être un build" +:+ dq +:+ nl) in
      let script := script +:+ ("echo " +:+ dq +:+ "⚠ PM2 va redémarrer en boucle car le build se termine" +:+ dq +:+ nl) in
      let script := script +:+ ("echo " +:+ dq +:+ "⚠ Utilisez 'npm start' ou 'npx vite preview' pour un serveur" +:+ dq +:+ nl) in
      let script := script +:+ ("echo " +:+ dq +:+ dq +:+ nl) in
      script
    else script in
  let script := script +:+ ("pm2 start " +:+ dq +:+ command service +:+ dq +:+ " --name " +:+ dq +:+ pm2Name +:+ dq +:+ " --cwd " +:+ dq +:+ directory service +:+ dq +:+ " 2>/dev/null || pm2 restart " +:+ dq +:+ pm2Name +:+ dq +:+ nl) in
  let script := script +:+ ("echo " +:+ dq +:+ "  ✔ " +:+ name service +:+ " démarré" +:+ dq +:+ nl) in
  let script := script +:+ ("echo " +:+ dq +:+ dq +:+ nl +:+ nl) in
  script.

Definition generateStartScript (projectName : string)
    (services : list Service) : string :=
  let script := start_header projectName in
  if Nat.eqb (length services) 0 then
    let script := script +:+ ("echo " +:+ dq +:+ "Aucun service configuré pour ce projet" +:+ dq +:+ nl) in
    let script := script +:+ ("exit 0" +:+ nl) in
    script
  else
    let script := fold_left (start_loop_body projectName) services script in
    let script := script +:+ ("# Sauvegarder la configuration PM2" +:+ nl) in
    let script := script +:+ ("pm2 save" +:+ nl +:+ nl) in
    let script := script +:+ ("echo " +:+ dq +:+ "==========================================" +:+ dq +:+ nl +:+ "echo " +:+ dq +:+ "  Tous les services ont été démarrés" +:+ dq +:+ nl +:+ "echo " +:+ dq +:+ "==========================================" +:+ dq +:+ nl +:+ "echo " +:+ dq +:+ dq +:+ nl +:+ "echo " +:+ dq +:+ "Utilisez 'pm2 status' pour voir l'état des services" +:+ dq +:+ nl +:+ "echo " +:+ dq +:+ "Utilisez 'pm2 logs' pour voir les logs" +:+ dq +:+ nl) in
    script.

Definition stop_header (projectName : string) : string :=
  unlines [
    "#!/bin/bash";
    "# ============================================";
    "# Script d'arrêt des services";
    "# Projet: " +:+ projectName;
    "# Généré automatiquement - Ne pas modifier";
    "# ============================================";
    EmptyString;
    "set -e";
    EmptyString;
    "echo " +:+ dq +:+ "==========================================" +:+ dq;
    "echo " +:+ dq +:+ "  Arrêt des services: " +:+ projectName +:+ dq;
    "echo " +:+ dq +:+ "==========================================" +:+ dq;
    "echo " +:+ dq +:+ dq;
    EmptyString;
    "# Vérifier si PM2 est installé";
    "if ! command -v pm2 &> /dev/null; then";
    "    echo " +:+ dq +:+ "ERREUR: PM2 n'est pas installé" +:+ dq;
    "    exit 1";
    "fi";
    EmptyString
  ].

Definition stop_loop_body (projectName : string) (script : string)
    (service : Service) : string :=
  let pm2Name := projectName +:+ "-" +:+ name service in
  let script := script +:+ ("# Service: " +:+ name service +:+ nl) in
  let script := script +:+ ("echo " +:+ dq +:+ "Arrêt de " +:+ name service +:+ "..." +:+ dq +:+ nl) in
  let script := script +:+ ("pm2 stop " +:+ dq +:+ pm2Name +:+ dq +:+ " 2>/dev/null || echo " +:+ dq +:+ "  (non actif)" +:+ dq +:+ nl) in
  let script := script +:+ ("echo " +:+ dq +:+ "  ✔ " +:+ name service +:+ " arrêté" +:+ dq +:+ nl) in
  let script := script +:+ ("echo " +:+ dq +:+ dq +:+ nl +:+ nl) in
  script.

Definition generateStopScript (projectName : string)
    (services : list Service) : string :=
  let script := stop_header projectName in
  if Nat.eqb (length services) 0 then
    let script := script +:+ ("echo " +:+ dq +:+ "Aucun service configuré pour ce projet" +:+ dq +:+ nl) in
    let script := script +:+ ("exit 0" +:+ nl) in
    script
  else
    let script := fold_left (stop_loop_body projectName) services script in
    let script := script +:+ ("# Sauvegarder la configuration PM2" +:+ nl) in
    let script := script +:+ ("pm2 save" +:+ nl +:+ nl) in
    let script := script +:+ ("echo " +:+ dq +:+ "==========================================" +:+ dq +:+ nl +:+ "echo " +:+ dq +:+ "  Tous les services ont été arrêtés" +:+ dq +:+ nl +:+ "echo " +:+ dq +:+ "==========================================" +:+ dq +:+ nl) in
    script.

Definition restart_header (projectName : string) : string :=
  unlines [
    "#!/bin/bash";
    "# ============================================";
    "# Script de redémarrage des services";
    "# Projet: " +:+ projectName;
    "# Généré automatiquement - Ne pas modifier";
    "# ============================================";
    EmptyString;
    "set -e";
    EmptyString;
    "echo " +:+ dq +:+ "==========================================" +:+ dq;
    "echo " +:+ dq +:+ "  Redémarrage des services: " +:+ projectName +:+ dq;
    "echo " +:+ dq +:+ "==========================================" +:+ dq;
    "echo " +:+ dq +:+ dq;
    EmptyString;
    "# Vérifier si PM2 est installé";
    "if ! command -v pm2 &> /dev/null; then";
    "    echo " +:+ dq +:+ "ERREUR: PM2 n'est pas installé" +:+ dq;
    "    exit 1";
    "fi";
    EmptyString
  ].

Definition restart_loop_body (projectName : string) (script : string)
    (service : Service) : string :=
  let pm2Name := projectName +:+ "-" +:+ name service in
  let script := script +:+ ("# Service: " +:+ name service +:+ nl) in
  let script := script +:+ ("echo " +:+ dq +:+ "Redémarrage de " +:+ name service +:+ "..." +:+ dq +:+ nl) in
  let script := script +:+ ("pm2 restart " +:+ dq +:+ pm2Name +:+ dq +:+ " 2>/dev/null || echo " +:+ dq +:+ "  (démarrage initial...)" +:+ dq +:+ nl) in
  let script := script +:+ ("echo " +:+ dq +:+ "  ✔ " +:+ name service +:+ " redémarré" +:+ dq +:+ nl) in
  let script := script +:+ ("echo " +:+ dq +:+ dq +:+ nl +:+ nl) in
  script.

Definition generateRestartScript (projectName : string)
    (services : list Service) : string :=
  let script := restart_header projectName in
  if Nat.eqb (length services) 0 then
    let script := script +:+ ("echo " +:+ dq +:+ "Aucun service configuré pour ce projet" +:+ dq +:+ nl) in
    let script := script +:+ ("exit 0" +:+ nl) in
    script
  else
    let script := fold_left (restart_loop_body projectName) services script in
    let script := script +:+ ("# Sauvegarder la configuration PM2" +:+ nl) in
    let script := script +:+ ("pm2 save" +:+ nl +:+ nl) in
    let script := script +:+ ("echo " +:+ dq +:+ "==========================================" +:+ dq +:+ nl +:+ "echo " +:+ dq +:+ "  Tous les services ont été redémarrés" +:+ dq +:+ nl +:+ "echo " +:+ dq +:+ "==========================================" +:+ dq +:+ nl) in
    script.

Definition deploy_header (projectName : string) : string :=
  unlines [
    "#!/bin/bash";
    "# ============================================";
    "# Script de déploiement";
    "# Projet: " +:+ projectName;
    "# Généré automatiquement - Ne pas modifier";
    "# ============================================";
    EmptyString;
    "set -e";
    EmptyString;
    "echo " +:+ dq +:+ "==========================================" +:+ dq;
    "echo " +:+ dq +:+ "  Déploiement: " +:+ projectName +:+ dq;
    "echo " +:+ dq +:+ "==========================================" +:+ dq;
    "echo " +:+ dq +:+ dq;
    EmptyString;
    "# Fonction pour corriger les permissions";
    "fix_permissions() {";
    "    local dir=" +:+ dq +:+ "$1" +:+ dq;
    "    local user=" +:+ dq +:+ "$2" +:+ dq;
    "    ";
    "    echo " +:+ dq +:+ "Correction des permissions pour: $dir" +:+ dq;
    "    ";
    "    # Vérifier si on a les droits sudo";
    "    if sudo -n true 2>/dev/null; then";
    "        echo " +:+ dq +:+ "  → Changement du propriétaire..." +:+ dq;
    "        sudo chown -R " +:+ dq +:+ "$user:$user" +:+ dq +:+ " " +:+ dq +:+ "$dir" +:+ dq;
    "        echo " +:+ dq +:+ "  → Ajustement des permissions..." +:+ dq;
    "        sudo chmod -R u+rwX,g+rX,o+rX " +:+ dq +:+ "$dir" +:+ dq;
    "        echo " +:+ dq +:+ "  ✔ Permissions corrigées" +:+ dq;
    "    else";
    "        echo " +:+ dq +:+ "  ⚠ Sudo requis pour corriger les permissions" +:+ dq;
    "        echo " +:+ dq +:+ "  Exécutez: sudo chown -R $user:$user $dir" +:+ dq;
    "        exit 1";
    "    fi";
    "}";
    EmptyString
  ].

(** The body of [for (const service of services)] in [generateDeployScript]. *)
Definition deploy_loop_body (script : string) (service : Service) : string :=
  let script := script +:+ ("# Service: " +:+ name service +:+ nl) in
  let script := script +:+ ("echo " +:+ dq +:+ "Déploiement de " +:+ name service +:+ "..." +:+ dq +:+ nl) in
  let script := script +:+ ("cd " +:+ dq +:+ directory service +:+ dq +:+ nl +:+ nl) in
  let script := script +:+ ("# Vérifier et corriger les permissions si nécessaire" +:+ nl) in
  let script := script +:+ ("if [ ! -w " +:+ dq +:+ directory service +:+ dq +:+ " ]; then" +:+ nl) in
  let script := script +:+ ("    echo " +:+ dq +:+ "  ⚠ Permissions insuffisantes" +:+ dq +:+ nl) in
  let script := script +:+ ("    fix_permissions " +:+ dq +:+ directory service +:+ dq +:+ " " +:+ dq +:+ "$CURRENT_USER" +:+ dq +:+ nl) in
  let script := script +:+ ("fi" +:+ nl +:+ nl) in
  let script := script +:+ ("# Installer les dépendances" +:+ nl) in
  let script := script +:+ ("if [ -f " +:+ dq +:+ "package.json" +:+ dq +:+ " ]; then" +:+ nl) in
  let script := script +:+ ("    echo " +:+ dq +:+ "  → Installation des dépendances npm..." +:+ dq +:+ nl) in
  let script := script +:+ ("    npm install || {" +:+ nl) in
  let script := script +:+ ("        echo " +:+ dq +:+ "  ✗ Erreur lors de npm install" +:+ dq +:+ nl) in
  let script := script +:+ ("        echo " +:+ dq +:+ "  Tentative de correction des permissions..." +:+ dq +:+ nl) in
  let script := script +:+ ("        fix_permissions " +:+ dq +:+ directory service +:+ dq +:+ " " +:+ dq +:+ "$CURRENT_USER" +:+ dq +:+ nl) in
  let script := script +:+ ("        npm install || exit 1" +:+ nl) in
  let script := script +:+ ("    }" +:+ nl) in
  let script := script +:+ ("    echo " +:+ dq +:+ "  ✔ Dépendances installées" +:+ dq +:+ nl) in
  let script := script +:+ ("fi" +:+ nl +:+ nl) in
  let script := script +:+ ("# Build si nécessaire" +:+ nl) in
  let script := script +:+ ("if grep -q '" +:+ dq +:+ "build" +:+ dq +:+ "' package.json 2>/dev/null; then" +:+ nl) in
  let script := script +:+ ("    echo " +:+ dq +:+ "  → Build de l'application..." +:+ dq +:+ nl) in
  let script := script +:+ ("    npm run build 2>/dev/null || echo " +:+ dq +:+ "  (pas de build configuré)" +:+ dq +:+ nl) in
  let script := script +:+ ("fi" +:+ nl +:+ nl) in
  let script := script +:+ ("echo " +:+ dq +:+ "  ✔ " +:+ name service +:+ " déployé" +:+ dq +:+ nl) in
  let script := script +:+ ("echo " +:+ dq +:+ dq +:+ nl +:+ nl) in
  script.

Definition generateDeployScript (projectName : string)
    (services : list Service) : string :=
  let script := deploy_header projectName in
  if Nat.eqb (length services) 0 then
    let script := script +:+ ("echo " +:+ dq +:+ "Aucun service configuré pour ce projet" +:+ dq +:+ nl) in
    script
  else
    let script := script +:+ ("# Déploiement de chaque service" +:+ nl) in
    let script := script +:+ ("CURRENT_USER=$(whoami)" +:+ nl +:+ nl) in
    let script := fold_left deploy_loop_body services script in
    let script := script +:+ ("echo " +:+ dq +:+ "==========================================" +:+ dq +:+ nl) in
    let script := script +:+ ("echo " +:+ dq +:+ "  Déploiement terminé" +:+ dq +:+ nl) in
    let script := script +:+ ("echo " +:+ dq +:+ "==========================================" +:+ dq +:+ nl) in
    let script := script +:+ ("echo " +:+ dq +:+ dq +:+ nl) in
    let script := script +:+ ("echo " +:+ dq +:+ "Utilisez './scripts/start.sh' pour démarrer les services" +:+ dq +:+ nl) in
    script.

Definition status_header (projectName : string) : string :=
  unlines [
    "#!/bin/bash";
    "# ============================================";
    "# Script de statut des services";
    "# Projet: " +:+ projectName;
    "# Généré automatiquement - Ne pas modifier";
    "# ============================================";
    EmptyString;
    "echo " +:+ dq +:+ "==========================================" +:+ dq;
    "echo " +:+ dq +:+ "  Statut des services: " +:+ projectName +:+ dq;
    "echo " +:+ dq +:+ "==========================================" +:+ dq;
    "echo " +:+ dq +:+ dq;
    EmptyString;
    "# Vérifier si PM2 est installé";
    "if ! command -v pm2 &> /dev/null; then";
    "    echo " +:+ dq +:+ "ERREUR: PM2 n'est pas installé" +:+ dq;
    "    exit 1";
    "fi";
    EmptyString
  ].

Definition generateStatusScript (projectName : string)
    (services : list Service) : string :=
  let script := status_header projectName in
  if Nat.eqb (length services) 0 then
    let script := script +:+ ("echo " +:+ dq +:+ "Aucun service configuré pour ce projet" +:+ dq +:+ nl) in
    script
  else
    let script := script +:+ ("# Afficher le statut de tous les services du projet" +:+ nl) in
    let script := script +:+ ("pm2 list | grep -E " +:+ dq +:+ "(" +:+ join "|" (map (fun s => projectName +:+ "-" +:+ name s) services) +:+ "|Name|─)" +:+ dq +:+ " || echo " +:+ dq +:+ "Aucun service actif" +:+ dq +:+ nl) in
    script.

(** ** Materialisation *)

(** Modelled from the spec: config/constants.js is not among the sources.
    The base path is the one web/server.js spells out
    ([/var/www/<name>/sites]); the directory and file names are those of
    the specification's external interfaces. *)
Definition BASE_PATH : string := "/var/www".
Definition PROJECT_STRUCTURE_scripts : string := "scripts".
Definition SCRIPTS_start : string := "start.sh".
Definition SCRIPTS_stop : string := "stop.sh".

Import Runtime.

Definition generateScripts (projectName : string) : js unit :=
  projectConfig <- loadProjectConfig projectName ;;
  let services := default [] (Project.services projectConfig) in
  let scriptsPath := Path.join [BASE_PATH; projectName; PROJECT_STRUCTURE_scripts] in

  present <- existsSync scriptsPath ;;
  (if negb present then mkdirSync_recursive scriptsPath else ret tt) ;;;

  let startScriptPath := Path.join [scriptsPath; SCRIPTS_start] in
  let startContent := generateStartScript projectName services in
  writeFileSync startScriptPath startContent ;;;
  chmodSync startScriptPath "755" ;;;
  logger Debug ("Script créé: " +:+ startScriptPath) ;;;

  let stopScriptPath := Path.join [scriptsPath; SCRIPTS_stop] in
  let stopContent := generateStopScript projectName services in
  writeFileSync stopScriptPath stopContent ;;;
  chmodSync stopScriptPath "755" ;;;
  logger Debug ("Script créé: " +:+ stopScriptPath) ;;;

  let restartScriptPath := Path.join [scriptsPath; "restart.sh"] in
  let restartContent := generateRestartScript projectName services in
  writeFileSync restartScriptPath restartContent ;;;
  chmodSync restartScriptPath "755" ;;;
  logger Debug ("Script créé: " +:+ restartScriptPath) ;;;

  let statusScriptPath := Path.join [scriptsPath; "status.sh"] in
  let statusContent := generateStatusScript projectName services in
  writeFileSync statusScriptPath statusContent ;;;
  chmodSync statusScriptPath "755" ;;;
  logger Debug ("Script créé: " +:+ statusScriptPath) ;;;

  let deployScriptPath := Path.join [scriptsPath; "deploy.sh"] in
  let deployContent := generateDeployScript projectName services in
  writeFileSync deployScriptPath deployContent ;;;
  chmodSync deployScriptPath "755" ;;;
  logger Debug ("Script créé: " +:+ deployScriptPath) ;;;

  logger Success ("Scripts générés pour " +:+ projectName).

Definition regenerateAllScripts : js unit :=
  allProjects <- loadProjects ;;
  for_of allProjects (fun project =>
    try_catch
      (generateScripts (Project.config_name project))
      (fun error =>
         logger Failure ("Erreur pour " +:+ Project.config_name project +:+ ": " +:+ message error))) ;;;
  logger Success "Scripts régénérés pour tous les projets".

(** [getScriptsPaths(projectName)], in the order in which
    [generateScripts] writes the files. *)
Definition scriptsDirectory (projectName : string) : string :=
  Path.join [BASE_PATH; projectName; PROJECT_STRUCTURE_scripts].
Definition getScriptsPaths (projectName : string) : list string :=
  let scriptsPath := scriptsDirectory projectName in
  [ Path.join [scriptsPath; SCRIPTS_start];
    Path.join [scriptsPath; SCRIPTS_stop];
    Path.join [scriptsPath; "restart.sh"];
    Path.join [scriptsPath; "status.sh"];
    Path.join [scriptsPath; "deploy.sh"] ].

End Scripts.

(* ===================================================================== *)
(** * modules/users.js: the user store *)
(* ===================================================================== *)

Module Users.
Import JsString.
Import Js.

(** A stored user.  The default administrator is written without the
    fields [firstName], [lastName] and [mustChangePassword]. *)
Record User := {
  id : string;
  username : string;
  firstName : option string;
  lastName : option string;
  password : string;
  role : string;
  mustChangePassword : option bool;
  createdAt : string;
  projects : list string
}.

(** What a caller gets back: the user without its password. *)
Record PublicUser := {
  pub_id : string;
  pub_username : string;
  pub_firstName : option string;
  pub_lastName : option string;
  pub_role : string;
  pub_mustChangePassword : option bool;
  pub_createdAt : string;
  pub_projects : list string
}.

Definition withoutPassword (u : User) : PublicUser :=
  {| pub_id := id u; pub_username := username u;
     pub_firstName := firstName u; pub_lastName := lastName u;
     pub_role := role u; pub_mustChangePassword := mustChangePassword u;
     pub_createdAt := createdAt u; pub_projects := projects u |}.

(** The state of data/users.json: the data directory may be missing, the
    file may be missing, or the file holds the array [users]. *)
Inductive store :=
| NoDataDir
| NoUsersFile
| UsersFile (users : list User).

(** The world of the module: the store, and the values that
    [crypto.randomUUID()] and [new Date().toISOString()] return, call
    after call. *)
Record World := {
  users_store : store;
  uuid_source : nat -> string;
  uuid_calls : nat;
  clock_source : nat -> string;
  clock_calls : nat
}.

Definition with_store (st : store) (w : World) : World :=
  {| users_store := st; uuid_source := uuid_source w; uuid_calls := uuid_calls w;
     clock_source := clock_source w; clock_calls := clock_calls w |}.

Abbreviation js := (Js.js World).

Definition randomUUID : js string :=
  fun w => (Returned (uuid_source w (uuid_calls w)),
            {| users_store := users_store w; uuid_source := uuid_source w;
               uuid_calls := S (uuid_calls w);
               clock_source := clock_source w; clock_calls := clock_calls w |}).

Definition now_toISOString : js string :=
  fun w => (Returned (clock_source w (clock_calls w)),
            {| users_store := users_store w; uuid_source := uuid_source w;
               uuid_calls := uuid_calls w;
               clock_source := clock_source w; clock_calls := S (clock_calls w) |}).

Section WithCrypto.

(** SHA-256 in hexadecimal, [crypto.createHash('sha256')]. *)
Variable sha256_hex : string -> string.

Definition hashPassword (password : string) : string := sha256_hex password.

(** [fs.existsSync(DATA_DIR)], [fs.mkdirSync(DATA_DIR, { recursive: true })],
    [fs.existsSync(USERS_FILE)] and [fs.writeFileSync(USERS_FILE, ...)] of
    the array [users] as JSON. *)
Definition existsSync_DATA_DIR : js bool :=
  fun w => (Returned (match users_store w with NoDataDir => false | _ => true end), w).
Definition mkdirSync_DATA_DIR : js unit :=
  fun w => match users_store w with
           | NoDataDir => (Returned tt, with_store NoUsersFile w)
           | _ => (Returned tt, w)
           end.
Definition existsSync_USERS_FILE : js bool :=
  fun w => (Returned (match users_store w with UsersFile _ => true | _ => false end), w).
Definition writeFileSync_USERS_FILE (users : list User) : js unit :=
  fun w => match users_store w with
           | NoDataDir =>
               (Thrown {| message := "ENOENT: no such file or directory, open 'users.json'" |}, w)
           | _ => (Returned tt, with_store (UsersFile users) w)
           end.

Definition initUsersFile : js unit :=
  present <- existsSync_DATA_DIR ;;
  (if negb present then mkdirSync_DATA_DIR else ret tt) ;;;
  present <- existsSync_USERS_FILE ;;
  if negb present then
    uuid <- randomUUID ;;
    stamp <- now_toISOString ;;
    let defaultAdmin :=
      [ {| id := uuid;
           username := "admin";
           firstName := None;
           lastName := None;
           password := hashPassword "admin123";
           role := "admin";
           mustChangePassword := None;
           createdAt := stamp;
           projects := [] |} ] in
    writeFileSync_USERS_FILE defaultAdmin
  else ret tt.

(** [JSON.parse(fs.readFileSync(USERS_FILE, 'utf8'))], for a file that
    holds the array [users]. *)
Definition readUsers : js (list User) :=
  initUsersFile ;;;
  (fun w => match users_store w with
            | UsersFile users => (Returned users, w)
            | _ => (Thrown {| message := "ENOENT: no such file or directory, open 'users.json'" |}, w)
            end).

Definition writeUsers (data : list User) : js unit :=
  writeFileSync_USERS_FILE data.

(** [data.users.findIndex(pred)]; [None] stands for [-1]. *)
Fixpoint findIndex (pred : User -> bool) (users : list User) : option nat :=
  match users with
  | [] => None
  | u :: rest => if pred u then Some 0 else option_map S (findIndex pred rest)
  end.

Definition adminCount (users : list User) : nat :=
  length (List.filter (fun u => String.eqb (role u) "admin") users).

Definition valid_role (r : string) : bool :=
  existsb (String.eqb r) ["admin"; "user"].

(** [password.length] counts UTF-16 code units. *)
Definition createUser (username0 password0 role0 : string)
    (mustChangePassword0 : bool) (firstName0 lastName0 : string) : js PublicUser :=
  data <- readUsers ;;
  (if existsb (fun u => String.eqb (username u) username0) data
   then throw "Un utilisateur avec ce nom existe déjà" else ret tt) ;;;
  (if negb (valid_role role0)
   then throw ("Rôle invalide. Doit être " +:+ dq +:+ "admin" +:+ dq +:+ " ou " +:+ dq +:+ "user" +:+ dq) else ret tt) ;;;
  (if Nat.ltb (utf16_length password0) 6
   then throw "Le mot de passe doit contenir au moins 6 caractères" else ret tt) ;;;
  uuid <- randomUUID ;;
  stamp <- now_toISOString ;;
  let newUser :=
    {| id := uuid;
       username := username0;
       firstName := Some firstName0;
       lastName := Some lastName0;
       password := hashPassword password0;
       role := role0;
       mustChangePassword := Some mustChangePassword0;
       createdAt := stamp;
       projects := [] |} in
  let data := data ++ [newUser] in
  writeUsers data ;;;
  ret (withoutPassword newUser).

Definition deleteUser (userId : string) : js unit :=
  data <- readUsers ;;
  match findIndex (fun u => String.eqb (id u) userId) data with
  | None => throw "Utilisateur non trouvé"
  | Some index =>
      match data !! index with
      | None => throw "Utilisateur non trouvé"
      | Some user =>
          (if String.eqb (username user) "admin" && String.eqb (role user) "admin"
           then
             if Nat.eqb (adminCount data) 1
             then throw "Impossible de supprimer le dernier administrateur"
             else ret tt
           else ret tt) ;;;
          let data := take index data ++ drop (S index) data in
          writeUsers data
      end
  end.

(** [data.users.find] returns the stored object itself, so the
    assignment to its [role] is an update at its position in the array. *)
Definition changeUserRole (userId newRole : string) : js unit :=
  (if negb (valid_role newRole)
   then throw ("Rôle invalide. Doit être " +:+ dq +:+ "admin" +:+ dq +:+ " ou " +:+ dq +:+ "user" +:+ dq) else ret tt) ;;;
  data <- readUsers ;;
  match findIndex (fun u => String.eqb (id u) userId) data with
  | None => throw "Utilisateur non trouvé"
  | Some index =>
      match data !! index with
      | None => throw "Utilisateur non trouvé"
      | Some user =>
          (if String.eqb (role user) "admin" && String.eqb newRole "user"
           then
             if Nat.eqb (adminCount data) 1
             then throw "Impossible de rétrograder le dernier administrateur"
             else ret tt
           else ret tt) ;;;
          let user :=
            {| id := id user; username := username user;
               firstName := firstName user; lastName := lastName user;
               password := password user; role := newRole;
               mustChangePassword := mustChangePassword user;
               createdAt := createdAt user; projects := projects user |} in
          let data := <[index := user]> data in
          writeUsers data
      end
  end.

(** [data.users.find(u => u.id === userId)] hands out the stored object
    itself: the first user with that id, together with its position in
    the array, at which an assignment to one of its fields takes effect. *)
Definition find_by_id (userId : string) (data : list User) : option (nat * User) :=
  match findIndex (fun u => String.eqb (id u) userId) data with
  | None => None
  | Some index =>
      match data !! index with
      | None => None
      | Some user => Some (index, user)
      end
  end.

(** What [authenticate] returns: [{ success: false, error }] or
    [{ success: true, user }]. *)
Inductive AuthResult :=
| AuthFailure (error : string)
| AuthSuccess (user : PublicUser).

Definition authenticate (username0 password0 : string) : js AuthResult :=
  data <- readUsers ;;
  match List.find (fun u => String.eqb (username u) username0) data with
  | None => ret (AuthFailure "Utilisateur non trouvé")
  | Some user =>
      let hashedPassword := hashPassword password0 in
      if negb (String.eqb (password user) hashedPassword)
      then ret (AuthFailure "Mot de passe incorrect")
      else ret (AuthSuccess (withoutPassword user))
  end.

Definition listUsers : js (list PublicUser) :=
  data <- readUsers ;;
  ret (map withoutPassword data).

(** [None] stands for [null]. *)
Definition getUserById (userId : string) : js (option PublicUser) :=
  data <- readUsers ;;
  match List.find (fun u => String.eqb (id u) userId) data with
  | None => ret None
  | Some user => ret (Some (withoutPassword user))
  end.

(** The user after [user.password = hashed; user.mustChangePassword = false]. *)
Definition with_password (hashed : string) (user : User) : User :=
  {| id := id user; username := username user;
     firstName := firstName user; lastName := lastName user;
     password := hashed; role := role user;
     mustChangePassword := Some false;
     createdAt := createdAt user; projects := projects user |}.

Definition changePassword (userId newPassword : string) : js unit :=
  (if Nat.ltb (utf16_length newPassword) 6
   then throw "Le mot de passe doit contenir au moins 6 caractères" else ret tt) ;;;
  data <- readUsers ;;
  match find_by_id userId data with
  | None => throw "Utilisateur non trouvé"
  | Some (index, user) =>
      let user := with_password (hashPassword newPassword) user in
      writeUsers (<[index := user]> data)
  end.

(** The user with another list of projects. *)
Definition with_projects (ps : list string) (user : User) : User :=
  {| id := id user; username := username user;
     firstName := firstName user; lastName := lastName user;
     password := password user; role := role user;
     mustChangePassword := mustChangePassword user;
     createdAt := createdAt user; projects := ps |}.

Definition assignProjectToUser (userId projectName : string) : js unit :=
  data <- readUsers ;;
  match find_by_id userId data with
  | None => throw "Utilisateur non trouvé"
  | Some (index, user) =>
      if negb (existsb (String.eqb projectName) (projects user)) then
        let user := with_projects (projects user ++ [projectName]) user in
        writeUsers (<[index := user]> data)
      else ret tt
  end.

Definition removeProjectFromUser (userId projectName : string) : js unit :=
  data <- readUsers ;;
  match find_by_id userId data with
  | None => throw "Utilisateur non trouvé"
  | Some (index, user) =>
      let user :=
        with_projects
          (List.filter (fun p => negb (String.eqb p projectName)) (projects user)) user in
      writeUsers (<[index := user]> data)
  end.

Definition getUserProjects (userId : string) : js (list string) :=
  data <- readUsers ;;
  match find_by_id userId data with
  | None => throw "Utilisateur non trouvé"
  | Some (_, user) => ret (projects user)
  end.

(** The argument [updates] of [updateUser], for a caller that gives each
    field a value of the type of the stored field or leaves it
    [undefined]: a text for [firstName], [lastName] and [username], and,
    for [mustChangePassword], the boolean that [!!] makes of its value.
    web/server.js takes the four fields from the body of the request as
    they are; a [username] that is no text ([null], a number) is not a value
    of this record, nor of the field [username] of a stored user. *)
Record Updates := {
  upd_firstName : option string;
  upd_lastName : option string;
  upd_username : option string;
  upd_mustChangePassword : option bool
}.

(** The user after the four assignments of [updateUser]: a field that is
    not [undefined] in [updates] replaces the one of the user. *)
Definition apply_updates (updates : Updates) (user : User) : User :=
  {| id := id user;
     username := match upd_username updates with
                 | Some newName => newName
                 | None => username user
                 end;
     firstName := match upd_firstName updates with
                  | Some first => Some first
                  | None => firstName user
                  end;
     lastName := match upd_lastName updates with
                 | Some last => Some last
                 | None => lastName user
                 end;
     password := password user; role := role user;
     mustChangePassword := match upd_mustChangePassword updates with
                           | Some flag => Some flag
                           | None => mustChangePassword user
                           end;
     createdAt := createdAt user; projects := projects user |}.

Definition updateUser (userId : string) (updates : Updates) : js PublicUser :=
  data <- readUsers ;;
  match find_by_id userId data with
  | None => throw "Utilisateur non trouvé"
  | Some (index, user) =>
      (match upd_username updates with
       | Some newName =>
           if truthy newName && negb (String.eqb newName (username user)) then
             if existsb (fun u => String.eqb (username u) newName) data
             then throw "Ce nom d'utilisateur est déjà utilisé" else ret tt
           else ret tt
       | None => ret tt
       end) ;;;
      let user := apply_updates updates user in
      writeUsers (<[index := user]> data) ;;;
      ret (withoutPassword user)
  end.

End WithCrypto.

Definition is_admin (u : User) : bool := String.eqb (role u) "admin".

(** The users that the store holds; none before the file is written. *)
Definition stored_users (w : World) : list User :=
  match users_store w with
  | UsersFile users => users
  | _ => []
  end.

End Users.

(* ===================================================================== *)
(** * modules/fileManager.js *)
(* ===================================================================== *)

(** [listFiles], [createDirectory], [deleteItem], [readFile], [writeFile]
    and [getFileInfo] are embedded.  [renameItem] and [copyItem] put the
    same test [fullPath.startsWith(projectPath)] in front of their file
    system calls. *)

Module FileManager.
Import JsString.
Import Runtime.

(** What [stat] tells about a node.  The size of a file is the number of
    its bytes; the size that the file system gives a directory is not part
    of the file system of [Runtime], and [None] stands for it. *)
Definition isDirectory (n : node) : bool :=
  match n with Dir => true | File _ _ => false end.
Definition size (n : node) : option nat :=
  match n with Dir => None | File content _ => Some (String.length content) end.

(** [stat(path)] *)
Definition stat (path : string) : js node :=
  fun w => match entry (fs w) path with
           | Some n => (Returned n, w)
           | None =>
               (Thrown {| message :=
                            match fs w !! canonical path with
                            | Some _ => "ENOTDIR: not a directory, stat '"
                            | None => "ENOENT: no such file or directory, stat '"
                            end +:+ path +:+ "'" |}, w)
           end.

(** The text of [s] after its first [n] characters. *)
Fixpoint string_drop (n : nat) (s : string) : string :=
  match n, s with
  | 0, _ => s
  | S n', String _ rest => string_drop n' rest
  | S _, EmptyString => EmptyString
  end.

(** The name under which [path] is listed in [dir], when it is a direct
    entry of it. *)
Definition entry_name (dir path : string) : option string :=
  if startsWith path (dir +:+ "/") then
    let rest := string_drop (S (String.length dir)) path in
    if truthy rest && negb (includes rest "/") then Some rest else None
  else None.

(** [readdir(path)] *)
Definition readdir (path : string) : js (list string) :=
  fun w => match fs w !! canonical path with
           | Some Dir =>
               (Returned (omap (fun kv => entry_name (canonical path) kv.1) (map_to_list (fs w))), w)
           | Some (File _ _) =>
               (Thrown {| message := "ENOTDIR: not a directory, scandir '" +:+ path +:+ "'" |}, w)
           | None =>
               (Thrown {| message := "ENOENT: no such file or directory, scandir '" +:+ path +:+ "'" |}, w)
           end.

(** Whether [path] is [root] or lies below it in the tree. *)
Definition below (root path : string) : bool :=
  String.eqb path root || startsWith path (root +:+ "/").

(** The files without [path] and what lies below it. *)
Definition remove_below (path : string) (files : gmap string node) : gmap string node :=
  filter (fun kv => below path kv.1 = false) files.

(** [fs.promises.rm(path, { recursive: true, force: true })]: a path that
    is not there is passed over; a file under a path with a slash at its
    end is not. *)
Definition rm_recursive (path : string) : js unit :=
  fun w => match fs w !! canonical path with
           | Some (File _ _) =>
               if Path.last_is_slash path
               then (Thrown {| message := "ENOTDIR: not a directory, rm '" +:+ path +:+ "'" |}, w)
               else (Returned tt, with_fs (remove_below (canonical path) (fs w)) w)
           | _ => (Returned tt, with_fs (remove_below (canonical path) (fs w)) w)
           end.

(** [unlink(path)] *)
Definition unlink (path : string) : js unit :=
  fun w => match fs w !! canonical path with
           | Some (File _ _) =>
               if Path.last_is_slash path
               then (Thrown {| message := "ENOTDIR: not a directory, unlink '" +:+ path +:+ "'" |}, w)
               else (Returned tt, with_fs (delete (canonical path) (fs w)) w)
           | Some Dir =>
               (Thrown {| message := "EISDIR: illegal operation on a directory, unlink '" +:+ path +:+ "'" |}, w)
           | None =>
               (Thrown {| message := "ENOENT: no such file or directory, unlink '" +:+ path +:+ "'" |}, w)
           end.

(** [s.replace(/\\/g, '/')] *)
Fixpoint backslashes_to_slashes (s : string) : string :=
  match s with
  | EmptyString => EmptyString
  | String c rest =>
      String (if Ascii.eqb c (ascii_of_nat 92) then slash else c)
             (backslashes_to_slashes rest)
  end.

(** One entry of a listing; the modification time is not part of the
    file system of [Runtime]. *)
Record FileEntry := {
  entry_label : string;
  entry_path : string;
  entry_is_directory : bool;
  entry_size : option nat;
  entry_permissions : option string
}.

(** Directories first: a listing that is a list of directories followed by
    a list of files. *)
Definition directories_first (files : list FileEntry) : Prop :=
  exists dirs rest,
    files = dirs ++ rest
    /\ forallb entry_is_directory dirs = true
    /\ forallb (fun f => negb (entry_is_directory f)) rest = true.

Section WithCollation.

(** [a.localeCompare(b)]: negative, zero or positive. *)
Variable localeCompare : string -> string -> Z.

(** The comparator of [files.sort]: directories first, then by name. *)
Definition compare_entries (a b : FileEntry) : Z :=
  if negb (Bool.eqb (entry_is_directory a) (entry_is_directory b)) then
    if entry_is_directory a then (-1)%Z else 1%Z
  else localeCompare (entry_label a) (entry_label b).

(** [Array.prototype.sort] is stable. *)
Fixpoint insert_entry (x : FileEntry) (sorted : list FileEntry) : list FileEntry :=
  match sorted with
  | [] => [x]
  | y :: rest =>
      if (compare_entries x y <=? 0)%Z then x :: y :: rest
      else y :: insert_entry x rest
  end.
Definition sort_entries (files : list FileEntry) : list FileEntry :=
  fold_right insert_entry [] files.

Definition listFiles (projectPath relativePath : string) : js (list FileEntry) :=
  let fullPath := Path.join [projectPath; relativePath] in
  (if negb (startsWith fullPath projectPath)
   then throw "Accès refusé : chemin invalide" else ret tt) ;;;
  present <- existsSync fullPath ;;
  (if negb present then throw "Répertoire non trouvé" else ret tt) ;;;
  items <- readdir fullPath ;;
  files <- (fix each (items : list string) (files : list FileEntry) : js (list FileEntry) :=
              match items with
              | [] => ret files
              | item :: rest =>
                  files' <- try_catch
                    (let itemPath := Path.join [fullPath; item] in
                     stats <- stat itemPath ;;
                     ret (files ++ [ {| entry_label := item;
                                        entry_path := backslashes_to_slashes (Path.join [relativePath; item]);
                                        entry_is_directory := isDirectory stats;
                                        entry_size := size stats;
                                        entry_permissions :=
                                          match stats with File _ mode => Some mode | Dir => None end |} ]))
                    (fun _ => ret files) ;;
                  each rest files'
              end) items [] ;;
  ret (sort_entries files).

End WithCollation.

Definition createDirectory (projectPath relativePath dirName : string) : js string :=
  let fullPath := Path.join [projectPath; relativePath; dirName] in
  (if negb (startsWith fullPath projectPath)
   then throw "Accès refusé : chemin invalide" else ret tt) ;;;
  present <- existsSync fullPath ;;
  (if present then throw "Un dossier avec ce nom existe déjà" else ret tt) ;;;
  mkdirSync_recursive fullPath ;;;
  ret (backslashes_to_slashes (Path.join [relativePath; dirName])).

Definition deleteItem (projectPath relativePath : string) : js unit :=
  let fullPath := Path.join [projectPath; relativePath] in
  (if negb (startsWith fullPath projectPath)
   then throw "Accès refusé : chemin invalide" else ret tt) ;;;
  present <- existsSync fullPath ;;
  (if negb present then throw "Fichier ou dossier non trouvé" else ret tt) ;;;
  stats <- stat fullPath ;;
  (if isDirectory stats then rm_recursive fullPath else unlink fullPath) ;;;
  ret tt.

(** [readFile] hands out a stream on the file; the model hands out what
    the stream delivers. *)
Definition readFile (projectPath relativePath : string) : js string :=
  let fullPath := Path.join [projectPath; relativePath] in
  (if negb (startsWith fullPath projectPath)
   then throw "Accès refusé : chemin invalide" else ret tt) ;;;
  present <- existsSync fullPath ;;
  (if negb present then throw "Fichier non trouvé" else ret tt) ;;;
  (fun w => match entry (fs w) fullPath with
            | Some (File content _) => (Returned content, w)
            | Some Dir => (Thrown {| message := "EISDIR: illegal operation on a directory, read" |}, w)
            | None =>
                (Thrown {| message := "ENOENT: no such file or directory, open '" +:+ fullPath +:+ "'" |}, w)
            end).

(** [fileStream] is given by the text it delivers. *)
Definition writeFile (projectPath relativePath fileStream : string) : js unit :=
  let fullPath := Path.join [projectPath; relativePath] in
  (if negb (startsWith fullPath projectPath)
   then throw "Accès refusé : chemin invalide" else ret tt) ;;;
  let directory := Path.dirname fullPath in
  present <- existsSync directory ;;
  (if negb present then mkdirSync_recursive directory else ret tt) ;;;
  writeFileSync fullPath fileStream.

(** What [getFileInfo] returns; the two time stamps are not part of the
    file system of [Runtime]. *)
Record FileInfo := {
  info_name : string;
  info_path : string;
  info_is_directory : bool;
  info_size : option nat;
  info_permissions : option string
}.

Definition getFileInfo (projectPath relativePath : string) : js FileInfo :=
  let fullPath := Path.join [projectPath; relativePath] in
  (if negb (startsWith fullPath projectPath)
   then throw "Accès refusé : chemin invalide" else ret tt) ;;;
  present <- existsSync fullPath ;;
  (if negb present then throw "Fichier non trouvé" else ret tt) ;;;
  stats <- stat fullPath ;;
  ret {| info_name := Path.basename fullPath;
         info_path := relativePath;
         info_is_directory := isDirectory stats;
         info_size := size stats;
         info_permissions := match stats with File _ mode => Some mode | Dir => None end |}.

End FileManager.

(* ===================================================================== *)
(** * web/server.js: DELETE /api/projects/:name/files *)
(* ===================================================================== *)

Module Server.
Import JsString.
Import Runtime.

(** The text of [s] after [pre], when [s] starts with [pre]. *)
Fixpoint strip_prefix (pre s : string) : option string :=
  match pre, s with
  | EmptyString, _ => Some s
  | String a pre', String b s' =>
      if Ascii.eqb a b then strip_prefix pre' s' else None
  | String _ _, EmptyString => None
  end.

(** Modelled from the spec: utils/shell.js is not among the sources.
    [pm2Command] issues a command to the external supervisor: the command
    line is recorded, and [stop] and [delete] of a name that the supervisor
    does not know fail; [delete] forgets the name. *)
Definition pm2Command (args : string) : js unit :=
  fun w =>
    let w := with_commands (commands w ++ ["pm2 " +:+ args]) w in
    match strip_prefix "stop " args, strip_prefix "delete " args with
    | Some pm2Name, _ =>
        if existsb (String.eqb pm2Name) (processes w) then (Returned tt, w)
        else (Thrown {| message := "Process or Namespace " +:+ pm2Name +:+ " not found" |}, w)
    | None, Some pm2Name =>
        if existsb (String.eqb pm2Name) (processes w)
        then (Returned tt,
              with_processes (List.filter (fun p => negb (String.eqb p pm2Name)) (processes w)) w)
        else (Thrown {| message := "Process or Namespace " +:+ pm2Name +:+ " not found" |}, w)
    | None, None => (Returned tt, w)
    end.

(** The operands that [rm] refuses, whatever its options: the root, and a
    path whose last component, the slashes at its end apart, is [.] or
    [..]. *)
Definition rm_refuses (target : string) : bool :=
  let last := Path.basename target in
  String.eqb last "." || String.eqb last ".."
  || (truthy target && only_slashes target).

(** The path that the segments kept so far make up, the last one first. *)
Definition path_of (absolute : bool) (kept : list string) : string :=
  (if absolute then "/" else EmptyString) +:+ join "/" (rev kept).

(** One segment of the walk of the system to a file: an empty segment and
    [.] stay where the walk is, a name goes down, and [..] goes up from a
    directory that is there; from anything else it leads nowhere.  Above
    the root there is the root; what is above the working directory is not
    part of the world. *)
Definition resolve_step (files : gmap string node) (absolute : bool)
    (kept : option (list string)) (seg : string) : option (list string) :=
  match kept with
  | None => None
  | Some stack =>
      if String.eqb seg EmptyString || String.eqb seg "." then Some stack
      else if String.eqb seg ".." then
        match stack with
        | [] => if absolute then Some [] else None
        | _ :: above =>
            match files !! path_of absolute stack with
            | Some Dir => Some above
            | _ => None
            end
        end
      else Some (seg :: stack)
  end.

(** The file that the system resolves [target] to, if any. *)
Definition resolve (files : gmap string node) (target : string) : option string :=
  let absolute := Path.first_is_slash target in
  option_map (path_of absolute)
    (fold_left (resolve_step files absolute) (Path.split_slash target) (Some [])).

(** Modelled from the spec: utils/shell.js is not among the sources.
    [execCommand] runs a command line, which is recorded, and throws when
    the command fails.  The one command line of this route is [rm -rf] of a
    path between double quotes, taken here as the shell reads a path
    without double quote, dollar, backquote and backslash: as it is
    written.  [rm] fails on an operand that it refuses, and removes nothing
    then; otherwise it removes the file that the path resolves to with
    everything below it, and a path that resolves to nothing is no failure
    under [-f]. *)
Definition execCommand_rm_rf (target : string) : js unit :=
  fun w =>
    let line := "rm -rf " +:+ dq +:+ target +:+ dq in
    let w := with_commands (commands w ++ [line]) w in
    if rm_refuses target then
      (Thrown {| message := "Command failed: " +:+ line |}, w)
    else
      match resolve (fs w) target with
      | Some path => (Returned tt, with_fs (FileManager.remove_below path (fs w)) w)
      | None => (Returned tt, w)
      end.

Record Response := {
  status : nat;
  success : bool;
  error : option string
}.

(** The loop over the services of the project, with its test. *)
Definition stops_service (fullTargetPath : string) (service : Project.Service) : bool :=
  truthy (Project.directory service)
  && startsWith (Project.directory service) fullTargetPath.

Definition service_pm2Name (projectName : string) (service : Project.Service) : string :=
  match Project.pm2Name service with
  | Some explicit =>
      if truthy explicit then explicit
      else projectName +:+ "-" +:+ Project.name service
  | None => projectName +:+ "-" +:+ Project.name service
  end.

(** The body of [for (const service of projectConfig.services || [])]. *)
Definition stop_service_before_removal (projectName fullTargetPath : string)
    (service : Project.Service) : js unit :=
  if stops_service fullTargetPath service then
    let pm2Name := service_pm2Name projectName service in
    try_catch
      (pm2Command ("stop " +:+ pm2Name) ;;;
       pm2Command ("delete " +:+ pm2Name) ;;;
       logger Info ("Service PM2 arrêté avant suppression: " +:+ pm2Name))
      (fun _ => ret tt)
  else ret tt.

Definition stop_services (projectName fullTargetPath : string) : js unit :=
  try_catch
    (projectConfig <- loadProjectConfig projectName ;;
     for_of (default [] (Project.services projectConfig))
       (stop_service_before_removal projectName fullTargetPath))
    (fun error =>
       logger Warn ("Impossible de vérifier les services PM2: " +:+ message error)).

(** [`/var/www/${req.params.name}/sites`] *)
Definition projectPath_of (projectName : string) : string :=
  "/var/www/" +:+ projectName +:+ "/sites".

(** The handler; [query_path] is [req.query.path]. *)
Definition delete_files (projectName : string) (query_path : option string)
    : js Response :=
  try_catch
    (project <- getProject projectName ;;
     match project with
     | None => ret {| status := 404; success := false; error := Some "Projet non trouvé" |}
     | Some _ =>
         match query_path with
         | None => ret {| status := 400; success := false; error := Some "Chemin requis" |}
         | Some relativePath =>
             if negb (truthy relativePath)
             then ret {| status := 400; success := false; error := Some "Chemin requis" |}
             else
               let projectPath := projectPath_of projectName in
               let fullTargetPath :=
                 collapse_slashes (projectPath +:+ "/" +:+ relativePath) in
               if negb (startsWith fullTargetPath (projectPath +:+ "/"))
                  || String.eqb fullTargetPath projectPath
               then ret {| status := 400; success := false; error := Some "Chemin invalide" |}
               else
                 stop_services projectName fullTargetPath ;;;
                 execCommand_rm_rf fullTargetPath ;;;
                 ret {| status := 200; success := true; error := None |}
         end
     end)
    (fun error =>
       logger Failure ("API: " +:+ message error) ;;;
       ret {| status := 500; success := false; error := Some (message error) |}).

(** The path that the route removes. *)
Definition fullTargetPath_of (projectName relativePath : string) : string :=
  collapse_slashes (projectPath_of projectName +:+ "/" +:+ relativePath).


(** The command lines that the supervisor gets for [services] while it
    runs the processes [running]: for each service, in turn, whose
    directory is not empty and starts with [fullTargetPath], the [stop] of
    its handle, followed by the [delete] of that handle when the [stop] has
    succeeded, which it does for a process that the supervisor runs. *)
Fixpoint stop_lines (projectName fullTargetPath : string)
    (services : list Project.Service) (running : list string) : list string :=
  match services with
  | [] => []
  | service :: rest =>
      if truthy (Project.directory service)
         && startsWith (Project.directory service) fullTargetPath then
        let pm2Name := service_pm2Name projectName service in
        if existsb (String.eqb pm2Name) running then
          ("pm2 stop " +:+ pm2Name) :: ("pm2 delete " +:+ pm2Name)
          :: stop_lines projectName fullTargetPath rest
               (List.filter (fun p => negb (String.eqb p pm2Name)) running)
        else
          ("pm2 stop " +:+ pm2Name)
          :: stop_lines projectName fullTargetPath rest running
      else stop_lines projectName fullTargetPath rest running
  end.

(** A project name that is one segment of a path. *)
Definition plain_project_name (p : string) : Prop :=
  slash_free p = true /\ p <> EmptyString /\ p <> "." /\ p <> "..".

(** ** POST /api/projects/:name/regenerate-scripts and
       POST /api/regenerate-all-scripts *)

(** What these handlers answer: the status, and the fields [success],
    [message] and [error] of the body. *)
Record Answer := {
  answer_status : nat;
  answer_success : bool;
  answer_message : option string;
  answer_error : option string
}.

Definition regenerate_scripts (projectName : string) : js Answer :=
  try_catch
    (Scripts.generateScripts projectName ;;;
     ret {| answer_status := 200; answer_success := true;
            answer_message := Some "Scripts régénérés"; answer_error := None |})
    (fun error =>
       logger Failure ("API: " +:+ message error) ;;;
       ret {| answer_status := 400; answer_success := false;
              answer_message := None; answer_error := Some (message error) |}).

Definition regenerate_all_scripts : js Answer :=
  try_catch
    (Scripts.regenerateAllScripts ;;;
     ret {| answer_status := 200; answer_success := true;
            answer_message := Some "Tous les scripts régénérés"; answer_error := None |})
    (fun error =>
       logger Failure ("API: " +:+ message error) ;;;
       ret {| answer_status := 400; answer_success := false;
              answer_message := None; answer_error := Some (message error) |}).

End Server.

(* ===================================================================== *)
(** * modules/databases.js: the configured databases *)
(* ===================================================================== *)

(** [initDatabasesConfig], [loadDatabases], [saveDatabases],
    [createMySQLDatabase], [getAllDatabases] and [getDatabasesForUser] are
    embedded: the part of the module that keeps databases.json.  The
    functions that talk to a database server are not. *)

Module Databases.
Import JsString.
Import Js.

(** An entry of databases.json.  [projectName] is [null] for a database
    that belongs to no project; [authDatabase] is a field of the MongoDB
    entries only. *)
Record Database := {
  db_id : string;
  db_name : string;
  db_type : string;
  db_host : string;
  db_port : N;
  db_username : string;
  db_password : string;
  db_authDatabase : option string;
  db_projectName : option string;
  db_createdAt : string
}.

(** The argument of [createMySQLDatabase]: each field is a value or
    [undefined]. *)
Record DatabaseConfig := {
  cfg_name : option string;
  cfg_host : option string;
  cfg_port : option N;
  cfg_username : option string;
  cfg_password : option string;
  cfg_projectName : option string
}.

(** A configuration that passes the first test of [createMySQLDatabase]:
    name, host, user name and password are given and not empty. *)
Definition demanded (config : DatabaseConfig) : Prop :=
  exists name host username password,
    cfg_name config = Some name /\ cfg_host config = Some host
    /\ cfg_username config = Some username /\ cfg_password config = Some password
    /\ truthy name = true /\ truthy host = true
    /\ truthy username = true /\ truthy password = true.

(** The state of databases.json: its directory may be missing, the file
    may be missing, it may hold a text that [JSON.parse] rejects with the
    message [why], or it holds the two arrays [mysql] and [mongodb]. *)
Inductive config_file :=
| NoConfigDir
| NoFile
| Unreadable (why : string)
| Stored (mysql mongodb : list Database).

(** The world of the module: the file, the names of the stored projects,
    the log, and the clock, which gives the milliseconds of [Date.now()]
    and the text of [new Date().toISOString()], reading after reading. *)
Record World := {
  file : config_file;
  stored_projects : list string;
  log : list (Runtime.level * string);
  clock_source : nat -> N * string;
  clock_calls : nat
}.

Definition with_file (f : config_file) (w : World) : World :=
  {| file := f; stored_projects := stored_projects w; log := log w;
     clock_source := clock_source w; clock_calls := clock_calls w |}.
Definition with_log (l : list (Runtime.level * string)) (w : World) : World :=
  {| file := file w; stored_projects := stored_projects w; log := l;
     clock_source := clock_source w; clock_calls := clock_calls w |}.

Abbreviation js := (Js.js World).

(** Modelled from the spec: utils/logger.js is not among the sources; a
    call of a method of the logger is recorded as one entry of the log. *)
Definition logger (lvl : Runtime.level) (msg : string) : js unit :=
  fun w => (Returned tt, with_log (log w ++ [(lvl, msg)]) w).

(** Modelled from the spec: [projects.projectExists(name)] of
    modules/projects.js, which is not among the sources, tells whether a
    project of that name is stored. *)
Definition projectExists (projectName : string) : js bool :=
  fun w => (Returned (existsb (String.eqb projectName) (stored_projects w)), w).

Definition Date_now : js N :=
  fun w => (Returned (clock_source w (clock_calls w)).1,
            {| file := file w; stored_projects := stored_projects w; log := log w;
               clock_source := clock_source w; clock_calls := S (clock_calls w) |}).
Definition new_Date_toISOString : js string :=
  fun w => (Returned (clock_source w (clock_calls w)).2,
            {| file := file w; stored_projects := stored_projects w; log := log w;
               clock_source := clock_source w; clock_calls := S (clock_calls w) |}).

(** The text of a number in a template literal. *)
Definition decimal (n : N) : string := NilZero.string_of_uint (N.to_uint n).

Section WithConfigPath.

(** [path.join(TOOL_CONFIG_PATH, 'databases.json')]; config/constants.js
    is not among the sources. *)
Variable DATABASES_CONFIG_FILE : string.

Definition existsSync_FILE : js bool :=
  fun w => (Returned (match file w with NoConfigDir | NoFile => false | _ => true end), w).
Definition writeFileSync_FILE (mysql mongodb : list Database) : js unit :=
  fun w => match file w with
           | NoConfigDir =>
               (Thrown {| message := "ENOENT: no such file or directory, open '"
                                     +:+ DATABASES_CONFIG_FILE +:+ "'" |}, w)
           | _ => (Returned tt, with_file (Stored mysql mongodb) w)
           end.
(** [JSON.parse(fs.readFileSync(DATABASES_CONFIG_FILE, 'utf8'))] *)
Definition readFileSync_FILE_parsed : js (list Database * list Database) :=
  fun w => match file w with
           | Stored mysql mongodb => (Returned (mysql, mongodb), w)
           | Unreadable why => (Thrown {| message := why |}, w)
           | _ =>
               (Thrown {| message := "ENOENT: no such file or directory, open '"
                                     +:+ DATABASES_CONFIG_FILE +:+ "'" |}, w)
           end.

Definition initDatabasesConfig : js unit :=
  present <- existsSync_FILE ;;
  if negb present then
    writeFileSync_FILE [] [] ;;;
    logger Runtime.Debug
      ("Fichier de configuration des BDD créé: " +:+ DATABASES_CONFIG_FILE)
  else ret tt.

Definition loadDatabases : js (list Database * list Database) :=
  try_catch
    (initDatabasesConfig ;;;
     readFileSync_FILE_parsed)
    (fun error =>
       logger Runtime.Failure
         ("Erreur lors du chargement des BDD: " +:+ message error) ;;;
       ret ([], [])).

Definition saveDatabases (databases : list Database * list Database) : js unit :=
  try_catch
    (initDatabasesConfig ;;;
     writeFileSync_FILE databases.1 databases.2 ;;;
     logger Runtime.Debug "Configuration des BDD sauvegardée")
    (fun error => throw ("Erreur lors de la sauvegarde: " +:+ message error)).

(** [createMySQLDatabase] is an [async] function: what it throws rejects
    the promise it returns. *)
Definition createMySQLDatabase (config : DatabaseConfig) : js Database :=
  match cfg_name config, cfg_host config, cfg_username config, cfg_password config with
  | Some name, Some host, Some username, Some password =>
      if negb (truthy name) || negb (truthy host)
         || negb (truthy username) || negb (truthy password)
      then throw "Tous les champs sont requis"
      else
        (match cfg_projectName config with
         | Some projectName =>
             if truthy projectName then
               known <- projectExists projectName ;;
               if negb known
               then throw ("Le projet " +:+ projectName +:+ " n'existe pas")
               else ret tt
             else ret tt
         | None => ret tt
         end) ;;;
        databases <- loadDatabases ;;
        (if existsb (fun db => String.eqb (db_name db) name) databases.1
         then throw ("La base de données MySQL " +:+ name +:+ " existe déjà")
         else ret tt) ;;;
        stamp <- Date_now ;;
        iso <- new_Date_toISOString ;;
        let database :=
          {| db_id := "mysql_" +:+ decimal stamp;
             db_name := name;
             db_type := "mysql";
             db_host := if truthy host then host else "localhost";
             db_port := match cfg_port config with
                        | Some port => if N.eqb port 0 then 3306%N else port
                        | None => 3306%N
                        end;
             db_username := username;
             db_password := password;
             db_authDatabase := None;
             db_projectName := match cfg_projectName config with
                               | Some projectName =>
                                   if truthy projectName then Some projectName else None
                               | None => None
                               end;
             db_createdAt := iso |} in
        logger Runtime.Info ("Base de données MySQL " +:+ name +:+ " configurée") ;;;
        saveDatabases (databases.1 ++ [database], databases.2) ;;;
        logger Runtime.Success ("Base de données MySQL " +:+ name +:+ " créée") ;;;
        ret database
  | _, _, _, _ => throw "Tous les champs sont requis"
  end.

(** [{ ...db, type }] *)
Definition with_type (type : string) (db : Database) : Database :=
  {| db_id := db_id db; db_name := db_name db; db_type := type;
     db_host := db_host db; db_port := db_port db;
     db_username := db_username db; db_password := db_password db;
     db_authDatabase := db_authDatabase db; db_projectName := db_projectName db;
     db_createdAt := db_createdAt db |}.

(** The MySQL entries, then the MongoDB entries, each with its type. *)
Definition all_typed (databases : list Database * list Database) : list Database :=
  map (with_type "mysql") databases.1 ++ map (with_type "mongodb") databases.2.

(** [projectName] is [null] by default. *)
Definition getAllDatabases (projectName : option string) : js (list Database) :=
  databases <- loadDatabases ;;
  let allDbs := all_typed databases in
  let allDbs :=
    match projectName with
    | Some wanted =>
        if truthy wanted then
          List.filter
            (fun db => match db_projectName db with
                       | Some assigned => String.eqb assigned wanted
                       | None => false
                       end) allDbs
        else allDbs
    | None => allDbs
    end in
  ret allDbs.

(** The test of the filter of [getDatabasesForUser]:
    [db.projectName && userProjects.includes(db.projectName)]. *)
Definition accessible (userProjects : list string) (db : Database) : bool :=
  match db_projectName db with
  | Some assigned => truthy assigned && existsb (String.eqb assigned) userProjects
  | None => false
  end.

Definition getDatabasesForUser (user : Users.User) : js (list Database) :=
  if String.eqb (Users.role user) "admin" then getAllDatabases None
  else
    let userProjects := Users.projects user in
    databases <- loadDatabases ;;
    let allDbs := all_typed databases in
    ret (List.filter (accessible userProjects) allDbs).

End WithConfigPath.

End Databases.

(* ===================================================================== *)
(** * The shape of the generated scripts *)
(* ===================================================================== *)

Module ScriptShape.
Import JsString.
Import Project.
Import Scripts.

(** The five texts of one generation, in the order in which
    [generateScripts] produces them. *)
Record ScriptSet := {
  start : string;
  stop : string;
  restart : string;
  status : string;
  deploy : string
}.

Definition generate (projectName : string) (services : list Service) : ScriptSet :=
  {| start := generateStartScript projectName services;
     stop := generateStopScript projectName services;
     restart := generateRestartScript projectName services;
     status := generateStatusScript projectName services;
     deploy := generateDeployScript projectName services |}.

(** The handle under which the supervisor knows a service. *)
Definition handle (projectName : string) (service : Service) : string :=
  projectName +:+ "-" +:+ name service.

(** The message of the branch [services.length === 0]. *)
Definition no_service_line : string :=
  "echo " +:+ dq +:+ "Aucun service configuré pour ce projet" +:+ dq +:+ nl.

(** The same message as a command, without its line feed. *)
Definition no_service_command : string :=
  "echo " +:+ dq +:+ "Aucun service configuré pour ce projet" +:+ dq.

(** The fields of a service that reach a script. *)
Definition rendered (s : Service) : string * string * string :=
  (name s, directory s, command s).

Definition concat_strings (parts : list string) : string :=
  fold_right String.append EmptyString parts.

(** What one turn of each loop appends. *)
Definition start_block (projectName : string) (s : Service) : string :=
  start_loop_body projectName EmptyString s.
Definition stop_block (projectName : string) (s : Service) : string :=
  stop_loop_body projectName EmptyString s.
Definition restart_block (projectName : string) (s : Service) : string :=
  restart_loop_body projectName EmptyString s.
Definition deploy_block (s : Service) : string :=
  deploy_loop_body EmptyString s.

(** The text after the loop of [generateStartScript]. *)
Definition start_footer : string :=
  unlines [
    "# Sauvegarder la configuration PM2";
    "pm2 save";
    EmptyString;
    "echo " +:+ dq +:+ "==========================================" +:+ dq;
    "echo " +:+ dq +:+ "  Tous les services ont été démarrés" +:+ dq;
    "echo " +:+ dq +:+ "==========================================" +:+ dq;
    "echo " +:+ dq +:+ dq;
    "echo " +:+ dq +:+ "Utilisez 'pm2 status' pour voir l'état des services" +:+ dq;
    "echo " +:+ dq +:+ "Utilisez 'pm2 logs' pour voir les logs" +:+ dq
  ].
Definition stop_footer : string :=
  unlines [
    "# Sauvegarder la configuration PM2";
    "pm2 save";
    EmptyString;
    "echo " +:+ dq +:+ "==========================================" +:+ dq;
    "echo " +:+ dq +:+ "  Tous les services ont été arrêtés" +:+ dq;
    "echo " +:+ dq +:+ "==========================================" +:+ dq
  ].
Definition restart_footer : string :=
  unlines [
    "# Sauvegarder la configuration PM2";
    "pm2 save";
    EmptyString;
    "echo " +:+ dq +:+ "==========================================" +:+ dq;
    "echo " +:+ dq +:+ "  Tous les services ont été redémarrés" +:+ dq;
    "echo " +:+ dq +:+ "==========================================" +:+ dq
  ].
Definition deploy_intro : string :=
  unlines [ "# Déploiement de chaque service"; "CURRENT_USER=$(whoami)"; EmptyString ].
Definition deploy_footer : string :=
  unlines [
    "echo " +:+ dq +:+ "==========================================" +:+ dq;
    "echo " +:+ dq +:+ "  Déploiement terminé" +:+ dq;
    "echo " +:+ dq +:+ "==========================================" +:+ dq;
    "echo " +:+ dq +:+ dq;
    "echo " +:+ dq +:+ "Utilisez './scripts/start.sh' pour démarrer les services" +:+ dq
  ].

(** The filter of status.sh: the alternatives of its group, and the line
    that carries it. *)
Definition status_alternatives (projectName : string) (services : list Service)
    : list string :=
  map (handle projectName) services ++ ["Name"; "─"].
Definition status_pattern (alternatives : list string) : string :=
  "(" +:+ join "|" alternatives +:+ ")".
Definition status_filter_line (pattern : string) : string :=
  "pm2 list | grep -E " +:+ dq +:+ pattern +:+ dq +:+ " || echo " +:+ dq +:+ "Aucun service actif" +:+ dq.

(** The start of a service under its handle, with the restart of the same
    handle as its fallback. *)
Definition start_invocation (projectName : string) (s : Service) : string :=
  "pm2 start " +:+ dq +:+ command s +:+ dq +:+ " --name " +:+ dq +:+ handle projectName s +:+ dq
    +:+ " --cwd " +:+ dq +:+ directory s +:+ dq
    +:+ " 2>/dev/null || pm2 restart " +:+ dq +:+ handle projectName s +:+ dq.

(** The number of lines of [text] that are exactly [line]. *)
Definition line_count (line text : string) : nat :=
  length (List.filter (String.eqb line) (lines text)).

(** A service whose rendered fields hold no line feed. *)
Definition single_line_service (s : Service) : bool :=
  single_line (name s) && single_line (directory s) && single_line (command s).

(** [grep -E] with a group of alternatives that are plain text selects the
    lines in which one of the alternatives occurs. *)
Definition grep_selects (alternatives : list string) (line : string) : bool :=
  existsb (includes line) alternatives.

(** A row of the process table of [pm2 list]: the cells between bars. *)
Definition table_row (cells : list string) : string :=
  "│ " +:+ join " │ " cells +:+ " │".

(** Modelled from the spec: modules/services.js is not among the sources.
    [removeService] deletes the entry of the service from the stored
    list. *)
Definition removeService_entries (serviceName : string) (services : list Service)
    : list Service :=
  List.filter (fun s => negb (String.eqb (name s) serviceName)) services.

(** The lines of one turn of the loop of [generateStartScript]. *)
Definition start_warning_lines (s : Service) : list string :=
  if truthy (command s)
     && (includes (command s) "build" || includes (command s) "tsc")
  then [ "echo " +:+ dq +:+ "⚠ ATTENTION: La commande '" +:+ command s +:+ "' semble être un build" +:+ dq;
         "echo " +:+ dq +:+ "⚠ PM2 va redémarrer en boucle car le build se termine" +:+ dq;
         "echo " +:+ dq +:+ "⚠ Utilisez 'npm start' ou 'npx vite preview' pour un serveur" +:+ dq;
         "echo " +:+ dq +:+ dq ]
  else [].
Definition start_block_lines (projectName : string) (s : Service) : list string :=
  [ "# Service: " +:+ name s;
    "echo " +:+ dq +:+ "Démarrage de " +:+ name s +:+ "..." +:+ dq;
    "cd " +:+ dq +:+ directory s +:+ dq ]
  ++ start_warning_lines s
  ++ [ start_invocation projectName s;
       "echo " +:+ dq +:+ "  ✔ " +:+ name s +:+ " démarré" +:+ dq;
       "echo " +:+ dq +:+ dq;
       EmptyString ].

End ScriptShape.

(* ===================================================================== *)
(** * Running a script that has no service block *)
(* ===================================================================== *)

(** The scripts that the generators produce for an empty service list are
    made of a few kinds of lines only: comments, [set -e], [echo], [exit],
    the test for the supervisor with its [if ... fi], and the definition of
    a function.  [run] executes such a script line by line, given whether
    the supervisor [pm2] is installed; it yields the [echo] commands that
    were executed and the exit status, and nothing for a script with any
    other kind of line. *)

Module Shell.
Import JsString.

(** A text that the shell leaves as it is between double quotes, on one
    line: no line feed, double quote, dollar, backquote or backslash. *)
Definition plain_char (c : ascii) : bool :=
  negb (existsb (Nat.eqb (nat_of_ascii c)) [10; 34; 36; 96; 92]).
Fixpoint plain_text (s : string) : bool :=
  match s with
  | EmptyString => true
  | String c rest => plain_char c && plain_text rest
  end.

Fixpoint trim_left (s : string) : string :=
  match s with
  | String c rest => if Ascii.eqb c (ascii_of_nat 32) then trim_left rest else s
  | EmptyString => EmptyString
  end.

Inductive mode :=
| Running          (* executing the lines *)
| Skipping_if      (* inside an [if] whose test has failed, up to [fi] *)
| Skipping_function. (* inside the body of a function definition, up to [}] *)

Fixpoint run_lines (pm2_installed : bool) (m : mode) (script : list string)
    (echoed : list string) : option (list string * nat) :=
  match script with
  | [] =>
      (* the end of the script: the status of the last command; [echo]
         and a completed [if] give 0 *)
      Some (echoed, 0)
  | line :: rest =>
      let command := trim_left line in
      match m with
      | Skipping_function =>
          if String.eqb line "}" then run_lines pm2_installed Running rest echoed
          else run_lines pm2_installed Skipping_function rest echoed
      | Skipping_if =>
          if String.eqb command "fi" then run_lines pm2_installed Running rest echoed
          else run_lines pm2_installed Skipping_if rest echoed
      | Running =>
          if String.eqb command EmptyString || String.prefix "#" command
          then run_lines pm2_installed Running rest echoed
          else if String.eqb command "set -e"
          then run_lines pm2_installed Running rest echoed
          else if String.prefix "echo " command
          then run_lines pm2_installed Running rest (echoed ++ [command])
          else if String.eqb command "exit 0" then Some (echoed, 0)
          else if String.eqb command "exit 1" then Some (echoed, 1)
          else if String.eqb command "if ! command -v pm2 &> /dev/null; then"
          then run_lines pm2_installed
                 (if pm2_installed then Skipping_if else Running) rest echoed
          else if String.eqb command "fi"
          then run_lines pm2_installed Running rest echoed
          else if String.eqb command "fix_permissions() {"
          then run_lines pm2_installed Skipping_function rest echoed
          else None
      end
  end.

Definition run (pm2_installed : bool) (script : string) : option (list string * nat) :=
  run_lines pm2_installed Running (lines script) [].

End Shell.

(* ===================================================================== *)
(** * The writes of one materialisation *)
(* ===================================================================== *)

Module Materialisation.
Import JsString.
Import Runtime.
Import Scripts.

(** The file names, in the order in which [generateScripts] writes them. *)
Definition script_names : list string :=
  [SCRIPTS_start; SCRIPTS_stop; "restart.sh"; "status.sh"; "deploy.sh"].

(** The five texts, in the same order. *)
Definition script_texts (projectName : string) (services : list Project.Service)
    : list string :=
  [ generateStartScript projectName services;
    generateStopScript projectName services;
    generateRestartScript projectName services;
    generateStatusScript projectName services;
    generateDeployScript projectName services ].

(** Each path with the text that goes to it. *)
Definition targets (projectName : string) (services : list Project.Service)
    : list (string * string) :=
  combine (getScriptsPaths projectName) (script_texts projectName services).

(** The services that [generateScripts] reads for a project. *)
Definition stored_services (config : Project.Config) : list Project.Service :=
  default [] (Project.services config).

(** The world after one file has been written, made executable and
    reported. *)
Definition written (target : string * string) (w : World) : World :=
  with_log (log w ++ [(Debug, "Script créé: " +:+ target.1)])
    (with_fs (<[target.1 := File target.2 "755"]> (fs w)) w).

Definition written_all (done : list (string * string)) (w : World) : World :=
  fold_left (fun w' target => written target w') done w.

(** The writes of [generateScripts], one target after the other, followed by
    what comes after them. *)
Fixpoint write_all (todo : list (string * string)) (after : js unit) : js unit :=
  match todo with
  | [] => after
  | (path, content) :: rest =>
      writeFileSync path content ;;;
      chmodSync path "755" ;;;
      logger Debug ("Script créé: " +:+ path) ;;;
      write_all rest after
  end.

(** The file at [path] holds [content] and is executable. *)
Definition holds (w : World) (path content : string) : Prop :=
  fs w !! path = Some (File content "755").

(** Whatever was at [path] before is still there. *)
Definition untouched (before after : World) (path : string) : Prop :=
  forall n, fs before !! path = Some n -> fs after !! path = Some n.

(** The entry that the logger leaves for the outcome of one project. *)
Definition outcome_entry (projectName : string) (r : outcome unit)
    : level * string :=
  match r with
  | Returned _ => (Success, "Scripts générés pour " +:+ projectName)
  | Thrown e => (Failure, "Erreur pour " +:+ projectName +:+ ": " +:+ message e)
  end.

(** The generations that [regenerateAllScripts] goes through: each project
    with the outcome of its [generateScripts], run in the world that the
    projects before it have left. *)
Fixpoint attempts (todo : list Project.Config) (w : World)
    : list (string * outcome unit) :=
  match todo with
  | [] => []
  | project :: rest =>
      let '(r, w') := generateScripts (Project.config_name project) w in
      let w'' := match r with
                 | Returned _ => w'
                 | Thrown e =>
                     with_log (log w' ++ [outcome_entry (Project.config_name project) r]) w'
                 end in
      (Project.config_name project, r) :: attempts rest w''
  end.

Definition is_debug (entry : level * string) : bool :=
  match entry.1 with Debug => true | _ => false end.

(** What [regenerateAllScripts] does with one project. *)
Definition regenerate_one (project : Project.Config) : js unit :=
  try_catch
    (generateScripts (Project.config_name project))
    (fun error =>
       logger Failure
         ("Erreur pour " +:+ Project.config_name project +:+ ": " +:+ message error)).

(** The entries of the log other than the debug entries. *)
Definition reported (entry : level * string) : bool := negb (is_debug entry).

(** A file name that [normalize] keeps as the last segment. *)
Definition plain_name (f : string) : Prop :=
  Path.split_slash f = [f]
  /\ (forall above stack, Path.normalize_step above stack f = f :: stack)
  /\ Path.last_is_slash f = false
  /\ f <> EmptyString.

(** What [normalize] puts in front of the last segment. *)
Definition normalized_front (x : string) : string :=
  let absolute := Path.first_is_slash (x +:+ "/") in
  (if absolute then "/" else EmptyString)
  +:+ match rev (fold_left (Path.normalize_step (negb absolute)) (Path.split_slash x) []) with
      | [] => EmptyString
      | kept => JsString.join "/" kept +:+ "/"
      end.

End Materialisation.

(* ===================================================================== *)
(** * Concrete projects, worlds and stores *)
(* ===================================================================== *)

Module Examples.
Import JsString.
Import Project.

Definition service (n d c : string) : Service :=
  {| name := n; directory := d; command := c;
     description := EmptyString; setupCommands := []; pm2Name := None |}.

(** The project [shop] of the specification's scenario. *)
Definition shop_services : list Service :=
  [ service "api" "api" "serve"; service "web" "web" "serve-web" ].

(** The same services with other descriptions and setup commands. *)
Definition shop_services_described : list Service :=
  [ {| name := "api"; directory := "api"; command := "serve";
       description := "REST API"; setupCommands := ["npm install"];
       pm2Name := None |};
    {| name := "web"; directory := "web"; command := "serve-web";
       description := "Front end"; setupCommands := [];
       pm2Name := Some "shop-web" |} ].

(** A row of [pm2 list] for a process of the project [eshop]. *)
Definition eshop_row : string :=
  ScriptShape.table_row
    ["3"; "eshop-api"; "default"; "1.0.0"; "fork"; "4711"; "2D"; "0"; "online";
     "0%"; "48.2mb"; "root"; "disabled"].

(** The stored record of the project shop. *)
Definition shop_config : Config :=
  {| config_name := "shop"; services := Some shop_services; createdAt := "2024-01-01T00:00:00.000Z" |}.

(** A scripts directory that holds an earlier generation, in which
    restart.sh is a directory. *)
Definition earlier_scripts : gmap string Runtime.node :=
  list_to_map
    [ ("/var", Runtime.Dir); ("/var/www", Runtime.Dir); ("/var/www/shop", Runtime.Dir);
      ("/var/www/shop/scripts", Runtime.Dir);
      ("/var/www/shop/scripts/start.sh", Runtime.File "old start" "755");
      ("/var/www/shop/scripts/stop.sh", Runtime.File "old stop" "755");
      ("/var/www/shop/scripts/restart.sh", Runtime.Dir);
      ("/var/www/shop/scripts/status.sh", Runtime.File "old status" "755");
      ("/var/www/shop/scripts/deploy.sh", Runtime.File "old deploy" "755") ].

Definition world_with (files : gmap string Runtime.node) (stored : list Config)
    : Runtime.World :=
  {| Runtime.fs := files; Runtime.projects := stored; Runtime.log := [];
     Runtime.processes := []; Runtime.commands := [] |}.

Definition blocked_world : Runtime.World := world_with earlier_scripts [shop_config].

(** A second project, on an empty disk next to the first. *)
Definition blog_config : Config :=
  {| config_name := "blog"; services := None; createdAt := "2024-02-01T00:00:00.000Z" |}.

Definition two_projects_world : Runtime.World :=
  world_with earlier_scripts [shop_config; blog_config].

(** A stand-in for SHA-256, to run the user store on examples. *)
Definition toy_hash (password : string) : string := "sha256:" +:+ password.

(** A first start: no data directory yet.  The identifiers and the time
    stamps are handed out in this order. *)
Definition first_start : Users.World :=
  {| Users.users_store := Users.NoDataDir;
     Users.uuid_source := fun n => match n with
                                   | 0 => "id-0" | 1 => "id-1" | 2 => "id-2"
                                   | _ => "id-n"
                                   end;
     Users.uuid_calls := 0;
     Users.clock_source := fun n => match n with
                                    | 0 => "2024-01-01T00:00:00.000Z"
                                    | 1 => "2024-01-02T00:00:00.000Z"
                                    | _ => "2024-01-03T00:00:00.000Z"
                                    end;
     Users.clock_calls := 0 |}.

(** The store after the administrator has made alice an administrator. *)
Definition with_alice : Users.World :=
  (Users.createUser toy_hash "alice" "secret1" "admin" false "Alice" "A" first_start).2.

(** ... and after the account admin has been deleted. *)
Definition alice_alone : Users.World :=
  (Users.deleteUser toy_hash "id-0" with_alice).2.

(** A databases.json that was cut short, next to the project shop. *)
Definition broken_databases : Databases.World :=
  {| Databases.file := Databases.Unreadable "Unexpected end of JSON input";
     Databases.stored_projects := ["shop"];
     Databases.log := [];
     Databases.clock_source :=
       fun n => match n with
                | 0 => (1700000000000%N, "2024-03-01T00:00:00.000Z")
                | _ => (1700000000001%N, "2024-03-01T00:00:00.001Z")
                end;
     Databases.clock_calls := 0 |}.

(** The database of the orders of the project shop. *)
Definition orders_database : Databases.DatabaseConfig :=
  {| Databases.cfg_name := Some "orders";
     Databases.cfg_host := Some "localhost";
     Databases.cfg_port := None;
     Databases.cfg_username := Some "shop";
     Databases.cfg_password := Some "s3cret";
     Databases.cfg_projectName := Some "shop" |}.

(** A user who is no administrator, with the project shop. *)
Definition bob : Users.User :=
  {| Users.id := "id-2"; Users.username := "bob";
     Users.firstName := Some "Bob"; Users.lastName := Some "B";
     Users.password := toy_hash "hunter22"; Users.role := "user";
     Users.mustChangePassword := Some false;
     Users.createdAt := "2024-01-03T00:00:00.000Z";
     Users.projects := ["shop"] |}.

(** A collation to run the listings on examples: the order of the bytes. *)
Definition byte_order (a b : string) : Z :=
  match String.compare a b with
  | Lt => (-1)%Z
  | Eq => 0%Z
  | Gt => 1%Z
  end.

(** The project shop with its service api in the directory
    /var/www/shop/sites/api, running under the supervisor. *)
Definition shop_site_config : Config :=
  {| config_name := "shop";
     services := Some [ service "api" "/var/www/shop/sites/api" "npm start" ];
     createdAt := "2024-01-01T00:00:00.000Z" |}.

Definition shop_site_world : Runtime.World :=
  {| Runtime.fs :=
       list_to_map
         [ ("/var", Runtime.Dir); ("/var/www", Runtime.Dir); ("/var/www/shop", Runtime.Dir);
           ("/var/www/shop/sites", Runtime.Dir);
           ("/var/www/shop/sites/ap", Runtime.Dir);
           ("/var/www/shop/sites/api", Runtime.Dir);
           ("/var/www/shop/sites/api/src", Runtime.Dir);
           ("/var/www/shop/sites/api/src/index.js", Runtime.File "listen()" "644");
           ("/var/www/shop/sites/api/package.json", Runtime.File "{}" "644") ];
     Runtime.projects := [shop_site_config];
     Runtime.log := [];
     Runtime.processes := ["shop-api"];
     Runtime.commands := [] |}.

(** The disk of the project shop with a directory sites-backup next to its
    root /var/www/shop/sites. *)
Definition shop_backup_world : Runtime.World :=
  world_with
    (list_to_map
       [ ("/var", Runtime.Dir); ("/var/www", Runtime.Dir); ("/var/www/shop", Runtime.Dir);
         ("/var/www/shop/sites", Runtime.Dir);
         ("/var/www/shop/sites/index.html", Runtime.File "<html>" "644");
         ("/var/www/shop/sites-backup", Runtime.Dir);
         ("/var/www/shop/sites-backup/.env", Runtime.File "DB_PASSWORD=hunter2" "600") ])
    [shop_config].

End Examples.

(* ===================================================================== *)
(** * Facts about text *)
(* ===================================================================== *)

Section TextFacts.
Import JsString.

Lemma app_nil_l_str (s : string) : EmptyString +:+ s = s.
Proof. reflexivity. Qed.

Lemma app_cons_str (c : ascii) (s t : string) :
  String c s +:+ t = String c (s +:+ t).
Proof. reflexivity. Qed.

Lemma app_nil_r_str (s : string) : s +:+ EmptyString = s.
Proof.
  induction s as [|c s IH]; [reflexivity|].
  rewrite app_cons_str, IH. reflexivity.
Qed.

Lemma app_assoc_str (a b c : string) : (a +:+ b) +:+ c = a +:+ (b +:+ c).
Proof.
  induction a as [|x a IH]; [reflexivity|].
  rewrite !app_cons_str, IH. reflexivity.
Qed.

Lemma unlines_app (xs ys : list string) :
  unlines (xs ++ ys) = unlines xs +:+ unlines ys.
Proof.
  induction xs as [|x xs IH]; [reflexivity|].
  cbn [app unlines]. rewrite IH, !app_assoc_str. reflexivity.
Qed.

Lemma single_line_app (a b : string) :
  single_line (a +:+ b) = single_line a && single_line b.
Proof.
  induction a as [|x a IH]; [reflexivity|].
  rewrite app_cons_str. cbn [single_line]. rewrite IH.
  rewrite andb_assoc. reflexivity.
Qed.

(** A line and its line feed in front of a text is the first of its lines. *)
Lemma lines_cons (l rest : string) :
  single_line l = true -> lines (l +:+ nl +:+ rest) = l :: lines rest.
Proof.
  induction l as [|c l IH]; intros Hl.
  - reflexivity.
  - cbn [single_line] in Hl. apply andb_true_iff in Hl as [Hc Hl].
    rewrite app_cons_str. cbn [lines].
    apply negb_true_iff in Hc. rewrite Hc.
    rewrite (IH Hl). reflexivity.
Qed.

Lemma lines_unlines_app (ls : list string) (rest : string) :
  forallb single_line ls = true ->
  lines (unlines ls +:+ rest) = ls ++ lines rest.
Proof.
  induction ls as [|l ls IH]; intros H.
  - reflexivity.
  - cbn [forallb] in H. apply andb_true_iff in H as [Hl Hls].
    cbn [unlines]. rewrite !app_assoc_str.
    rewrite (lines_cons l _ Hl), (IH Hls). reflexivity.
Qed.

(** A loop that only appends produces the blocks of its turns, in order. *)
Lemma fold_left_appends {A} (step : string -> A -> string) (block : A -> string) :
  (forall script x, step script x = script +:+ block x) ->
  forall xs script,
    fold_left step xs script
    = script +:+ ScriptShape.concat_strings (map block xs).
Proof.
  intros Hstep xs. induction xs as [|x xs IH]; intros script.
  - cbn. rewrite app_nil_r_str. reflexivity.
  - cbn [fold_left map]. rewrite IH, Hstep.
    unfold ScriptShape.concat_strings. cbn [fold_right].
    rewrite app_assoc_str. reflexivity.
Qed.

End TextFacts.

(* ===================================================================== *)
(** * The generators *)
(* ===================================================================== *)

Section GeneratorFacts.
Import JsString Project Scripts ScriptShape.

(** Brings every concatenation into the same, right-nested form. *)
Ltac flatten_text :=
  repeat rewrite app_assoc_str; repeat rewrite app_nil_l_str;
  repeat rewrite app_nil_r_str.

Lemma start_loop_body_appends p script s :
  start_loop_body p script s = script +:+ start_block p s.
Proof.
  unfold start_block, start_loop_body.
  destruct (truthy (command s) && (includes (command s) "build" || includes (command s) "tsc"));
    flatten_text; reflexivity.
Qed.

Lemma stop_loop_body_appends p script s :
  stop_loop_body p script s = script +:+ stop_block p s.
Proof. unfold stop_block, stop_loop_body. flatten_text. reflexivity. Qed.

Lemma restart_loop_body_appends p script s :
  restart_loop_body p script s = script +:+ restart_block p s.
Proof. unfold restart_block, restart_loop_body. flatten_text. reflexivity. Qed.

Lemma deploy_loop_body_appends script s :
  deploy_loop_body script s = script +:+ deploy_block s.
Proof. unfold deploy_block, deploy_loop_body. flatten_text. reflexivity. Qed.

Lemma length_eqb_0_false {A} (xs : list A) : xs <> [] -> Nat.eqb (length xs) 0 = false.
Proof. destruct xs; [congruence | reflexivity]. Qed.

Lemma start_script_shape p svcs :
  svcs <> [] ->
  generateStartScript p svcs
  = start_header p +:+ concat_strings (map (start_block p) svcs) +:+ start_footer.
Proof.
  intros Hne. unfold generateStartScript.
  rewrite (length_eqb_0_false svcs Hne).
  rewrite (fold_left_appends _ _ (start_loop_body_appends p)).
  unfold start_footer. cbn [unlines]. flatten_text. reflexivity.
Qed.

Lemma stop_script_shape p svcs :
  svcs <> [] ->
  generateStopScript p svcs
  = stop_header p +:+ concat_strings (map (stop_block p) svcs) +:+ stop_footer.
Proof.
  intros Hne. unfold generateStopScript.
  rewrite (length_eqb_0_false svcs Hne).
  rewrite (fold_left_appends _ _ (stop_loop_body_appends p)).
  unfold stop_footer. cbn [unlines]. flatten_text. reflexivity.
Qed.

Lemma restart_script_shape p svcs :
  svcs <> [] ->
  generateRestartScript p svcs
  = restart_header p +:+ concat_strings (map (restart_block p) svcs) +:+ restart_footer.
Proof.
  intros Hne. unfold generateRestartScript.
  rewrite (length_eqb_0_false svcs Hne).
  rewrite (fold_left_appends _ _ (restart_loop_body_appends p)).
  unfold restart_footer. cbn [unlines]. flatten_text. reflexivity.
Qed.

Lemma deploy_script_shape p svcs :
  svcs <> [] ->
  generateDeployScript p svcs
  = deploy_header p +:+ deploy_intro
    +:+ concat_strings (map deploy_block svcs) +:+ deploy_footer.
Proof.
  intros Hne. unfold generateDeployScript.
  rewrite (length_eqb_0_false svcs Hne).
  rewrite (fold_left_appends _ _ deploy_loop_body_appends).
  unfold deploy_footer, deploy_intro. cbn [unlines]. flatten_text. reflexivity.
Qed.

Lemma join_app_last (sep : string) (xs : list string) (y : string) :
  xs <> [] -> join sep (xs ++ [y]) = join sep xs +:+ sep +:+ y.
Proof.
  induction xs as [|x xs IH]; [congruence|]. intros _.
  destruct xs as [|x' xs].
  - reflexivity.
  - change (join sep ((x :: x' :: xs) ++ [y]))
      with (x +:+ sep +:+ join sep ((x' :: xs) ++ [y])).
    rewrite IH by congruence.
    change (join sep (x :: x' :: xs)) with (x +:+ sep +:+ join sep (x' :: xs)).
    rewrite !app_assoc_str. reflexivity.
Qed.

Lemma status_script_shape p svcs :
  svcs <> [] ->
  generateStatusScript p svcs
  = status_header p
    +:+ unlines [ "# Afficher le statut de tous les services du projet";
                  status_filter_line (status_pattern (status_alternatives p svcs)) ].
Proof.
  intros Hne. unfold generateStatusScript.
  rewrite (length_eqb_0_false svcs Hne).
  unfold status_filter_line, status_pattern, status_alternatives.
  change ["Name"; "─"] with (["Name"] ++ ["─"]).
  rewrite app_assoc.
  rewrite join_app_last by (destruct svcs; [congruence | discriminate]).
  rewrite join_app_last by (destruct svcs; [congruence | discriminate]).
  unfold handle. cbn [unlines]. flatten_text. reflexivity.
Qed.

End GeneratorFacts.

Section StartScriptLines.
Import JsString Project Scripts ScriptShape.

Ltac flatten_text :=
  repeat rewrite app_assoc_str; repeat rewrite app_nil_l_str;
  repeat rewrite app_nil_r_str.

Lemma start_block_lines_text p s :
  start_block p s = unlines (start_block_lines p s).
Proof.
  unfold start_block, start_loop_body, start_block_lines, start_warning_lines,
    start_invocation, handle.
  destruct (truthy (command s) && (includes (command s) "build" || includes (command s) "tsc"));
    cbn [app unlines]; flatten_text; reflexivity.
Qed.

Lemma start_blocks_text p svcs :
  concat_strings (map (start_block p) svcs)
  = unlines (flat_map (start_block_lines p) svcs).
Proof.
  induction svcs as [|s svcs IH]; [reflexivity|].
  cbn [map flat_map]. rewrite unlines_app, <- IH, <- start_block_lines_text.
  reflexivity.
Qed.

Lemma start_invocation_in_block p s :
  In (start_invocation p s) (start_block_lines p s).
Proof.
  unfold start_block_lines. apply in_or_app. right.
  apply in_or_app. right. left. reflexivity.
Qed.

Lemma start_block_lines_single p s :
  single_line p = true -> single_line_service s = true ->
  forallb single_line (start_block_lines p s) = true.
Proof.
  intros Hp Hs. unfold single_line_service in Hs.
  apply andb_true_iff in Hs as [Hs Hc]. apply andb_true_iff in Hs as [Hn Hd].
  unfold start_block_lines, start_warning_lines, start_invocation, handle.
  destruct (truthy (command s) && (includes (command s) "build" || includes (command s) "tsc"));
    cbn [app forallb]; rewrite ?single_line_app, ?Hp, ?Hn, ?Hd, ?Hc; reflexivity.
Qed.

Lemma start_blocks_single p svcs :
  single_line p = true -> forallb single_line_service svcs = true ->
  forallb single_line (flat_map (start_block_lines p) svcs) = true.
Proof.
  intros Hp. induction svcs as [|s svcs IH]; intros H; [reflexivity|].
  cbn [forallb] in H. apply andb_true_iff in H as [Hs Hrest].
  cbn [flat_map]. rewrite forallb_app, (start_block_lines_single p s Hp Hs), (IH Hrest).
  reflexivity.
Qed.

Lemma start_block_no_persist p s :
  List.filter (String.eqb "pm2 save") (start_block_lines p s) = [].
Proof.
  unfold start_block_lines, start_warning_lines, start_invocation.
  destruct (truthy (command s) && (includes (command s) "build" || includes (command s) "tsc"));
    reflexivity.
Qed.

Lemma start_blocks_no_persist p svcs :
  List.filter (String.eqb "pm2 save") (flat_map (start_block_lines p) svcs) = [].
Proof.
  induction svcs as [|s svcs IH]; [reflexivity|].
  cbn [flat_map]. rewrite List.filter_app, start_block_no_persist, IH. reflexivity.
Qed.

Lemma start_header_lines p rest :
  single_line p = true ->
  exists ls,
    lines (start_header p +:+ rest) = ls ++ lines rest
    /\ List.filter (String.eqb "pm2 save") ls = [].
Proof.
  intros Hp. unfold start_header. eexists. split.
  - apply lines_unlines_app.
    cbn [forallb]. rewrite ?single_line_app, ?Hp. reflexivity.
  - reflexivity.
Qed.

End StartScriptLines.

(* ===================================================================== *)
(** * The script generators: determinism, order, empty list *)
(* ===================================================================== *)

Section GeneratorClaims.
Import JsString Project Scripts ScriptShape.

Lemma start_block_rendered p s1 s2 :
  rendered s1 = rendered s2 -> start_block p s1 = start_block p s2.
Proof.
  unfold rendered. intros H. injection H as Hn Hd Hc.
  unfold start_block, start_loop_body. rewrite Hn, Hd, Hc. reflexivity.
Qed.

Lemma stop_block_rendered p s1 s2 :
  rendered s1 = rendered s2 -> stop_block p s1 = stop_block p s2.
Proof.
  unfold rendered. intros H. injection H as Hn Hd Hc.
  unfold stop_block, stop_loop_body. rewrite Hn. reflexivity.
Qed.

Lemma restart_block_rendered p s1 s2 :
  rendered s1 = rendered s2 -> restart_block p s1 = restart_block p s2.
Proof.
  unfold rendered. intros H. injection H as Hn Hd Hc.
  unfold restart_block, restart_loop_body. rewrite Hn. reflexivity.
Qed.

Lemma deploy_block_rendered s1 s2 :
  rendered s1 = rendered s2 -> deploy_block s1 = deploy_block s2.
Proof.
  unfold rendered. intros H. injection H as Hn Hd Hc.
  unfold deploy_block, deploy_loop_body. rewrite Hn, Hd. reflexivity.
Qed.

Lemma handle_rendered p s1 s2 :
  rendered s1 = rendered s2 -> handle p s1 = handle p s2.
Proof.
  unfold rendered. intros H. injection H as Hn Hd Hc.
  unfold handle. rewrite Hn. reflexivity.
Qed.

(** Blocks that agree on the rendered fields agree along two lists. *)
Lemma map_rendered {B} (f : Service -> B) :
  (forall s1 s2, rendered s1 = rendered s2 -> f s1 = f s2) ->
  forall svcs1 svcs2,
    map rendered svcs1 = map rendered svcs2 -> map f svcs1 = map f svcs2.
Proof.
  intros Hf svcs1. induction svcs1 as [|s1 svcs1 IH]; intros [|s2 svcs2] H;
    try discriminate; [reflexivity|].
  cbn [map] in *.
  assert (Hs : rendered s1 = rendered s2) by congruence.
  assert (Hrest : map rendered svcs1 = map rendered svcs2) by congruence.
  rewrite (Hf s1 s2 Hs), (IH svcs2 Hrest). reflexivity.
Qed.

Lemma generate_rendered p svcs1 svcs2 :
  map rendered svcs1 = map rendered svcs2 ->
  generate p svcs1 = generate p svcs2.
Proof.
  intros H.
  destruct svcs1 as [|s1 rest1].
  - destruct svcs2; [reflexivity | discriminate H].
  - destruct svcs2 as [|s2 rest2]; [discriminate H|].
    remember (s1 :: rest1) as svcs1 eqn:E1.
    remember (s2 :: rest2) as svcs2 eqn:E2.
    assert (Hne1 : svcs1 <> []) by (rewrite E1; discriminate).
    assert (Hne2 : svcs2 <> []) by (rewrite E2; discriminate).
    clear E1 E2.
    unfold generate.
    rewrite (start_script_shape p svcs1 Hne1), (start_script_shape p svcs2 Hne2).
    rewrite (stop_script_shape p svcs1 Hne1), (stop_script_shape p svcs2 Hne2).
    rewrite (restart_script_shape p svcs1 Hne1), (restart_script_shape p svcs2 Hne2).
    rewrite (deploy_script_shape p svcs1 Hne1), (deploy_script_shape p svcs2 Hne2).
    rewrite (status_script_shape p svcs1 Hne1), (status_script_shape p svcs2 Hne2).
    unfold status_alternatives.
    rewrite (map_rendered _ (start_block_rendered p) _ _ H).
    rewrite (map_rendered _ (stop_block_rendered p) _ _ H).
    rewrite (map_rendered _ (restart_block_rendered p) _ _ H).
    rewrite (map_rendered _ deploy_block_rendered _ _ H).
    rewrite (map_rendered _ (handle_rendered p) _ _ H).
    reflexivity.
Qed.

(** C1.  Script generation is deterministic.  Two generations for the same
    project name, from service lists that carry the same names, directories
    and commands in the same order (in particular, from the same list),
    produce the same five texts, character for character: nothing else
    reaches a script, no time and no random value.  In each text the
    services appear in their stored order: the text is its preamble, the
    blocks of the services one after another, and its closing lines. *)
Theorem generate_deterministic (p : string) (svcs1 svcs2 : list Service) :
  map rendered svcs1 = map rendered svcs2 ->
  generate p svcs1 = generate p svcs2
  /\ (svcs1 <> [] ->
      start (generate p svcs1)
      = start_header p +:+ concat_strings (map (start_block p) svcs1) +:+ start_footer
      /\ stop (generate p svcs1)
         = stop_header p +:+ concat_strings (map (stop_block p) svcs1) +:+ stop_footer
      /\ restart (generate p svcs1)
         = restart_header p +:+ concat_strings (map (restart_block p) svcs1)
           +:+ restart_footer
      /\ status (generate p svcs1)
         = status_header p
           +:+ unlines [ "# Afficher le statut de tous les services du projet";
                         status_filter_line
                           (status_pattern (map (handle p) svcs1 ++ ["Name"; "─"])) ]
      /\ deploy (generate p svcs1)
         = deploy_header p +:+ deploy_intro
           +:+ concat_strings (map deploy_block svcs1) +:+ deploy_footer).
Proof.
  intros H. split.
  - apply generate_rendered, H.
  - intros Hne. cbn [generate start stop restart status deploy].
    repeat split.
    + apply start_script_shape, Hne.
    + apply stop_script_shape, Hne.
    + apply restart_script_shape, Hne.
    + apply status_script_shape, Hne.
    + apply deploy_script_shape, Hne.
Qed.

Lemma generate_deterministic_witness :
  generate "shop" Examples.shop_services
  = generate "shop" Examples.shop_services_described.
Proof.
  exact (proj1 (generate_deterministic "shop"
                  Examples.shop_services Examples.shop_services_described
                  eq_refl)).
Defined.

Lemma plain_text_single_line (s : string) :
  Shell.plain_text s = true -> single_line s = true.
Proof.
  induction s as [|c s IH]; [reflexivity|].
  cbn [Shell.plain_text single_line]. intros H.
  apply andb_true_iff in H as [Hc Hs]. rewrite (IH Hs), andb_true_r.
  unfold Shell.plain_char in Hc. cbn [existsb] in Hc.
  apply negb_true_iff in Hc. apply orb_false_iff in Hc as [Hnl _].
  apply negb_true_iff. apply Ascii.eqb_neq. intros ->.
  discriminate Hnl.
Qed.

(** The lines of a text that starts with the lines [ls], each followed by
    its line feed. *)
Ltac lines_of_header Hp :=
  rewrite lines_unlines_app
    by (cbn [forallb]; rewrite ?single_line_app, ?Hp; reflexivity).

(** Whether one of the commands is the message that no service is
    configured. *)
Ltac find_message :=
  repeat (first [ left; reflexivity | right ]).

(** C4, as amended.  With no service, start.sh, stop.sh and restart.sh are
    their preamble followed by the message that no service is configured and
    by [exit 0]; deploy.sh is its preamble followed by the same message.
    For a project name that the shell reads as plain text: when the
    supervisor is installed, start.sh, stop.sh and restart.sh execute the
    message and end with status 0; when it is not, the test of their
    preamble ends them with status 1 before the message.  deploy.sh has no
    such test: it executes the message and ends with status 0.  Removing
    the only service of a project and generating again gives these same
    texts. *)
Theorem empty_service_list_scripts (p : string) :
  generateStartScript p [] = start_header p +:+ no_service_line +:+ "exit 0" +:+ nl
  /\ generateStopScript p [] = stop_header p +:+ no_service_line +:+ "exit 0" +:+ nl
  /\ generateRestartScript p [] = restart_header p +:+ no_service_line +:+ "exit 0" +:+ nl
  /\ generateDeployScript p [] = deploy_header p +:+ no_service_line
  /\ (Shell.plain_text p = true ->
      (exists out, Shell.run true (generateStartScript p []) = Some (out, 0)
                   /\ In no_service_command out)
      /\ (exists out, Shell.run true (generateStopScript p []) = Some (out, 0)
                      /\ In no_service_command out)
      /\ (exists out, Shell.run true (generateRestartScript p []) = Some (out, 0)
                      /\ In no_service_command out)
      /\ (forall pm2_installed,
            exists out, Shell.run pm2_installed (generateDeployScript p []) = Some (out, 0)
                        /\ In no_service_command out)
      /\ (exists out, Shell.run false (generateStartScript p []) = Some (out, 1)
                      /\ ~ In no_service_command out)
      /\ (exists out, Shell.run false (generateStopScript p []) = Some (out, 1)
                      /\ ~ In no_service_command out)
      /\ (exists out, Shell.run false (generateRestartScript p []) = Some (out, 1)
                      /\ ~ In no_service_command out))
  /\ forall s : Service,
       generate p (removeService_entries (name s) [s]) = generate p [].
Proof.
  assert (Hstart : generateStartScript p []
                   = start_header p +:+ no_service_line +:+ "exit 0" +:+ nl).
  { unfold generateStartScript, no_service_line. cbn [length Nat.eqb].
    rewrite !app_assoc_str. reflexivity. }
  assert (Hstop : generateStopScript p []
                  = stop_header p +:+ no_service_line +:+ "exit 0" +:+ nl).
  { unfold generateStopScript, no_service_line. cbn [length Nat.eqb].
    rewrite !app_assoc_str. reflexivity. }
  assert (Hrestart : generateRestartScript p []
                     = restart_header p +:+ no_service_line +:+ "exit 0" +:+ nl).
  { unfold generateRestartScript, no_service_line. cbn [length Nat.eqb].
    rewrite !app_assoc_str. reflexivity. }
  assert (Hdeploy : generateDeployScript p [] = deploy_header p +:+ no_service_line).
  { reflexivity. }
  split; [exact Hstart|]. split; [exact Hstop|]. split; [exact Hrestart|].
  split; [exact Hdeploy|]. split.
  - intros Hplain. pose proof (plain_text_single_line p Hplain) as Hp.
    unfold Shell.run. rewrite Hstart, Hstop, Hrestart, Hdeploy.
    unfold start_header, stop_header, restart_header, deploy_header.
    repeat lines_of_header Hp.
    split; [|split; [|split; [|split; [|split; [|split]]]]].
    + eexists. split; [vm_compute; reflexivity | vm_compute; find_message].
    + eexists. split; [vm_compute; reflexivity | vm_compute; find_message].
    + eexists. split; [vm_compute; reflexivity | vm_compute; find_message].
    + intros pm2_installed. eexists.
      split; [destruct pm2_installed; vm_compute; reflexivity | vm_compute; find_message].
    + eexists. split; [vm_compute; reflexivity|].
      vm_compute. intros H. repeat (destruct H as [H|H]; [discriminate H|]). exact H.
    + eexists. split; [vm_compute; reflexivity|].
      vm_compute. intros H. repeat (destruct H as [H|H]; [discriminate H|]). exact H.
    + eexists. split; [vm_compute; reflexivity|].
      vm_compute. intros H. repeat (destruct H as [H|H]; [discriminate H|]). exact H.
  - intros s. unfold removeService_entries. cbn [List.filter].
    rewrite String.eqb_refl. reflexivity.
Qed.

Lemma empty_service_list_scripts_witness :
  exists out,
    Shell.run true (generateStartScript "shop" []) = Some (out, 0)
    /\ In no_service_command out.
Proof.
  exact (proj1 (proj1 (proj2 (proj2 (proj2 (proj2
           (empty_service_list_scripts "shop"))))) eq_refl)).
Defined.

(** C4, as stated, fails where the supervisor is not installed: start.sh for
    the project shop without a service then ends with status 1, and the
    message that no service is configured is not among the commands that
    were executed. *)
Lemma start_script_without_supervisor :
  Shell.run false (generateStartScript "shop" [])
  = Some ([ "echo " +:+ dq +:+ "==========================================" +:+ dq;
            "echo " +:+ dq +:+ "  Démarrage des services: shop" +:+ dq;
            "echo " +:+ dq +:+ "==========================================" +:+ dq;
            "echo " +:+ dq +:+ dq;
            "echo " +:+ dq +:+ "ERREUR: PM2 n'est pas installé" +:+ dq;
            "echo " +:+ dq +:+ "Installez-le avec: npm install -g pm2" +:+ dq ],
          1).
Proof. vm_compute. reflexivity. Qed.

End GeneratorClaims.

(* ===================================================================== *)
(** * start.sh: one start per service, one persist call *)
(* ===================================================================== *)

Section StartScriptClaims.
Import JsString Project Scripts ScriptShape.

Lemma line_count_lines (line : string) (ls : list string) (rest : string) :
  forallb single_line ls = true ->
  line_count line (unlines ls +:+ rest)
  = length (List.filter (String.eqb line) ls) + line_count line rest.
Proof.
  intros H. unfold line_count.
  rewrite (lines_unlines_app ls rest H), List.filter_app, length_app.
  reflexivity.
Qed.

Lemma start_footer_persist : line_count "pm2 save" start_footer = 1.
Proof. reflexivity. Qed.

Lemma start_header_no_persist p rest :
  single_line p = true ->
  line_count "pm2 save" (start_header p +:+ rest) = line_count "pm2 save" rest.
Proof.
  intros Hp. unfold line_count.
  destruct (start_header_lines p rest Hp) as [ls [Hls Hnone]].
  rewrite Hls, List.filter_app, Hnone. reflexivity.
Qed.

Lemma start_blocks_no_persist_text p svcs rest :
  single_line p = true -> forallb single_line_service svcs = true ->
  line_count "pm2 save" (unlines (flat_map (start_block_lines p) svcs) +:+ rest)
  = line_count "pm2 save" rest.
Proof.
  intros Hp Hs.
  rewrite (line_count_lines _ _ _ (start_blocks_single p svcs Hp Hs)).
  rewrite start_blocks_no_persist. reflexivity.
Qed.

(** C3, as amended.  For a non-empty service list, start.sh is its
    preamble, then one block per service in stored order, then the closing
    lines.  The block of a service holds the line that starts it under the
    handle [projectName-serviceName] and falls back to the restart of that
    same handle.  The closing lines hold one [pm2 save], after all blocks;
    when neither the project name nor a rendered field of a service holds a
    line feed, no line of the preamble or of a block is [pm2 save], so that
    the script has exactly one such line. *)
Theorem start_script_starts_each_service (p : string) (svcs : list Service) :
  svcs <> [] ->
  generateStartScript p svcs
  = start_header p +:+ unlines (flat_map (start_block_lines p) svcs) +:+ start_footer
  /\ (forall s, In s svcs ->
        In ("pm2 start " +:+ dq +:+ command s +:+ dq
              +:+ " --name " +:+ dq +:+ p +:+ "-" +:+ name s +:+ dq
              +:+ " --cwd " +:+ dq +:+ directory s +:+ dq
              +:+ " 2>/dev/null || pm2 restart " +:+ dq +:+ p +:+ "-" +:+ name s +:+ dq)
           (start_block_lines p s))
  /\ line_count "pm2 save" start_footer = 1
  /\ (single_line p = true -> forallb single_line_service svcs = true ->
      line_count "pm2 save"
        (start_header p +:+ unlines (flat_map (start_block_lines p) svcs)) = 0
      /\ line_count "pm2 save" (generateStartScript p svcs) = 1).
Proof.
  intros Hne.
  assert (Hshape : generateStartScript p svcs
                   = start_header p +:+ unlines (flat_map (start_block_lines p) svcs)
                     +:+ start_footer).
  { rewrite (start_script_shape p svcs Hne), start_blocks_text. reflexivity. }
  split; [exact Hshape|]. split; [|split].
  - intros s _. pose proof (start_invocation_in_block p s) as Hin.
    unfold start_invocation, handle in Hin.
    rewrite !app_assoc_str in Hin. exact Hin.
  - exact start_footer_persist.
  - intros Hp Hs. split.
    + rewrite <- (app_nil_r_str (unlines _)).
      rewrite (start_header_no_persist p _ Hp).
      rewrite (start_blocks_no_persist_text p svcs _ Hp Hs). reflexivity.
    + rewrite Hshape.
      rewrite (start_header_no_persist p _ Hp).
      rewrite (start_blocks_no_persist_text p svcs _ Hp Hs).
      exact start_footer_persist.
Qed.

Lemma start_script_starts_each_service_witness :
  line_count "pm2 save" (generateStartScript "shop" Examples.shop_services) = 1.
Proof.
  assert (Hne : Examples.shop_services <> []) by discriminate.
  exact (proj2 (proj2 (proj2 (proj2
           (start_script_starts_each_service "shop" Examples.shop_services Hne)))
           eq_refl eq_refl)).
Defined.

(** C3, as stated, fails for a service whose name holds a line feed.  The
    name made of api, a line feed and pm2 save puts a second line
    [pm2 save] into start.sh: it is the second line of the block of the
    service, in front of the line that starts the service. *)
Lemma start_script_persists_twice :
  let s := Examples.service ("api" +:+ nl +:+ "pm2 save") "api" "serve" in
  single_line_service s = false
  /\ line_count "pm2 save" (generateStartScript "shop" [s]) = 2
  /\ take 2 (lines (unlines (start_block_lines "shop" s)))
     = ["# Service: api"; "pm2 save"].
Proof. cbv zeta. repeat split. Qed.

End StartScriptClaims.

(* ===================================================================== *)
(** * The scenario of the project shop *)
(* ===================================================================== *)

Section ShopScenario.
Import JsString Project Scripts ScriptShape.

Lemma prefix_app (n post : string) : String.prefix n (n +:+ post) = true.
Proof.
  induction n as [|c n IH]; [destruct post; reflexivity|].
  rewrite app_cons_str. cbn [String.prefix].
  destruct (ascii_dec c c) as [_|Hne]; [exact IH | congruence].
Qed.

Lemma includes_here (s n : string) :
  String.prefix n s = true -> includes s n = true.
Proof. intros H. destruct s; cbn [includes]; rewrite H; reflexivity. Qed.

Lemma includes_later (c : ascii) (s n : string) :
  includes s n = true -> includes (String c s) n = true.
Proof.
  intros H. cbn [includes].
  destruct (String.prefix n (String c s)); [reflexivity | exact H].
Qed.

(** A text includes whatever stands in its middle. *)
Lemma includes_middle (pre n post : string) :
  includes (pre +:+ n +:+ post) n = true.
Proof.
  induction pre as [|c pre IH].
  - rewrite app_nil_l_str. apply includes_here, prefix_app.
  - rewrite app_cons_str. apply includes_later, IH.
Qed.

(** C2, as amended.  For the project shop with the services api and web,
    every mention of the handle shop-api in start.sh comes before every
    mention of shop-web, and both are mentioned.  status.sh filters the
    process table with [grep -E "(shop-api|shop-web|Name|─)"]: a line is
    selected when one of these four texts occurs in it, and only then.  The
    rows of the two handles and the separator lines are therefore selected,
    and so is the row of any other handle in which one of the four texts
    occurs. *)
Theorem shop_scenario_scripts :
  occurrences (generateStartScript "shop" Examples.shop_services) "shop-api" <> []
  /\ occurrences (generateStartScript "shop" Examples.shop_services) "shop-web" <> []
  /\ Forall (fun i =>
       Forall (fun j => i < j)
         (occurrences (generateStartScript "shop" Examples.shop_services) "shop-web"))
       (occurrences (generateStartScript "shop" Examples.shop_services) "shop-api")
  /\ status_alternatives "shop" Examples.shop_services
     = ["shop-api"; "shop-web"; "Name"; "─"]
  /\ In ("pm2 list | grep -E " +:+ dq +:+ "(shop-api|shop-web|Name|─)" +:+ dq
           +:+ " || echo " +:+ dq +:+ "Aucun service actif" +:+ dq)
        (lines (generateStatusScript "shop" Examples.shop_services))
  /\ (forall line,
        grep_selects (status_alternatives "shop" Examples.shop_services) line
        = includes line "shop-api" || includes line "shop-web"
          || includes line "Name" || includes line "─")
  /\ (forall pre post,
        grep_selects (status_alternatives "shop" Examples.shop_services)
          (pre +:+ "shop-api" +:+ post) = true
        /\ grep_selects (status_alternatives "shop" Examples.shop_services)
             (pre +:+ "shop-web" +:+ post) = true
        /\ grep_selects (status_alternatives "shop" Examples.shop_services)
             (pre +:+ "─" +:+ post) = true).
Proof.
  assert (Hsel : forall line,
            grep_selects (status_alternatives "shop" Examples.shop_services) line
            = includes line "shop-api" || includes line "shop-web"
              || includes line "Name" || includes line "─").
  { intros line. unfold grep_selects.
    change (status_alternatives "shop" Examples.shop_services)
      with ["shop-api"; "shop-web"; "Name"; "─"].
    cbn [existsb]. rewrite orb_false_r, !orb_assoc. reflexivity. }
  split; [vm_compute; discriminate|].
  split; [vm_compute; discriminate|].
  split; [vm_compute; repeat constructor|].
  split; [reflexivity|].
  split; [vm_compute; tauto|].
  split; [exact Hsel|].
  intros pre post. rewrite !Hsel, !includes_middle.
  rewrite !orb_true_r. repeat split; reflexivity.
Qed.

(** C2, as stated, fails: the filter of status.sh also selects the row of
    the handle eshop-api, which is none of the handles of the project. *)
Lemma status_filter_selects_foreign_row :
  In (status_filter_line (status_pattern (status_alternatives "shop" Examples.shop_services)))
     (lines (generateStatusScript "shop" Examples.shop_services))
  /\ Examples.eshop_row
     = table_row ["3"; "eshop-api"; "default"; "1.0.0"; "fork"; "4711"; "2D"; "0";
                  "online"; "0%"; "48.2mb"; "root"; "disabled"]
  /\ grep_selects (status_alternatives "shop" Examples.shop_services)
       Examples.eshop_row = true
  /\ ~ In "eshop-api" (map (handle "shop") Examples.shop_services).
Proof.
  split; [vm_compute; tauto|].
  split; [reflexivity|].
  split; [vm_compute; reflexivity|].
  intros [H|[H|[]]]; discriminate H.
Qed.

End ShopScenario.

(* ===================================================================== *)
(** * The paths of the five scripts *)
(* ===================================================================== *)

Section ScriptPaths.
Import JsString Runtime Scripts Materialisation.

Lemma split_slash_nonempty (s : string) : Path.split_slash s <> [].
Proof.
  destruct s as [|c s]; cbn [Path.split_slash]; [discriminate|].
  destruct (Ascii.eqb c slash); [discriminate|].
  destruct (Path.split_slash s); discriminate.
Qed.

Lemma split_slash_app (x y : string) :
  Path.split_slash (x +:+ "/" +:+ y) = Path.split_slash x ++ Path.split_slash y.
Proof.
  induction x as [|c x IH].
  - reflexivity.
  - rewrite app_cons_str. cbn [Path.split_slash].
    destruct (Ascii.eqb c slash).
    + rewrite IH. reflexivity.
    + rewrite IH. pose proof (split_slash_nonempty x) as Hne.
      destruct (Path.split_slash x) as [|seg segs]; [congruence|reflexivity].
Qed.

Lemma app_not_empty (x f : string) : f <> EmptyString -> x +:+ f <> EmptyString.
Proof. destruct x; [intros H; exact H | discriminate]. Qed.

Lemma last_is_slash_app (x f : string) :
  f <> EmptyString -> Path.last_is_slash (x +:+ f) = Path.last_is_slash f.
Proof.
  intros Hf. induction x as [|c x IH]; [reflexivity|].
  rewrite app_cons_str. cbn [Path.last_is_slash].
  pose proof (app_not_empty x f Hf) as Hne.
  destruct (x +:+ f) eqn:E; [congruence | exact IH].
Qed.

Lemma length_app_not_0 (b f : string) :
  f <> EmptyString -> Nat.eqb (String.length (b +:+ f)) 0 = false.
Proof.
  intros Hf. pose proof (app_not_empty b f Hf) as Hne.
  destruct (b +:+ f); [congruence | reflexivity].
Qed.

Lemma script_names_plain (f : string) : In f script_names -> plain_name f.
Proof.
  intros [<-|[<-|[<-|[<-|[<-|[]]]]]]; repeat split; try reflexivity; discriminate.
Qed.

Lemma normalize_file (x f : string) :
  plain_name f ->
  Path.normalize (x +:+ "/" +:+ f) = normalized_front x +:+ f.
Proof.
  intros (Hsplit & Hstep & Hlast & Hne).
  assert (Hne' : "/" +:+ f <> EmptyString) by discriminate.
  unfold Path.normalize, normalized_front.
  rewrite (length_app_not_0 x ("/" +:+ f) Hne').
  replace (Path.first_is_slash (x +:+ "/" +:+ f)) with (Path.first_is_slash (x +:+ "/"))
    by (destruct x; reflexivity).
  replace (Path.last_is_slash (x +:+ "/" +:+ f)) with false.
  2:{ rewrite (last_is_slash_app x ("/" +:+ f) Hne').
      change ("/" +:+ f) with (String slash f).
      cbn [Path.last_is_slash]. destruct f; [congruence | symmetry; exact Hlast]. }
  unfold Path.normalizeString.
  rewrite split_slash_app, Hsplit, fold_left_app. cbn [fold_left].
  rewrite Hstep. cbn [rev].
  destruct (Path.first_is_slash (x +:+ "/")).
  - remember (rev (fold_left (Path.normalize_step (negb true)) (Path.split_slash x) []))
      as kept eqn:Ek. clear Ek.
    destruct kept as [|k kept'].
    + cbn [app JsString.join]. rewrite (length_app_not_0 EmptyString f Hne : Nat.eqb (String.length f) 0 = false).
      reflexivity.
    + rewrite join_app_last by discriminate.
      rewrite <- !app_assoc_str, (length_app_not_0 _ f Hne).
      rewrite !app_assoc_str. reflexivity.
  - remember (rev (fold_left (Path.normalize_step (negb false)) (Path.split_slash x) []))
      as kept eqn:Ek. clear Ek.
    destruct kept as [|k kept'].
    + cbn [app JsString.join]. rewrite (length_app_not_0 EmptyString f Hne : Nat.eqb (String.length f) 0 = false).
      reflexivity.
    + rewrite join_app_last by discriminate.
      rewrite <- !app_assoc_str, (length_app_not_0 _ f Hne).
      rewrite !app_assoc_str. reflexivity.
Qed.

(** The five paths are one common front followed by the five names. *)
Lemma join_script_name (directory : string) :
  exists front, forall f, In f script_names ->
    Path.join [directory; f] = front +:+ f.
Proof.
  destruct directory as [|c d].
  - exists EmptyString. intros f [<-|[<-|[<-|[<-|[<-|[]]]]]]; reflexivity.
  - exists (normalized_front (String c d)). intros f Hin.
    pose proof (script_names_plain f Hin) as Hplain.
    destruct Hplain as (Hsplit & Hstep & Hlast & Hne).
    unfold Path.join. cbn [Path.join_args String.length Nat.ltb Nat.leb].
    destruct f as [|c' f']; [congruence|].
    cbn [String.length Nat.ltb Nat.leb].
    apply normalize_file. repeat split; assumption.
Qed.

Lemma getScriptsPaths_names (p : string) :
  exists front, getScriptsPaths p = map (String.append front) script_names.
Proof.
  destruct (join_script_name (scriptsDirectory p)) as [front Hfront].
  exists front. unfold getScriptsPaths, script_names. cbn [map].
  rewrite !Hfront by (cbn; tauto). reflexivity.
Qed.

(** None of the paths of [generateScripts] has a slash at its end. *)
Lemma getScriptsPaths_plain (p : string) :
  Forall (fun path => Path.last_is_slash path = false) (getScriptsPaths p).
Proof.
  destruct (getScriptsPaths_names p) as [front ->].
  unfold script_names, SCRIPTS_start, SCRIPTS_stop. cbn [map].
  repeat constructor; rewrite last_is_slash_app by discriminate; reflexivity.
Qed.

Lemma targets_plain (p : string) (services : list Project.Service) :
  Forall (fun t => Path.last_is_slash t.1 = false) (targets p services).
Proof.
  pose proof (getScriptsPaths_plain p) as Hplain.
  rewrite List.Forall_forall in Hplain. apply List.Forall_forall.
  intros [path text] Hin. apply Hplain. exact (in_combine_l _ _ _ _ Hin).
Qed.

Lemma scriptsDirectory_plain (p : string) :
  Path.last_is_slash (scriptsDirectory p) = false.
Proof.
  assert (Hplain : plain_name "scripts")
    by (repeat split; try reflexivity; discriminate).
  unfold scriptsDirectory, Path.join, BASE_PATH, PROJECT_STRUCTURE_scripts.
  cbn [Path.join_args String.length Nat.ltb Nat.leb].
  destruct (String.length p);
    rewrite (normalize_file _ "scripts" Hplain), last_is_slash_app by discriminate;
    reflexivity.
Qed.

Lemma getScriptsPaths_NoDup (p : string) : List.NoDup (getScriptsPaths p).
Proof.
  destruct (getScriptsPaths_names p) as [front ->].
  apply Finite.Injective_map_NoDup.
  - intros a b H. apply (String.app_inj front). exact H.
  - unfold script_names, SCRIPTS_start, SCRIPTS_stop.
    repeat constructor; cbn; intuition discriminate.
Qed.

End ScriptPaths.

(* ===================================================================== *)
(** * The file system: paths with and without a slash at the end *)
(* ===================================================================== *)

Section FileSystemFacts.
Import JsString Runtime.

Lemma only_slashes_last (c : ascii) (s : string) :
  only_slashes (String c s) = true -> Path.last_is_slash (String c s) = true.
Proof.
  revert c. induction s as [|c' s IH]; intros c H.
  - cbn in H |- *. rewrite andb_true_r in H. exact H.
  - cbn [only_slashes] in H. apply andb_prop in H as [_ H].
    change (Path.last_is_slash (String c' s) = true). apply IH. exact H.
Qed.

Lemma without_final_slashes_plain (s : string) :
  Path.last_is_slash s = false -> without_final_slashes s = s.
Proof.
  induction s as [|c s IH]; [reflexivity|]. intros H.
  cbn [without_final_slashes].
  destruct (Ascii.eqb c slash && only_slashes s) eqn:E.
  - apply andb_prop in E as [Ec Es].
    assert (Hall : only_slashes (String c s) = true)
      by (cbn [only_slashes]; rewrite Ec, Es; reflexivity).
    apply only_slashes_last in Hall. congruence.
  - f_equal. apply IH. destruct s as [|c' s']; [reflexivity | exact H].
Qed.

(** A path without a slash at its end is looked up as it is. *)
Lemma canonical_plain (path : string) :
  Path.last_is_slash path = false -> canonical path = path.
Proof.
  intros H. unfold canonical.
  destruct (truthy path && only_slashes path) eqn:E.
  - destruct path as [|c s]; [discriminate|].
    apply andb_prop in E as [_ E]. apply only_slashes_last in E. congruence.
  - apply without_final_slashes_plain, H.
Qed.

Lemma entry_plain (files : gmap string node) (path : string) :
  Path.last_is_slash path = false -> entry files path = files !! path.
Proof.
  intros H. unfold entry. rewrite (canonical_plain path H), H.
  destruct (files !! path) as [[|content mode]|]; reflexivity.
Qed.

(** What is found at a path is what the map holds under the path without
    its final slashes. *)
Lemma entry_found (files : gmap string node) (path : string) (n : node) :
  entry files path = Some n -> files !! canonical path = Some n.
Proof.
  unfold entry. destruct (files !! canonical path) as [[|content mode]|]; [tauto| |discriminate].
  destruct (Path.last_is_slash path); [discriminate | tauto].
Qed.

Lemma entry_directory (files : gmap string node) (path : string) :
  files !! canonical path = Some Dir -> entry files path = Some Dir.
Proof. unfold entry. intros ->. reflexivity. Qed.

Lemma entry_file (files : gmap string node) (path content mode : string) :
  entry files path = Some (File content mode) -> Path.last_is_slash path = false.
Proof.
  unfold entry. destruct (files !! canonical path) as [[|content' mode']|]; [discriminate| |discriminate].
  destruct (Path.last_is_slash path); [discriminate | reflexivity].
Qed.

End FileSystemFacts.

(* ===================================================================== *)
(** * generateScripts: what a run leaves behind *)
(* ===================================================================== *)

Section MaterialisationFacts.
Import JsString Runtime Scripts Materialisation.

(** One file: either the write is refused and nothing has changed, or the
    file is written, made executable and reported. *)
Lemma write_step (path content : string) (k : js unit) (w : World) :
  (writeFileSync path content ;;;
   chmodSync path "755" ;;;
   logger Debug ("Script créé: " +:+ path) ;;; k) w
  = k (written (path, content) w)
  \/ exists e,
       (writeFileSync path content ;;;
        chmodSync path "755" ;;;
        logger Debug ("Script créé: " +:+ path) ;;; k) w = (Thrown e, w).
Proof.
  remember ((writeFileSync path content ;;;
             chmodSync path "755" ;;;
             logger Debug ("Script créé: " +:+ path) ;;; k) w) as run eqn:Erun.
  unfold bind, writeFileSync in Erun.
  destruct (Path.last_is_slash path) eqn:Hslash.
  { right. eexists. exact Erun. }
  destruct (fs w !! path) as [[|old mode]|] eqn:E.
  - right. eexists. exact Erun.
  - left. rewrite Erun. unfold chmodSync, logger, written.
    rewrite (canonical_plain path Hslash), (entry_plain _ path Hslash). cbn.
    rewrite lookup_insert_eq. cbn. rewrite insert_insert_eq. reflexivity.
  - destruct (parent_error w path) as [msg|].
    + right. eexists. exact Erun.
    + left. rewrite Erun. unfold chmodSync, logger, written.
      rewrite (canonical_plain path Hslash), (entry_plain _ path Hslash). cbn.
      rewrite lookup_insert_eq. cbn. rewrite insert_insert_eq. reflexivity.
Qed.

Lemma write_all_outcome (todo : list (string * string)) (after : js unit) :
  forall w,
    exists done rest,
      todo = done ++ rest
      /\ ((rest = [] /\ write_all todo after w = after (written_all done w))
          \/ (rest <> [] /\ exists e,
                write_all todo after w = (Thrown e, written_all done w))).
Proof.
  induction todo as [|[path content] todo IH]; intros w.
  - exists [], []. split; [reflexivity|]. left. split; reflexivity.
  - cbn [write_all].
    destruct (write_step path content (write_all todo after) w) as [Hok|[e Hfail]].
    + destruct (IH (written (path, content) w)) as (done & rest & Heq & Hcase).
      exists ((path, content) :: done), rest. split; [rewrite Heq; reflexivity|].
      rewrite Hok. exact Hcase.
    + exists [], ((path, content) :: todo). split; [reflexivity|]. right.
      split; [discriminate|]. exists e. exact Hfail.
Qed.

Lemma written_all_projects done : forall w, projects (written_all done w) = projects w.
Proof.
  induction done as [|t done IH]; intros w; [reflexivity|].
  cbn [written_all fold_left]. fold (written_all done (written t w)).
  rewrite IH. reflexivity.
Qed.

Lemma written_all_log done :
  forall w, exists debugs,
    forallb is_debug debugs = true /\ log (written_all done w) = log w ++ debugs.
Proof.
  induction done as [|t done IH]; intros w.
  - exists []. split; [reflexivity|]. cbn. rewrite app_nil_r. reflexivity.
  - cbn [written_all fold_left]. fold (written_all done (written t w)).
    destruct (IH (written t w)) as (debugs & Hd & Hlog).
    exists ((Debug, "Script créé: " +:+ t.1) :: debugs). split; [exact Hd|].
    rewrite Hlog. cbn. rewrite <- app_assoc. reflexivity.
Qed.

Lemma written_all_other done path :
  ~ In path (map fst done) ->
  forall w, fs (written_all done w) !! path = fs w !! path.
Proof.
  induction done as [|t done IH]; intros Hnot w; [reflexivity|].
  cbn [written_all fold_left]. fold (written_all done (written t w)).
  cbn [map] in Hnot.
  rewrite IH by (intros H; apply Hnot; right; exact H).
  cbn. apply lookup_insert_ne. intros Heq. apply Hnot. left. exact Heq.
Qed.

Lemma written_all_holds done :
  List.NoDup (map fst done) ->
  forall w, Forall (fun t => holds (written_all done w) t.1 t.2) done.
Proof.
  induction done as [|t done IH]; intros Hnd w; [constructor|].
  cbn [map] in Hnd. apply List.NoDup_cons_iff in Hnd as [Hnot Hnd].
  cbn [written_all fold_left]. fold (written_all done (written t w)).
  constructor.
  - unfold holds. rewrite (written_all_other done t.1 Hnot).
    cbn. apply lookup_insert_eq.
  - apply IH, Hnd.
Qed.

(** [mkdir -p] adds directories where there was nothing. *)
Lemma mkdir_keeps (requested : string) (dirs : list string) :
  forall w r w',
    for_of dirs (mkdir_one requested) w = (r, w') ->
    projects w' = projects w /\ log w' = log w
    /\ forall q n, fs w !! q = Some n -> fs w' !! q = Some n.
Proof.
  induction dirs as [|d dirs IH]; intros w r w' H.
  - injection H as _ <-. repeat split. intros q n Hq. exact Hq.
  - cbn [for_of] in H. unfold bind, mkdir_one in H.
    destruct (fs w !! canonical d) as [[|content mode]|] eqn:E.
    + apply IH in H. exact H.
    + injection H as _ <-. repeat split. intros q n Hq. exact Hq.
    + apply IH in H. destruct H as (Hp & Hl & Hfs). cbn in Hp, Hl.
      repeat split; [exact Hp | exact Hl |].
      intros q n Hq. apply Hfs. cbn.
      rewrite lookup_insert_ne; [exact Hq|]. intros Heq. rewrite Heq in E. congruence.
Qed.

Lemma targets_paths p services :
  map fst (targets p services) = getScriptsPaths p.
Proof. reflexivity. Qed.

End MaterialisationFacts.

Section MaterialisationOutcome.
Import JsString Runtime Scripts Materialisation.

Lemma generateScripts_run (p : string) (w : World) :
  generateScripts p w
  = (config <- loadProjectConfig p ;;
     present <- existsSync (scriptsDirectory p) ;;
     (if negb present then mkdirSync_recursive (scriptsDirectory p) else ret tt) ;;;
     write_all (targets p (stored_services config))
       (logger Success ("Scripts générés pour " +:+ p))) w.
Proof. reflexivity. Qed.

Lemma NoDup_app_apart {A} (l l' : list A) :
  List.NoDup (l ++ l') -> forall a, In a l' -> ~ In a l.
Proof.
  induction l as [|x l IH]; intros Hnd a Ha' Ha; [destruct Ha|].
  cbn [app] in Hnd. apply List.NoDup_cons_iff in Hnd as [Hx Hnd].
  destruct Ha as [->|Ha].
  - apply Hx. apply in_or_app. right. exact Ha'.
  - exact (IH Hnd a Ha' Ha).
Qed.

Lemma loadProjectConfig_world p w r w' :
  loadProjectConfig p w = (r, w') -> w' = w.
Proof.
  unfold loadProjectConfig.
  destruct (List.find _ (projects w)); intros H; injection H as _ <-; reflexivity.
Qed.

(** The state in which [generateScripts] leaves the files, the store and
    the log: [k] of the five files are written, in the order of the writes,
    and [k] is five exactly when the call returns. *)
Lemma generateScripts_outcome (p : string) (w : World) (r : outcome unit) (w' : World) :
  generateScripts p w = (r, w') ->
  projects w' = projects w
  /\ (exists debugs,
        forallb is_debug debugs = true
        /\ log w' = log w ++ debugs
                    ++ match r with
                       | Returned _ => [outcome_entry p r]
                       | Thrown _ => []
                       end)
  /\ exists k,
       (forall config,
          loadProjectConfig p w = (Returned config, w) ->
          Forall (fun t => holds w' t.1 t.2)
            (take k (targets p (stored_services config))))
       /\ Forall (untouched w w') (drop k (getScriptsPaths p))
       /\ match r with
          | Returned _ =>
              k = 5 /\ exists config, loadProjectConfig p w = (Returned config, w)
          | Thrown _ => k < 5
          end.
Proof.
  rewrite generateScripts_run. unfold bind at 1.
  destruct (loadProjectConfig p w) as [[config|e] w0] eqn:Eload.
  2:{ intros H. injection H as Hr Hw. subst r w'.
      pose proof (loadProjectConfig_world _ _ _ _ Eload) as ->.
      split; [reflexivity|]. split.
      - exists []. split; [reflexivity|]. rewrite !app_nil_r. reflexivity.
      - exists 0. split; [|split].
        + intros config Hc. constructor.
        + cbn [drop]. apply Forall_forall. intros path _ n Hn. exact Hn.
        + lia. }
  pose proof (loadProjectConfig_world _ _ _ _ Eload) as ->.
  unfold bind at 1. unfold existsSync at 1.
  unfold bind at 1.
  set (services := stored_services config).
  destruct ((if negb match entry (fs w) (scriptsDirectory p) with
                     | Some _ => true
                     | None => false
                     end
             then mkdirSync_recursive (scriptsDirectory p) else ret tt) w)
    as [[[]|e] w1] eqn:Emk.
  2:{ intros H. injection H as Hr Hw. subst r w'.
      assert (Hkeep : projects w1 = projects w /\ log w1 = log w
                      /\ forall q n, fs w !! q = Some n -> fs w1 !! q = Some n).
      { destruct (negb _) in Emk.
        - apply (mkdir_keeps _ _ _ _ _ Emk).
        - discriminate Emk. }
      destruct Hkeep as (Hp & Hl & Hfs).
      split; [exact Hp|]. split.
      - exists []. split; [reflexivity|]. rewrite !app_nil_r. exact Hl.
      - exists 0. split; [|split].
        + intros config' Hc. constructor.
        + cbn [drop]. apply Forall_forall. intros path _ n Hn. apply Hfs, Hn.
        + lia. }
  assert (Hkeep : projects w1 = projects w /\ log w1 = log w
                  /\ forall q n, fs w !! q = Some n -> fs w1 !! q = Some n).
  { destruct (negb _) in Emk.
    - apply (mkdir_keeps _ _ _ _ _ Emk).
    - injection Emk as Hw. subst w1. repeat split. intros q n Hq. exact Hq. }
  destruct Hkeep as (Hp & Hl & Hfs).
  destruct (write_all_outcome (targets p services)
              (logger Success ("Scripts générés pour " +:+ p)) w1)
    as (done & rest & Hsplit & Hcase).
  assert (Hnd : List.NoDup (map fst done ++ map fst rest)).
  { rewrite <- map_app, <- Hsplit, targets_paths. apply getScriptsPaths_NoDup. }
  assert (Hlen : length (done ++ rest) = 5).
  { rewrite <- Hsplit. reflexivity. }
  assert (Hpaths : getScriptsPaths p = map fst done ++ map fst rest).
  { rewrite <- map_app, <- Hsplit. reflexivity. }
  assert (Hloaded : forall config',
             loadProjectConfig p w = (Returned config', w) ->
             take (length done) (targets p (stored_services config')) = done).
  { intros config' Hc. rewrite Eload in Hc. injection Hc as <-.
    fold services. rewrite Hsplit. apply take_app_length. }
  assert (Hrest : forall w2,
             fs w2 = fs (written_all done w1) ->
             Forall (untouched w w2) (drop (length done) (getScriptsPaths p))).
  { intros w2 Hw2. rewrite Hpaths.
    replace (length done) with (length (map fst done)) by apply length_map.
    rewrite drop_app_length. apply Forall_forall. intros path Hin n Hn.
    rewrite Hw2, written_all_other.
    - apply Hfs, Hn.
    - apply (NoDup_app_apart _ _ Hnd), list_elem_of_In, Hin. }
  assert (Hdone : forall w2,
             fs w2 = fs (written_all done w1) ->
             Forall (fun t => holds w2 t.1 t.2) done).
  { intros w2 Hw2.
    pose proof (written_all_holds done (List.NoDup_app_remove_r _ _ Hnd) w1) as Hh.
    unfold holds in *. rewrite Hw2. exact Hh. }
  destruct (written_all_log done w1) as (debugs & Hdebug & Hlog).
  destruct Hcase as [[-> Hrun]|[Hne [e Hrun]]]; rewrite Hrun; intros H.
  - unfold logger in H. injection H as Hr Hw. subst r w'.
    rewrite app_nil_r in Hlen.
    split; [cbn; rewrite written_all_projects; exact Hp|]. split.
    + exists debugs. split; [exact Hdebug|].
      cbn. rewrite Hlog, Hl, <- app_assoc. reflexivity.
    + exists (length done). split; [|split].
      * intros config' Hc. rewrite (Hloaded config' (eq_trans Eload Hc)). apply Hdone. reflexivity.
      * apply Hrest. reflexivity.
      * split; [exact Hlen|]. exists config. reflexivity.
  - injection H as Hr Hw. subst r w'.
    split; [rewrite written_all_projects; exact Hp|]. split.
    + exists debugs. split; [exact Hdebug|].
      rewrite Hlog, Hl, app_nil_r. reflexivity.
    + exists (length done). split; [|split].
      * intros config' Hc. rewrite (Hloaded config' (eq_trans Eload Hc)). apply Hdone. reflexivity.
      * apply Hrest. reflexivity.
      * rewrite length_app in Hlen. destruct rest; [congruence|]. cbn in Hlen. lia.
Qed.

(** [generateScripts] changes nothing but its five files. *)
Lemma generateScripts_keeps
    (p : string) (w w' : World) (r : outcome unit) (q : string) (n : node) :
  generateScripts p w = (r, w') ->
  fs w !! q = Some n ->
  ~ In q (getScriptsPaths p) ->
  fs w' !! q = Some n /\ projects w' = projects w.
Proof.
  intros Hrun Hq Hother. rewrite generateScripts_run in Hrun. unfold bind at 1 in Hrun.
  destruct (loadProjectConfig p w) as [[config|e] w0] eqn:Eload.
  2:{ pose proof (loadProjectConfig_world _ _ _ _ Eload) as ->.
      injection Hrun as _ <-. split; [exact Hq | reflexivity]. }
  pose proof (loadProjectConfig_world _ _ _ _ Eload) as ->.
  unfold bind at 1 in Hrun. unfold existsSync at 1 in Hrun. unfold bind at 1 in Hrun.
  destruct ((if negb match entry (fs w) (scriptsDirectory p) with
                     | Some _ => true
                     | None => false
                     end
             then mkdirSync_recursive (scriptsDirectory p) else ret tt) w)
    as [[[]|e] w1] eqn:Emk.
  2:{ injection Hrun as _ <-. destruct (negb _) in Emk.
      - destruct (mkdir_keeps _ _ _ _ _ Emk) as (Hp & _ & Hkeep).
        split; [exact (Hkeep q n Hq) | exact Hp].
      - discriminate Emk. }
  assert (Hkeep : projects w1 = projects w /\ fs w1 !! q = Some n).
  { destruct (negb _) in Emk.
    - destruct (mkdir_keeps _ _ _ _ _ Emk) as (Hp & _ & Hkeep).
      split; [exact Hp | exact (Hkeep q n Hq)].
    - injection Emk as <-. split; [reflexivity | exact Hq]. }
  destruct Hkeep as [Hp Hq1].
  destruct (write_all_outcome (targets p (stored_services config))
              (logger Success ("Scripts générés pour " +:+ p)) w1)
    as (done & rest & Hsplit & Hcase).
  assert (Hapart : ~ In q (map fst done)).
  { intros Hin. apply Hother. rewrite <- (targets_paths p (stored_services config)), Hsplit.
    rewrite map_app. apply in_or_app. left. exact Hin. }
  assert (Hfs : fs w' = fs (written_all done w1) /\ projects w' = projects (written_all done w1)).
  { destruct Hcase as [[_ Hdone]|[_ [e Hfail]]].
    - rewrite Hdone in Hrun. unfold logger in Hrun. injection Hrun as _ <-.
      split; reflexivity.
    - rewrite Hfail in Hrun. injection Hrun as _ <-. split; reflexivity. }
  destruct Hfs as [Hfs Hp'].
  rewrite Hfs, Hp', written_all_projects, (written_all_other done q Hapart).
  split; [exact Hq1 | exact Hp].
Qed.

End MaterialisationOutcome.

(* ===================================================================== *)
(** * generateScripts and regenerateAllScripts: failures *)
(* ===================================================================== *)

Section MaterialisationClaims.
Import JsString Runtime Scripts Materialisation.

(** C5, as amended.  A call of [generateScripts] that returns has written
    all five files: each holds its newly generated text and is executable.
    A call that throws has written the files one by one up to the failing
    step: the first [k] files in the order start.sh, stop.sh, restart.sh,
    status.sh, deploy.sh, for some [k] below five, hold their new text, and
    whatever was stored under the remaining names is untouched. *)
Theorem generateScripts_writes_in_order
    (p : string) (w : World) (r : outcome unit) (w' : World) :
  generateScripts p w = (r, w') ->
  match r with
  | Returned _ =>
      exists config,
        loadProjectConfig p w = (Returned config, w)
        /\ Forall (fun t => holds w' t.1 t.2) (targets p (stored_services config))
  | Thrown _ =>
      exists k,
        k < 5
        /\ (forall config,
              loadProjectConfig p w = (Returned config, w) ->
              Forall (fun t => holds w' t.1 t.2)
                (take k (targets p (stored_services config))))
        /\ Forall (untouched w w') (drop k (getScriptsPaths p))
  end.
Proof.
  intros H.
  destruct (generateScripts_outcome p w r w' H) as (_ & _ & k & Hnew & Hold & Hk).
  destruct r as [[]|e].
  - destruct Hk as [-> [config Hc]]. exists config. split; [exact Hc|].
    exact (Hnew config Hc).
  - exists k. split; [exact Hk|]. split; [exact Hnew | exact Hold].
Qed.

Lemma generateScripts_writes_in_order_witness :
  match (generateScripts "shop" Examples.blocked_world).1 with
  | Returned _ =>
      exists config,
        loadProjectConfig "shop" Examples.blocked_world
        = (Returned config, Examples.blocked_world)
        /\ Forall (fun t => holds (generateScripts "shop" Examples.blocked_world).2 t.1 t.2)
             (targets "shop" (stored_services config))
  | Thrown _ =>
      exists k,
        k < 5
        /\ (forall config,
              loadProjectConfig "shop" Examples.blocked_world
              = (Returned config, Examples.blocked_world) ->
              Forall (fun t => holds (generateScripts "shop" Examples.blocked_world).2 t.1 t.2)
                (take k (targets "shop" (stored_services config))))
        /\ Forall (untouched Examples.blocked_world
                     (generateScripts "shop" Examples.blocked_world).2)
             (drop k (getScriptsPaths "shop"))
  end.
Proof.
  apply (generateScripts_writes_in_order "shop" Examples.blocked_world).
  apply surjective_pairing.
Defined.

(** C5, as stated, fails.  With an earlier generation on disk in which
    restart.sh is a directory, [generateScripts] throws at the third file:
    start.sh and stop.sh then hold the new texts while status.sh and
    deploy.sh still hold the old ones. *)
Lemma generateScripts_leaves_a_mix :
  let before := Examples.blocked_world in
  let after := (generateScripts "shop" before).2 in
  (exists e, (generateScripts "shop" before).1 = Thrown e)
  /\ fs before !! "/var/www/shop/scripts/start.sh" = Some (File "old start" "755")
  /\ fs after !! "/var/www/shop/scripts/start.sh"
     = Some (File (generateStartScript "shop" Examples.shop_services) "755")
  /\ generateStartScript "shop" Examples.shop_services <> "old start"
  /\ fs before !! "/var/www/shop/scripts/status.sh" = Some (File "old status" "755")
  /\ fs after !! "/var/www/shop/scripts/status.sh" = Some (File "old status" "755")
  /\ generateStatusScript "shop" Examples.shop_services <> "old status".
Proof.
  cbv zeta. split; [eexists; vm_compute; reflexivity|].
  split; [vm_compute; reflexivity|].
  split; [vm_compute; reflexivity|].
  split; [vm_compute; discriminate|].
  split; [vm_compute; reflexivity|].
  split; [vm_compute; reflexivity|].
  vm_compute; discriminate.
Qed.

End MaterialisationClaims.

Section RegenerateAll.
Import JsString Runtime Scripts Materialisation.

Lemma filter_reported_debugs (debugs : list (level * string)) :
  forallb is_debug debugs = true -> List.filter reported debugs = [].
Proof.
  induction debugs as [|d debugs IH]; intros H; [reflexivity|].
  cbn [forallb] in H. apply andb_true_iff in H as [Hd Hrest].
  cbn [List.filter]. unfold reported at 1. rewrite Hd. cbn. apply IH, Hrest.
Qed.

(** The loop never throws; it leaves one reported entry per project, which
    tells the outcome of the generation for that project. *)
Lemma regenerate_loop (todo : list Project.Config) :
  forall w, exists w' new,
    for_of todo regenerate_one w = (Returned tt, w')
    /\ projects w' = projects w
    /\ log w' = log w ++ new
    /\ List.filter reported new
       = map (fun a => outcome_entry a.1 a.2) (attempts todo w).
Proof.
  induction todo as [|project todo IH]; intros w.
  - exists w, []. repeat split. rewrite app_nil_r. reflexivity.
  - cbn [for_of attempts]. unfold bind, regenerate_one at 1, try_catch.
    destruct (generateScripts (Project.config_name project) w) as [r w1] eqn:Egen.
    destruct (generateScripts_outcome _ _ _ _ Egen)
      as (Hp & (debugs & Hdebug & Hlog) & _).
    destruct r as [[]|e].
    + destruct (IH w1) as (w' & new & Hrun & Hp' & Hlog' & Hrep).
      exists w', (debugs ++ [outcome_entry (Project.config_name project) (Returned tt)] ++ new).
      split; [exact Hrun|]. split; [rewrite Hp'; exact Hp|]. split.
      * rewrite Hlog', Hlog, <- !app_assoc. reflexivity.
      * rewrite !List.filter_app, (filter_reported_debugs _ Hdebug), Hrep.
        reflexivity.
    + set (w2 := with_log
                   (log w1 ++ [outcome_entry (Project.config_name project) (Thrown e)]) w1).
      destruct (IH w2) as (w' & new & Hrun & Hp' & Hlog' & Hrep).
      exists w', (debugs ++ [outcome_entry (Project.config_name project) (Thrown e)] ++ new).
      split; [exact Hrun|]. split; [rewrite Hp'; exact Hp|]. split.
      * rewrite Hlog'. unfold w2. cbn [log with_log].
        rewrite Hlog, app_nil_r, <- !app_assoc. reflexivity.
      * rewrite !List.filter_app, (filter_reported_debugs _ Hdebug), Hrep.
        reflexivity.
Qed.

Lemma attempts_names (todo : list Project.Config) :
  forall w, map fst (attempts todo w) = map Project.config_name todo.
Proof.
  induction todo as [|project todo IH]; intros w; [reflexivity|].
  cbn [attempts].
  destruct (generateScripts (Project.config_name project) w) as [r w1].
  cbn [map fst]. rewrite IH. reflexivity.
Qed.

(** One project of the loop: the failure of its generation is caught and
    reported, and the world is the one in which [attempts] goes on. *)
Lemma regenerate_one_run (project : Project.Config) (w : World) :
  exists r w1 w2,
    generateScripts (Project.config_name project) w = (r, w1)
    /\ regenerate_one project w = (Returned tt, w2)
    /\ fs w2 = fs w1
    /\ projects w2 = projects w
    /\ forall rest,
         attempts (project :: rest) w
         = (Project.config_name project, r) :: attempts rest w2.
Proof.
  destruct (generateScripts (Project.config_name project) w) as [r w1] eqn:Egen.
  destruct (generateScripts_outcome _ _ _ _ Egen) as (Hp & _).
  unfold regenerate_one, try_catch. cbn [attempts]. rewrite Egen.
  destruct r as [[]|e].
  - exists (Returned tt), w1, w1. repeat split. exact Hp.
  - eexists (Thrown e), w1, _. split; [reflexivity|]. split; [reflexivity|].
    repeat split. exact Hp.
Qed.

(** The loop leaves every file that is not a script of one of its projects. *)
Lemma regenerate_loop_keeps (todo : list Project.Config) :
  forall w w',
    for_of todo regenerate_one w = (Returned tt, w') ->
    forall q n,
      fs w !! q = Some n ->
      (forall later, In later todo ->
         ~ In q (getScriptsPaths (Project.config_name later))) ->
      fs w' !! q = Some n.
Proof.
  induction todo as [|project todo IH]; intros w w' Hrun q n Hq Hother.
  - injection Hrun as <-. exact Hq.
  - cbn [for_of] in Hrun. unfold bind in Hrun.
    destruct (regenerate_one_run project w) as (r & w1 & w2 & Egen & Eone & Hfs & _).
    rewrite Eone in Hrun.
    apply (IH w2 w' Hrun).
    + rewrite Hfs.
      apply (generateScripts_keeps _ _ _ _ _ _ Egen Hq).
      apply Hother. left. reflexivity.
    + intros later Hin. apply Hother. right. exact Hin.
Qed.

Lemma loadProjectConfig_projects (p : string) (w w2 : World) (config : Project.Config) :
  projects w2 = projects w ->
  loadProjectConfig p w = (Returned config, w) ->
  loadProjectConfig p w2 = (Returned config, w2).
Proof.
  intros Hp. unfold loadProjectConfig. rewrite Hp.
  destruct (List.find _ (projects w)); intros H; [|discriminate H].
  injection H as ->. reflexivity.
Qed.

(** The files of a project whose generation has returned hold their texts
    at the end of the loop, unless a later project of the loop has the same
    path among its scripts. *)
Lemma regenerate_loop_files (todo : list Project.Config) :
  forall w w',
    for_of todo regenerate_one w = (Returned tt, w') ->
    forall i project config,
      todo !! i = Some project ->
      attempts todo w !! i = Some (Project.config_name project, Returned tt) ->
      loadProjectConfig (Project.config_name project) w = (Returned config, w) ->
      Forall (fun t =>
                (forall later, In later (drop (S i) todo) ->
                   ~ In t.1 (getScriptsPaths (Project.config_name later))) ->
                holds w' t.1 t.2)
        (targets (Project.config_name project) (stored_services config)).
Proof.
  induction todo as [|project0 todo IH]; intros w w' Hrun i project config Hi Hattempt Hload.
  - discriminate Hi.
  - cbn [for_of] in Hrun. unfold bind in Hrun.
    destruct (regenerate_one_run project0 w)
      as (r & w1 & w2 & Egen & Eone & Hfs & Hp & Hattempts).
    rewrite Eone in Hrun. rewrite Hattempts in Hattempt.
    destruct i as [|j].
    + cbn in Hi, Hattempt. injection Hi as ->. injection Hattempt as ->.
      destruct (generateScripts_outcome _ _ _ _ Egen) as (_ & _ & k & Hnew & _ & [-> _]).
      pose proof (Hnew config Hload) as Hheld.
      rewrite (firstn_all2 (n := 5)) in Hheld by (cbn; lia).
      cbn [drop].
      eapply Forall_impl; [exact Hheld|].
      intros t Ht Hlater. unfold holds in *.
      apply (regenerate_loop_keeps todo w2 w' Hrun); [rewrite Hfs; exact Ht | exact Hlater].
    + cbn in Hi, Hattempt. cbn [drop].
      apply (IH w2 w' Hrun j project config Hi Hattempt).
      apply (loadProjectConfig_projects _ w w2 config Hp Hload).
Qed.

(** C8.  [regenerateAllScripts] runs [generateScripts] for every stored
    project, in stored order, whether or not the generation of an earlier
    project has failed, and itself returns.  What it reports is one entry
    per project, success or error with the name of the project, followed by
    its own closing entry: the log holds these entries in this order, next
    to the debug entries of the files written.  The runs have taken effect:
    for every project whose generation has returned, the five files hold
    the texts generated from its stored services, executable, unless a
    later project has written to the same path; a file that is no script
    of a stored project is left as it was, and so are the stored
    projects. *)
Theorem regenerateAllScripts_attempts_all (w : World) :
  exists w' new,
    regenerateAllScripts w = (Returned tt, w')
    /\ map fst (attempts (projects w) w) = map Project.config_name (projects w)
    /\ log w' = log w ++ new
    /\ List.filter reported new
       = map (fun a => outcome_entry a.1 a.2) (attempts (projects w) w)
         ++ [(Success, "Scripts régénérés pour tous les projets")]
    /\ projects w' = projects w
    /\ (forall i project config,
          projects w !! i = Some project ->
          attempts (projects w) w !! i
          = Some (Project.config_name project, Returned tt) ->
          loadProjectConfig (Project.config_name project) w = (Returned config, w) ->
          Forall (fun t =>
                    (forall later, In later (drop (S i) (projects w)) ->
                       ~ In t.1 (getScriptsPaths (Project.config_name later))) ->
                    holds w' t.1 t.2)
            (targets (Project.config_name project) (stored_services config)))
    /\ (forall q n,
          fs w !! q = Some n ->
          (forall project, In project (projects w) ->
             ~ In q (getScriptsPaths (Project.config_name project))) ->
          fs w' !! q = Some n).
Proof.
  destruct (regenerate_loop (projects w) w) as (w1 & new & Hrun & Hp & Hlog & Hrep).
  exists (with_log (log w1 ++ [(Success, "Scripts régénérés pour tous les projets")]) w1),
         (new ++ [(Success, "Scripts régénérés pour tous les projets")]).
  split; [|split; [|split; [|split; [|split; [|split]]]]].
  - unfold regenerateAllScripts, bind, loadProjects.
    fold regenerate_one.
    change (for_of (projects w) (fun project => regenerate_one project))
      with (for_of (projects w) regenerate_one).
    rewrite Hrun. reflexivity.
  - apply attempts_names.
  - cbn [log with_log]. rewrite Hlog, <- app_assoc. reflexivity.
  - rewrite List.filter_app, Hrep. reflexivity.
  - exact Hp.
  - intros i project config Hi Hattempt Hload.
    exact (regenerate_loop_files (projects w) w w1 Hrun i project config Hi Hattempt Hload).
  - intros q n Hq Hother.
    exact (regenerate_loop_keeps (projects w) w w1 Hrun q n Hq Hother).
Qed.

(** The generation for shop fails on the directory restart.sh; the scripts
    of blog, the project after it, are written all the same. *)
Example regenerateAllScripts_goes_on :
  let after := (regenerateAllScripts Examples.two_projects_world).2 in
  map (fun a => outcome_entry a.1 a.2)
    (attempts (projects Examples.two_projects_world) Examples.two_projects_world)
  = [ (Failure, "Erreur pour shop: EISDIR: illegal operation on a directory, open '/var/www/shop/scripts/restart.sh'");
      (Success, "Scripts générés pour blog") ]
  /\ Forall (fun t => holds after t.1 t.2) (targets "blog" []).
Proof.
  cbv zeta. split; [vm_compute; reflexivity|].
  repeat constructor; vm_compute; reflexivity.
Qed.

End RegenerateAll.

(* ===================================================================== *)
(** * The user store *)
(* ===================================================================== *)

Section UserStore.
Import JsString Js Users.

Variable sha256_hex : string -> string.

Lemma readUsers_existing (w : World) (users : list User) :
  users_store w = UsersFile users ->
  readUsers sha256_hex w = (Returned users, w).
Proof.
  intros H. destruct w as [st uuids used stamps ticks].
  cbn [users_store] in H. subst st. reflexivity.
Qed.

(** C7, as amended.  When [createUser] is called with a user name that is
    taken, with a role other than admin and user, or with a password of
    fewer than six characters, it throws, and it has neither added a user
    nor written the user data: the store is as reading it leaves it.  That
    is unchanged when users.json exists; when the file does not exist yet,
    reading creates it with the default administrator.  The characters of
    the password are counted as [password.length] counts them, in UTF-16
    code units. *)
Theorem createUser_rejects_before_writing
    (w w0 : World) (data : list User)
    (username0 password0 role0 : string) (mustChange : bool) (first last : string) :
  readUsers sha256_hex w = (Returned data, w0) ->
  existsb (fun u => String.eqb (username u) username0) data = true
  \/ valid_role role0 = false
  \/ utf16_length password0 < 6 ->
  (exists e,
     createUser sha256_hex username0 password0 role0 mustChange first last w
     = (Thrown e, w0))
  /\ (forall users, users_store w = UsersFile users -> w0 = w /\ data = users).
Proof.
  intros Hread Hbad. split.
  - unfold createUser. unfold bind at 1. rewrite Hread.
    unfold bind at 1.
    destruct (existsb (fun u => String.eqb (username u) username0) data) eqn:Edup.
    { eexists. reflexivity. }
    cbn [ret]. unfold bind at 1.
    destruct (valid_role role0) eqn:Erole; cbn [negb].
    2:{ eexists. reflexivity. }
    cbn [ret]. unfold bind at 1.
    destruct (Nat.ltb (utf16_length password0) 6) eqn:Elen.
    { eexists. reflexivity. }
    exfalso. destruct Hbad as [H|[H|H]]; try discriminate.
    apply Nat.ltb_ge in Elen. lia.
  - intros users Hstore. rewrite (readUsers_existing w users Hstore) in Hread.
    injection Hread as <- <-. split; reflexivity.
Qed.

End UserStore.

Section UserStoreExamples.
Import JsString Js Users.

(** The password of five accented letters takes ten bytes, and is refused
    for its five characters. *)
Lemma createUser_rejects_before_writing_witness :
  String.length "éèàçù" = 10
  /\ exists e,
       createUser Examples.toy_hash "carol" "éèàçù" "user" false "Carol" "C"
         Examples.with_alice
       = (Thrown e, Examples.with_alice).
Proof.
  split; [reflexivity|].
  refine (proj1 (createUser_rejects_before_writing Examples.toy_hash
                   Examples.with_alice Examples.with_alice
                   (stored_users Examples.with_alice)
                   "carol" "éèàçù" "user" false "Carol" "C" _ _)).
  - reflexivity.
  - right. right. vm_compute. lia.
Defined.

(** C7, as stated, fails on a first start: the call is refused for its
    short password, and yet users.json has been created, with the default
    administrator in it. *)
Lemma createUser_refused_yet_store_written :
  let call := createUser Examples.toy_hash "bob" "abc" "user" false "Bob" "B" in
  (call Examples.first_start).1
  = Thrown {| message := "Le mot de passe doit contenir au moins 6 caractères" |}
  /\ users_store Examples.first_start = NoDataDir
  /\ users_store (call Examples.first_start).2
     = UsersFile
         [ {| id := "id-0"; username := "admin"; firstName := None; lastName := None;
              password := Examples.toy_hash "admin123"; role := "admin";
              mustChangePassword := None; createdAt := "2024-01-01T00:00:00.000Z";
              projects := [] |} ].
Proof. cbv zeta. repeat split. Qed.

(** C9 fails in the code.  After the administrator has made alice an
    administrator and the account admin has been deleted, alice is the last
    administrator; [deleteUser] removes her all the same, because its guard
    only looks at the user named admin.  [changeUserRole] refuses to demote
    her. *)
Lemma deleteUser_removes_last_admin :
  (createUser Examples.toy_hash "alice" "secret1" "admin" false "Alice" "A"
     Examples.first_start).1
  = Returned {| pub_id := "id-1"; pub_username := "alice";
                pub_firstName := Some "Alice"; pub_lastName := Some "A";
                pub_role := "admin"; pub_mustChangePassword := Some false;
                pub_createdAt := "2024-01-02T00:00:00.000Z"; pub_projects := [] |}
  /\ adminCount (stored_users Examples.with_alice) = 2
  /\ (deleteUser Examples.toy_hash "id-0" Examples.with_alice).1 = Returned tt
  /\ map username (stored_users Examples.alice_alone) = ["alice"]
  /\ adminCount (stored_users Examples.alice_alone) = 1
  /\ (changeUserRole Examples.toy_hash "id-1" "user" Examples.alice_alone).1
     = Thrown {| message := "Impossible de rétrograder le dernier administrateur" |}
  /\ (deleteUser Examples.toy_hash "id-1" Examples.alice_alone).1 = Returned tt
  /\ users_store (deleteUser Examples.toy_hash "id-1" Examples.alice_alone).2
     = UsersFile []
  /\ adminCount (stored_users (deleteUser Examples.toy_hash "id-1" Examples.alice_alone).2)
     = 0.
Proof. repeat split. Qed.

End UserStoreExamples.

Section RoleChange.
Import JsString Js Users.

Variable sha256_hex : string -> string.

Lemma adminCount_app (xs ys : list User) :
  adminCount (xs ++ ys) = adminCount xs + adminCount ys.
Proof. unfold adminCount. rewrite List.filter_app, length_app. reflexivity. Qed.

Lemma adminCount_cons (u : User) (xs : list User) :
  adminCount (u :: xs) = (if is_admin u then 1 else 0) + adminCount xs.
Proof. unfold adminCount, is_admin. cbn [List.filter]. destruct (String.eqb _ _); reflexivity. Qed.

(** Replacing a user changes the number of administrators by what the two
    users contribute. *)
Lemma adminCount_insert (users : list User) (index : nat) (u u' : User) :
  users !! index = Some u ->
  adminCount (<[index := u']> users) + (if is_admin u then 1 else 0)
  = adminCount users + (if is_admin u' then 1 else 0).
Proof.
  intros Hu.
  assert (Hlt : index < length users) by (eapply lookup_lt_Some; exact Hu).
  rewrite (insert_take_drop users index u' Hlt).
  rewrite <- (take_drop_middle users index u Hu) at 3.
  rewrite !adminCount_app, !adminCount_cons. lia.
Qed.

(** X1.  The guard of [changeUserRole] does keep an administrator: whatever
    the call does to a store with an administrator, one remains. *)
Lemma changeUserRole_keeps_an_admin
    (w w' : World) (users : list User) (userId newRole : string) (r : outcome unit) :
  users_store w = UsersFile users ->
  1 <= adminCount users ->
  changeUserRole sha256_hex userId newRole w = (r, w') ->
  1 <= adminCount (stored_users w').
Proof.
  intros Hstore Hadmin Hrun.
  assert (Hsame : 1 <= adminCount (stored_users w)).
  { unfold stored_users. rewrite Hstore. exact Hadmin. }
  unfold changeUserRole in Hrun. unfold bind at 1 in Hrun.
  destruct (valid_role newRole) eqn:Erole; cbn [negb] in Hrun.
  2:{ injection Hrun as _ <-. exact Hsame. }
  cbn [ret] in Hrun. unfold bind at 1 in Hrun.
  rewrite (readUsers_existing sha256_hex w users Hstore) in Hrun.
  destruct (findIndex (fun u => String.eqb (id u) userId) users) as [index|].
  2:{ injection Hrun as _ <-. exact Hsame. }
  destruct (users !! index) as [user|] eqn:Euser.
  2:{ injection Hrun as _ <-. exact Hsame. }
  unfold bind at 1 in Hrun.
  pose proof (adminCount_insert users index user
                {| id := id user; username := username user;
                   firstName := firstName user; lastName := lastName user;
                   password := password user; role := newRole;
                   mustChangePassword := mustChangePassword user;
                   createdAt := createdAt user; projects := projects user |}
                Euser) as Hcount.
  unfold is_admin in Hcount. cbn [role] in Hcount.
  destruct (String.eqb (role user) "admin") eqn:Eadmin; cbn [andb] in Hrun.
  - destruct (String.eqb newRole "user") eqn:Euser'.
    + destruct (Nat.eqb (adminCount users) 1) eqn:Eone.
      * injection Hrun as _ <-. exact Hsame.
      * cbn [ret] in Hrun. unfold writeUsers, writeFileSync_USERS_FILE in Hrun.
        rewrite Hstore in Hrun.
        injection Hrun as _ <-. unfold stored_users. cbn [users_store with_store].
        apply Nat.eqb_neq in Eone.
        destruct (String.eqb newRole "admin"); lia.
    + cbn [ret] in Hrun. unfold writeUsers, writeFileSync_USERS_FILE in Hrun.
        rewrite Hstore in Hrun.
      injection Hrun as _ <-. unfold stored_users. cbn [users_store with_store].
      unfold valid_role in Erole. cbn [existsb] in Erole.
      rewrite Euser' in Erole. rewrite orb_false_r in Erole.
      rewrite Erole in Hcount. lia.
  - cbn [ret] in Hrun. unfold writeUsers, writeFileSync_USERS_FILE in Hrun.
        rewrite Hstore in Hrun.
    injection Hrun as _ <-. unfold stored_users. cbn [users_store with_store].
    destruct (String.eqb newRole "admin"); lia.
Qed.

End RoleChange.

(* ===================================================================== *)
(** * DELETE /api/projects/:name/files: the services that are stopped *)
(* ===================================================================== *)

Section DeleteFiles.
Import JsString Runtime Server.

(** One turn of the loop: it returns whatever the supervisor answers, and
    it has issued the command lines of its service. *)
Lemma stop_service_before_removal_run
    (projectName target : string) (service : Project.Service) (w : World) :
  exists w',
    stop_service_before_removal projectName target service w = (Returned tt, w')
    /\ projects w' = projects w
    /\ fs w' = fs w
    /\ commands w' = commands w ++ stop_lines projectName target [service] (processes w)
    /\ forall rest,
         stop_lines projectName target (service :: rest) (processes w)
         = stop_lines projectName target [service] (processes w)
           ++ stop_lines projectName target rest (processes w').
Proof.
  unfold stop_service_before_removal. cbn [stop_lines].
  fold (stops_service target service).
  destruct (stops_service target service).
  2:{ exists w. repeat split. rewrite app_nil_r. reflexivity. }
  set (n := service_pm2Name projectName service).
  unfold try_catch, bind. unfold pm2Command at 1.
  change (strip_prefix "stop " ("stop " +:+ n)) with (Some n).
  cbv beta iota zeta. cbn [processes with_commands].
  destruct (existsb (String.eqb n) (processes w)) eqn:Erunning.
  - unfold pm2Command at 1.
    change (strip_prefix "stop " ("delete " +:+ n)) with (@None string).
    change (strip_prefix "delete " ("delete " +:+ n)) with (Some n).
    cbv beta iota zeta. cbn [processes with_commands]. rewrite Erunning.
    eexists. split; [reflexivity|]. repeat split.
    cbn. rewrite <- app_assoc. reflexivity.
  - eexists. split; [reflexivity|]. repeat split.
Qed.

Lemma stop_loop_run (projectName target : string) (services : list Project.Service) :
  forall w, exists w',
    for_of services (stop_service_before_removal projectName target) w
    = (Returned tt, w')
    /\ projects w' = projects w
    /\ fs w' = fs w
    /\ commands w' = commands w ++ stop_lines projectName target services (processes w).
Proof.
  induction services as [|service services IH]; intros w.
  - exists w. repeat split. cbn [stop_lines]. rewrite app_nil_r. reflexivity.
  - cbn [for_of]. unfold bind.
    destruct (stop_service_before_removal_run projectName target service w)
      as (w1 & Hrun1 & Hp1 & Hf1 & Hc1 & Hlines).
    rewrite Hrun1.
    destruct (IH w1) as (w2 & Hrun2 & Hp2 & Hf2 & Hc2).
    exists w2.
    split; [exact Hrun2|]. split; [rewrite Hp2; exact Hp1|].
    split; [rewrite Hf2; exact Hf1|].
    rewrite (Hlines services), Hc2, Hc1, app_assoc. reflexivity.
Qed.







End DeleteFiles.

(* ===================================================================== *)
(** * fileManager.js: the test on the path *)
(* ===================================================================== *)

Section FileManagerGuard.
Import JsString Runtime FileManager.

(** C10 fails in the code.  The test [fullPath.startsWith(projectPath)]
    compares text, so that a path next to the root whose name starts like
    the name of the root passes it.  With the root /var/www/shop/sites,
    [readFile] hands out /var/www/shop/sites-backup/.env, [deleteItem]
    removes it, [createDirectory] makes /var/www/shop/sites2 and [writeFile]
    writes /var/www/shop/sites.bak/run.sh; none of these paths is the root
    or below it.  A path that leaves /var/www/shop altogether is refused. *)
Lemma fileManager_leaves_project_root :
  let root := "/var/www/shop/sites" in
  let w := Examples.shop_backup_world in
  (* reading *)
  Path.join [root; "../sites-backup/.env"] = "/var/www/shop/sites-backup/.env"
  /\ below root "/var/www/shop/sites-backup/.env" = false
  /\ (readFile root "../sites-backup/.env" w).1 = Returned "DB_PASSWORD=hunter2"
  (* removing *)
  /\ (deleteItem root "../sites-backup/.env" w).1 = Returned tt
  /\ fs (deleteItem root "../sites-backup/.env" w).2 !! "/var/www/shop/sites-backup/.env"
     = None
  (* creating *)
  /\ below root "/var/www/shop/sites2" = false
  /\ fs w !! "/var/www/shop/sites2" = None
  /\ (createDirectory root ".." "sites2" w).1 = Returned "../sites2"
  /\ fs (createDirectory root ".." "sites2" w).2 !! "/var/www/shop/sites2" = Some Dir
  /\ below root "/var/www/shop/sites.bak/run.sh" = false
  /\ (writeFile root "../sites.bak/run.sh" "echo" w).1 = Returned tt
  /\ fs (writeFile root "../sites.bak/run.sh" "echo" w).2 !! "/var/www/shop/sites.bak/run.sh"
     = Some (File "echo" "644")
  (* refused *)
  /\ readFile root "../../shop2/.env" w
     = (Thrown {| message := "Accès refusé : chemin invalide" |}, w).
Proof. cbv zeta. repeat split. Qed.

End FileManagerGuard.

(* ===================================================================== *)
(** * users.js: accounts, passwords, names and projects *)
(* ===================================================================== *)

Section UserAccounts.
Import JsString Js Users.

Variable sha256_hex : string -> string.

(** Reading the users always returns, and leaves the file in place. *)
Lemma readUsers_run (w : World) :
  exists data w0,
    readUsers sha256_hex w = (Returned data, w0)
    /\ users_store w0 = UsersFile data
    /\ (forall users, users_store w = UsersFile users -> w0 = w /\ data = users).
Proof.
  destruct w as [[| |users] uuids used stamps ticks].
  - eexists _, _. split; [reflexivity|]. split; [reflexivity|]. intros users H. discriminate H.
  - eexists _, _. split; [reflexivity|]. split; [reflexivity|]. intros users H. discriminate H.
  - exists users. eexists. split; [reflexivity|]. split; [reflexivity|].
    intros users' H. cbn in H. injection H as <-. split; reflexivity.
Qed.

Lemma writeUsers_run (w : World) (data data' : list User) :
  users_store w = UsersFile data ->
  writeUsers data' w = (Returned tt, with_store (UsersFile data') w).
Proof. intros H. unfold writeUsers, writeFileSync_USERS_FILE. rewrite H. reflexivity. Qed.

Lemma findIndex_Some (pred : User -> bool) (users : list User) :
  forall i, findIndex pred users = Some i ->
  exists u, users !! i = Some u /\ pred u = true
            /\ existsb pred (take i users) = false.
Proof.
  induction users as [|v users IH]; intros i H; [discriminate H|].
  cbn [findIndex] in H. destruct (pred v) eqn:Ev.
  - injection H as <-. exists v. repeat split. exact Ev.
  - destruct (findIndex pred users) as [j|]; [|discriminate H].
    injection H as <-. destruct (IH j eq_refl) as (u & Hu & Hp & Hbefore).
    exists u. split; [exact Hu|]. split; [exact Hp|].
    cbn [take existsb]. rewrite Ev. exact Hbefore.
Qed.

Lemma find_findIndex (pred : User -> bool) (users : list User) :
  List.find pred users
  = match findIndex pred users with
    | Some i => users !! i
    | None => None
    end.
Proof.
  induction users as [|v users IH]; [reflexivity|].
  cbn [List.find findIndex]. destruct (pred v); [reflexivity|].
  rewrite IH. destruct (findIndex pred users); reflexivity.
Qed.

Lemma find_by_id_Some (userId : string) (data : list User) (index : nat) (user : User) :
  find_by_id userId data = Some (index, user) ->
  findIndex (fun u => String.eqb (id u) userId) data = Some index
  /\ data !! index = Some user
  /\ id user = userId.
Proof.
  unfold find_by_id. intros H.
  destruct (findIndex _ data) as [i|] eqn:Ei; [|discriminate H].
  destruct (findIndex_Some _ _ _ Ei) as (u & Hu & Hp & _).
  rewrite Hu in H. injection H as <- <-.
  repeat split; [exact Hu|]. apply String.eqb_eq, Hp.
Qed.

Lemma find_by_id_None (userId : string) (data : list User) :
  existsb (fun u => String.eqb (id u) userId) data = false ->
  find_by_id userId data = None.
Proof.
  intros H. unfold find_by_id.
  destruct (findIndex _ data) as [i|] eqn:Ei; [|reflexivity].
  destruct (findIndex_Some _ _ _ Ei) as (u & Hu & Hp & _).
  exfalso. apply Bool.not_true_iff_false in H. apply H.
  apply existsb_exists. exists u. split; [|exact Hp].
  apply list_elem_of_In. eapply list_elem_of_lookup_2. exact Hu.
Qed.

Lemma find_app_last (pred : User -> bool) (data : list User) (u : User) :
  existsb pred data = false -> pred u = true ->
  List.find pred (data ++ [u]) = Some u.
Proof.
  induction data as [|v data IH]; intros Hno Hu.
  - cbn. rewrite Hu. reflexivity.
  - cbn [existsb] in Hno. apply orb_false_iff in Hno as [Hv Hno].
    cbn [app List.find]. rewrite Hv. apply IH; assumption.
Qed.

(** X2. A user that [createUser] has created logs in with the password
    given at the creation. *)
Theorem createUser_then_authenticate
    (w w' : World) (username0 password0 role0 : string) (mustChange : bool)
    (first last : string) (created : PublicUser) :
  createUser sha256_hex username0 password0 role0 mustChange first last w
  = (Returned created, w') ->
  authenticate sha256_hex username0 password0 w'
  = (Returned (AuthSuccess created), w').
Proof.
  intros Hrun.
  destruct (readUsers_run w) as (data & w0 & Hread & Hstore & _).
  unfold createUser in Hrun. unfold bind at 1 in Hrun. rewrite Hread in Hrun.
  unfold bind at 1 in Hrun.
  destruct (existsb (fun u => String.eqb (username u) username0) data) eqn:Edup;
    [discriminate Hrun|].
  cbn [ret] in Hrun. unfold bind at 1 in Hrun.
  destruct (valid_role role0); cbn [negb] in Hrun; [|discriminate Hrun].
  cbn [ret] in Hrun. unfold bind at 1 in Hrun.
  destruct (Nat.ltb (utf16_length password0) 6); [discriminate Hrun|].
  cbn [ret] in Hrun.
  unfold bind, randomUUID, now_toISOString, writeUsers, writeFileSync_USERS_FILE in Hrun.
  cbn [users_store] in Hrun. rewrite Hstore in Hrun.
  injection Hrun as <- <-.
  unfold authenticate, bind.
  erewrite readUsers_existing by reflexivity.
  rewrite find_app_last; [|exact Edup|apply String.eqb_refl].
  cbn [password]. unfold hashPassword. rewrite String.eqb_refl. reflexivity.
Qed.


(** X3. On a first start, when users.json does not exist yet, the account
    admin with the password admin123 logs in, as an administrator. *)
Theorem first_start_admin_logs_in (w : World) :
  (forall users, users_store w <> UsersFile users) ->
  exists user w',
    authenticate sha256_hex "admin" "admin123" w = (Returned (AuthSuccess user), w')
    /\ pub_username user = "admin"
    /\ pub_role user = "admin"
    /\ listUsers sha256_hex w' = (Returned [user], w').
Proof.
  intros Hnone. destruct w as [[| |users] uuids used stamps ticks].
  - eexists _, _. unfold authenticate, bind. cbn. unfold hashPassword.
    rewrite String.eqb_refl. cbn. repeat split.
  - eexists _, _. unfold authenticate, bind. cbn. unfold hashPassword.
    rewrite String.eqb_refl. cbn. repeat split.
  - exfalso. exact (Hnone users eq_refl).
Qed.

(** X4. [changePassword] and [changeUserRole] test their argument before
    they read the store: a refused call leaves everything as it was, also on
    a first start. *)
Theorem changes_check_arguments_first
    (w : World) (userId newPassword newRole : string) :
  utf16_length newPassword < 6 ->
  valid_role newRole = false ->
  changePassword sha256_hex userId newPassword w
  = (Thrown {| message := "Le mot de passe doit contenir au moins 6 caractères" |}, w)
  /\ exists e, changeUserRole sha256_hex userId newRole w = (Thrown e, w).
Proof.
  intros Hshort Hrole. split.
  - unfold changePassword, bind.
    apply Nat.ltb_lt in Hshort. rewrite Hshort. reflexivity.
  - unfold changeUserRole, bind. rewrite Hrole. eexists. reflexivity.
Qed.


(** X5. A call for a user id that the store does not hold is refused, and
    the store is left as it is; [getUserById] answers [null]. *)
Theorem unknown_user_is_refused (w : World) (users : list User) (userId : string) :
  users_store w = UsersFile users ->
  existsb (fun u => String.eqb (id u) userId) users = false ->
  let refused := (Thrown {| message := "Utilisateur non trouvé" |}, w) in
  deleteUser sha256_hex userId w = refused
  /\ (forall newPassword, 6 <= utf16_length newPassword ->
        changePassword sha256_hex userId newPassword w = refused)
  /\ (forall newRole, valid_role newRole = true ->
        changeUserRole sha256_hex userId newRole w = refused)
  /\ (forall projectName, assignProjectToUser sha256_hex userId projectName w = refused)
  /\ (forall projectName, removeProjectFromUser sha256_hex userId projectName w = refused)
  /\ getUserProjects sha256_hex userId w = (Thrown {| message := "Utilisateur non trouvé" |}, w)
  /\ (forall updates,
        updateUser sha256_hex userId updates w
        = (Thrown {| message := "Utilisateur non trouvé" |}, w))
  /\ getUserById sha256_hex userId w = (Returned None, w).
Proof.
  intros Hstore Hnone. cbv zeta.
  pose proof (readUsers_existing sha256_hex w users Hstore) as Hread.
  pose proof (find_by_id_None userId users Hnone) as Hfind.
  assert (Hindex : findIndex (fun u => String.eqb (id u) userId) users = None).
  { destruct (findIndex _ users) as [i|] eqn:Ei; [|reflexivity].
    destruct (findIndex_Some _ _ _ Ei) as (u & Hu & Hp & _).
    unfold find_by_id in Hfind. rewrite Ei, Hu in Hfind. discriminate Hfind. }
  repeat split.
  - unfold deleteUser, bind. rewrite Hread, Hindex. reflexivity.
  - intros newPassword Hlong. unfold changePassword, bind.
    apply Nat.ltb_ge in Hlong. rewrite Hlong. cbn [ret]. rewrite Hread, Hfind. reflexivity.
  - intros newRole Hrole. unfold changeUserRole, bind. rewrite Hrole. cbn [negb ret].
    rewrite Hread, Hindex. reflexivity.
  - intros projectName. unfold assignProjectToUser, bind. rewrite Hread, Hfind. reflexivity.
  - intros projectName. unfold removeProjectFromUser, bind. rewrite Hread, Hfind. reflexivity.
  - unfold getUserProjects, bind. rewrite Hread, Hfind. reflexivity.
  - intros updates. unfold updateUser, bind. rewrite Hread, Hfind. reflexivity.
  - unfold getUserById, bind. rewrite Hread, find_findIndex, Hindex. reflexivity.
Qed.

Lemma findIndex_insert (pred : User -> bool) (u' : User) (data : list User) :
  forall i, findIndex pred data = Some i -> pred u' = true ->
  findIndex pred (<[i := u']> data) = Some i.
Proof.
  induction data as [|v data IH]; intros i H Hu'; [discriminate H|].
  cbn [findIndex] in H. destruct (pred v) eqn:Ev.
  - injection H as <-. cbn. rewrite Hu'. reflexivity.
  - destruct (findIndex pred data) as [j|] eqn:Ej; [|discriminate H].
    injection H as <-.
    change (<[S j := u']> (v :: data)) with (v :: <[j := u']> data).
    cbn [findIndex]. rewrite Ev, (IH j eq_refl Hu'). reflexivity.
Qed.

Lemma find_insert (pred : User -> bool) (u' : User) (data : list User) (i : nat) :
  findIndex pred data = Some i -> pred u' = true ->
  List.find pred (<[i := u']> data) = Some u'.
Proof.
  intros Hi Hu'. rewrite find_findIndex, (findIndex_insert pred u' data i Hi Hu').
  destruct (findIndex_Some _ _ _ Hi) as (u & Hu & _).
  apply list_lookup_insert_eq. eapply lookup_lt_Some. exact Hu.
Qed.

(** X6. After [changePassword], the user logs in with exactly the passwords
    that have the hash of the new one, and no longer has to change it.  The
    user is looked up by id in [changePassword] and by name in
    [authenticate]: it is the first of its name. *)
Theorem changePassword_then_authenticate
    (w : World) (users : list User) (userId newPassword : string)
    (index : nat) (user : User) :
  users_store w = UsersFile users ->
  find_by_id userId users = Some (index, user) ->
  findIndex (fun u => String.eqb (username u) (username user)) users = Some index ->
  6 <= utf16_length newPassword ->
  exists w',
    changePassword sha256_hex userId newPassword w = (Returned tt, w')
    /\ forall attempt,
         authenticate sha256_hex (username user) attempt w'
         = (Returned
              (if String.eqb (sha256_hex newPassword) (sha256_hex attempt)
               then AuthSuccess
                      {| pub_id := id user; pub_username := username user;
                         pub_firstName := firstName user; pub_lastName := lastName user;
                         pub_role := role user; pub_mustChangePassword := Some false;
                         pub_createdAt := createdAt user; pub_projects := projects user |}
               else AuthFailure "Mot de passe incorrect"), w').
Proof.
  intros Hstore Hfind Hfirst Hlong.
  eexists. split.
  - unfold changePassword, bind.
    apply Nat.ltb_ge in Hlong. rewrite Hlong. cbn [ret].
    rewrite (readUsers_existing sha256_hex w users Hstore), Hfind.
    apply (writeUsers_run w users _ Hstore).
  - intros attempt. unfold authenticate, bind.
    erewrite readUsers_existing by reflexivity.
    rewrite (find_insert _ _ users index Hfirst) by apply String.eqb_refl.
    cbn [password with_password]. unfold hashPassword.
    destruct (String.eqb (sha256_hex newPassword) (sha256_hex attempt)); reflexivity.
Qed.


Lemma username_absent (n : string) (data : list User) :
  existsb (fun u => String.eqb (username u) n) data = false ->
  ~ In n (map username data).
Proof.
  induction data as [|v data IH]; intros H Hin; [destruct Hin|].
  cbn [existsb] in H. apply orb_false_iff in H as [Hv H].
  destruct Hin as [Heq|Hin].
  - apply String.eqb_neq in Hv. exact (Hv Heq).
  - exact (IH H Hin).
Qed.

(** The users that [readUsers] hands out have distinct names when the
    stored ones have: the default administrator is alone. *)
Lemma readUsers_distinct (w w0 : World) (data : list User) :
  List.NoDup (map username (stored_users w)) ->
  readUsers sha256_hex w = (Returned data, w0) ->
  List.NoDup (map username data) /\ users_store w0 = UsersFile data.
Proof.
  intros Hnd Hread. destruct w as [[| |users] uuids used stamps ticks].
  - injection Hread as <- <-. split; [|reflexivity].
    cbn. constructor; [intros []|constructor].
  - injection Hread as <- <-. split; [|reflexivity].
    cbn. constructor; [intros []|constructor].
  - injection Hread as <- <-. split; [exact Hnd|reflexivity].
Qed.

Lemma stored_users_file (w : World) (data : list User) :
  users_store w = UsersFile data -> stored_users w = data.
Proof. intros H. unfold stored_users. rewrite H. reflexivity. Qed.

(** X7. [createUser] keeps the user names distinct, whether it returns or
    throws. *)
Theorem createUser_keeps_usernames_distinct
    (w w' : World) (username0 password0 role0 : string) (mustChange : bool)
    (first last : string) (r : outcome PublicUser) :
  List.NoDup (map username (stored_users w)) ->
  createUser sha256_hex username0 password0 role0 mustChange first last w = (r, w') ->
  List.NoDup (map username (stored_users w')).
Proof.
  intros Hnd Hrun.
  destruct (readUsers_run w) as (data & w0 & Hread & _).
  destruct (readUsers_distinct w w0 data Hnd Hread) as [Hdata Hstore].
  unfold createUser in Hrun. unfold bind at 1 in Hrun. rewrite Hread in Hrun.
  unfold bind at 1 in Hrun.
  destruct (existsb (fun u => String.eqb (username u) username0) data) eqn:Edup.
  { injection Hrun as _ <-. rewrite (stored_users_file w0 data Hstore). exact Hdata. }
  cbn [ret] in Hrun. unfold bind at 1 in Hrun.
  destruct (valid_role role0); cbn [negb] in Hrun.
  2:{ injection Hrun as _ <-. rewrite (stored_users_file w0 data Hstore). exact Hdata. }
  cbn [ret] in Hrun. unfold bind at 1 in Hrun.
  destruct (Nat.ltb (utf16_length password0) 6).
  { injection Hrun as _ <-. rewrite (stored_users_file w0 data Hstore). exact Hdata. }
  cbn [ret] in Hrun.
  unfold bind, randomUUID, now_toISOString, writeUsers, writeFileSync_USERS_FILE in Hrun.
  cbn [users_store] in Hrun. rewrite Hstore in Hrun.
  injection Hrun as _ <-. unfold stored_users. cbn [users_store with_store].
  rewrite map_app. cbn [map username].
  apply List.NoDup_app; [exact Hdata | constructor; [intros []|constructor] |].
  intros a Ha [<-|[]]. exact (username_absent _ data Edup Ha).
Qed.

(** X9. The empty text as new name is not tested against the other users:
    [updateUser] gives the user the empty name whoever holds it already. *)
Theorem updateUser_takes_empty_name
    (w : World) (users : list User) (userId : string) (updates : Updates)
    (index : nat) (user : User) :
  users_store w = UsersFile users ->
  find_by_id userId users = Some (index, user) ->
  upd_username updates = Some EmptyString ->
  exists updated w',
    updateUser sha256_hex userId updates w = (Returned updated, w')
    /\ pub_username updated = EmptyString
    /\ map username (stored_users w') = <[index := EmptyString]> (map username users).
Proof.
  intros Hstore Hfind Hname.
  eexists _, _. split; [|split].
  - unfold updateUser, bind.
    rewrite (readUsers_existing sha256_hex w users Hstore), Hfind, Hname.
    cbn [truthy andb ret].
    rewrite (writeUsers_run w users _ Hstore). reflexivity.
  - cbn [withoutPassword pub_username apply_updates username]. rewrite Hname. reflexivity.
  - unfold stored_users. cbn [users_store with_store].
    change (map username (<[index := apply_updates updates user]> users))
      with (username <$> <[index := apply_updates updates user]> users).
    rewrite list_fmap_insert. unfold apply_updates. cbn [username]. rewrite Hname.
    reflexivity.
Qed.

Lemma find_skip (pred : User -> bool) (xs ys : list User) (u : User) :
  pred u = false -> List.find pred (xs ++ u :: ys) = List.find pred (xs ++ ys).
Proof.
  intros Hu. induction xs as [|x xs IH].
  - cbn. rewrite Hu. reflexivity.
  - cbn [app List.find]. rewrite IH. reflexivity.
Qed.

Lemma getUserById_existing (w : World) (users : list User) (userId : string) :
  users_store w = UsersFile users ->
  getUserById sha256_hex userId w
  = (Returned (option_map withoutPassword
                 (List.find (fun u => String.eqb (id u) userId) users)), w).
Proof.
  intros Hstore. unfold getUserById, bind.
  rewrite (readUsers_existing sha256_hex w users Hstore).
  destruct (List.find _ users); reflexivity.
Qed.

(** X10. [deleteUser] removes the user with the given id and no other: with
    distinct ids in the store, the id is unknown afterwards and every other
    id gives the user it gave before. *)
Theorem deleteUser_removes_that_user
    (w w' : World) (users : list User) (userId : string) :
  users_store w = UsersFile users ->
  List.NoDup (map id users) ->
  deleteUser sha256_hex userId w = (Returned tt, w') ->
  getUserById sha256_hex userId w' = (Returned None, w')
  /\ length (stored_users w') + 1 = length users
  /\ forall other, other <> userId ->
       exists found,
         getUserById sha256_hex other w = (Returned found, w)
         /\ getUserById sha256_hex other w' = (Returned found, w').
Proof.
  intros Hstore Hnd Hrun.
  unfold deleteUser in Hrun. unfold bind at 1 in Hrun.
  rewrite (readUsers_existing sha256_hex w users Hstore) in Hrun.
  destruct (findIndex (fun u => String.eqb (id u) userId) users) as [index|] eqn:Eindex;
    [|discriminate Hrun].
  destruct (findIndex_Some _ _ _ Eindex) as (user & Hu & Hid & Hbefore).
  rewrite Hu in Hrun. unfold bind at 1 in Hrun.
  assert (Hw' : w' = with_store (UsersFile (take index users ++ drop (S index) users)) w).
  { destruct (String.eqb (username user) "admin" && String.eqb (role user) "admin").
    - destruct (Nat.eqb (adminCount users) 1); [discriminate Hrun|].
      cbn [ret] in Hrun. rewrite (writeUsers_run w users _ Hstore) in Hrun.
      injection Hrun as <-. reflexivity.
    - cbn [ret] in Hrun. rewrite (writeUsers_run w users _ Hstore) in Hrun.
      injection Hrun as <-. reflexivity. }
  clear Hrun. subst w'.
  apply String.eqb_eq in Hid.
  pose proof (take_drop_middle users index user Hu) as Hsplit.
  assert (Hafter : existsb (fun u => String.eqb (id u) userId) (drop (S index) users) = false).
  { rewrite <- Hsplit, map_app in Hnd. cbn [map] in Hnd.
    apply NoDup_remove_2 in Hnd.
    apply Bool.not_true_iff_false. intros Hex.
    apply existsb_exists in Hex as (v & Hv & Hvid). apply String.eqb_eq in Hvid.
    apply Hnd. apply in_or_app. right. rewrite Hid, <- Hvid. apply in_map. exact Hv. }
  split; [|split].
  - unfold getUserById, bind. erewrite readUsers_existing by reflexivity.
    rewrite find_findIndex.
    destruct (findIndex _ (take index users ++ drop (S index) users)) as [j|] eqn:Ej;
      [|reflexivity].
    destruct (findIndex_Some _ _ _ Ej) as (v & Hv & Hvid & _).
    exfalso. apply list_elem_of_lookup_2, elem_of_app in Hv as [Hv|Hv].
    + apply Bool.not_true_iff_false in Hbefore. apply Hbefore.
      apply existsb_exists. exists v. split; [apply list_elem_of_In; exact Hv | exact Hvid].
    + apply Bool.not_true_iff_false in Hafter. apply Hafter.
      apply existsb_exists. exists v. split; [apply list_elem_of_In; exact Hv | exact Hvid].
  - unfold stored_users. cbn [users_store with_store].
    rewrite <- Hsplit at 3. rewrite !length_app. cbn [length]. lia.
  - intros other Hother.
    assert (Hskip : String.eqb (id user) other = false).
    { apply String.eqb_neq. rewrite Hid. intros H. apply Hother. symmetry. exact H. }
    exists (option_map withoutPassword
              (List.find (fun u => String.eqb (id u) other)
                 (take index users ++ drop (S index) users))).
    split.
    + rewrite (getUserById_existing w users other Hstore).
      rewrite <- (find_skip _ _ _ user Hskip), Hsplit. reflexivity.
    + apply getUserById_existing. reflexivity.
Qed.


(** X11. [deleteUser] keeps an administrator when the user it is asked to
    delete is named admin or is no administrator: its guard covers these
    users. *)
Theorem deleteUser_keeps_an_admin
    (w w' : World) (users : list User) (userId : string) (index : nat) (user : User)
    (r : outcome unit) :
  users_store w = UsersFile users ->
  1 <= adminCount users ->
  find_by_id userId users = Some (index, user) ->
  username user = "admin" \/ role user <> "admin" ->
  deleteUser sha256_hex userId w = (r, w') ->
  1 <= adminCount (stored_users w').
Proof.
  intros Hstore Hadmin Hfind Hcovered Hrun.
  destruct (find_by_id_Some _ _ _ _ Hfind) as (Hindex & Hu & _).
  assert (Hsame : 1 <= adminCount (stored_users w)).
  { rewrite (stored_users_file w users Hstore). exact Hadmin. }
  assert (Hcount : adminCount users
                   = adminCount (take index users ++ drop (S index) users)
                     + (if is_admin user then 1 else 0)).
  { rewrite <- (take_drop_middle users index user Hu) at 1.
    rewrite !adminCount_app, adminCount_cons. lia. }
  unfold deleteUser in Hrun. unfold bind at 1 in Hrun.
  rewrite (readUsers_existing sha256_hex w users Hstore), Hindex, Hu in Hrun.
  unfold bind at 1 in Hrun. unfold is_admin in Hcount.
  destruct (String.eqb (role user) "admin") eqn:Erole.
  - destruct Hcovered as [Hname|Hrole].
    2:{ apply String.eqb_eq in Erole. contradiction. }
    rewrite Hname in Hrun. cbn [String.eqb Ascii.eqb Bool.eqb andb] in Hrun.
    destruct (Nat.eqb (adminCount users) 1) eqn:Eone.
    + injection Hrun as _ <-. exact Hsame.
    + cbn [ret] in Hrun. rewrite (writeUsers_run w users _ Hstore) in Hrun.
      injection Hrun as _ <-. unfold stored_users. cbn [users_store with_store].
      apply Nat.eqb_neq in Eone. lia.
  - rewrite andb_false_r in Hrun. cbn [ret] in Hrun.
    rewrite (writeUsers_run w users _ Hstore) in Hrun.
    injection Hrun as _ <-. unfold stored_users. cbn [users_store with_store]. lia.
Qed.

Lemma find_by_id_insert (userId : string) (data : list User) (index : nat)
    (user user' : User) :
  find_by_id userId data = Some (index, user) ->
  id user' = id user ->
  find_by_id userId (<[index := user']> data) = Some (index, user').
Proof.
  intros Hfind Hid.
  destruct (find_by_id_Some _ _ _ _ Hfind) as (Hindex & Hu & Hu_id).
  unfold find_by_id.
  rewrite (findIndex_insert _ user' data index Hindex)
    by (rewrite Hid, Hu_id; apply String.eqb_refl).
  rewrite list_lookup_insert_eq by (eapply lookup_lt_Some; exact Hu).
  reflexivity.
Qed.

Lemma findIndex_insert_same (pred : User -> bool) (user' : User) (data : list User) :
  forall index user,
    data !! index = Some user -> pred user' = pred user ->
    findIndex pred (<[index := user']> data) = findIndex pred data.
Proof.
  induction data as [|v data IH]; intros index user Hu Hpred; [discriminate Hu|].
  destruct index as [|index].
  - injection Hu as ->. cbn. rewrite Hpred. reflexivity.
  - change (<[S index := user']> (v :: data)) with (v :: <[index := user']> data).
    cbn [findIndex]. rewrite (IH index user Hu Hpred). reflexivity.
Qed.

(** The user that another id finds is not the one that was replaced. *)
Lemma find_by_id_insert_other (userId other : string) (data : list User) (index : nat)
    (user user' : User) :
  find_by_id userId data = Some (index, user) ->
  id user' = id user ->
  other <> userId ->
  find_by_id other (<[index := user']> data) = find_by_id other data.
Proof.
  intros Hfind Hid Hother.
  destruct (find_by_id_Some _ _ _ _ Hfind) as (_ & Hu & Hu_id).
  unfold find_by_id.
  rewrite (findIndex_insert_same _ user' data index user Hu)
    by (cbn; rewrite Hid; reflexivity).
  destruct (findIndex (fun u => String.eqb (id u) other) data) as [j|] eqn:Ej;
    [|reflexivity].
  destruct (findIndex_Some _ _ _ Ej) as (v & Hv & Hv_id & _).
  apply String.eqb_eq in Hv_id.
  rewrite list_lookup_insert_ne; [reflexivity|].
  intros <-. rewrite Hu in Hv. injection Hv as <-. congruence.
Qed.

Lemma getUserProjects_existing (w : World) (users : list User) (userId : string) :
  users_store w = UsersFile users ->
  getUserProjects sha256_hex userId w
  = match find_by_id userId users with
    | Some (_, user) => (Returned (projects user), w)
    | None => (Thrown {| message := "Utilisateur non trouvé" |}, w)
    end.
Proof.
  intros Hstore. unfold getUserProjects, bind.
  rewrite (readUsers_existing sha256_hex w users Hstore).
  destruct (find_by_id userId users) as [[index user]|]; reflexivity.
Qed.

Lemma existsb_last (p : string) (ps : list string) :
  existsb (String.eqb p) (ps ++ [p]) = true.
Proof. rewrite existsb_app. cbn. rewrite String.eqb_refl, orb_true_r. reflexivity. Qed.

(** X12. [assignProjectToUser] is idempotent: after a call that returns, the
    project is among the projects of the user, and a second call returns
    and changes nothing. *)
Theorem assignProjectToUser_idempotent
    (w w' : World) (userId projectName : string) :
  assignProjectToUser sha256_hex userId projectName w = (Returned tt, w') ->
  assignProjectToUser sha256_hex userId projectName w' = (Returned tt, w')
  /\ exists assigned,
       getUserProjects sha256_hex userId w' = (Returned assigned, w')
       /\ In projectName assigned.
Proof.
  intros Hrun.
  destruct (readUsers_run w) as (data & w0 & Hread & Hstore & _).
  unfold assignProjectToUser in Hrun. unfold bind at 1 in Hrun. rewrite Hread in Hrun.
  destruct (find_by_id userId data) as [[index user]|] eqn:Efind; [|discriminate Hrun].
  destruct (existsb (String.eqb projectName) (projects user)) eqn:Ehas; cbn [negb] in Hrun.
  - injection Hrun as <-. split.
    + unfold assignProjectToUser, bind.
      rewrite (readUsers_existing sha256_hex w0 data Hstore), Efind, Ehas. reflexivity.
    + exists (projects user). rewrite (getUserProjects_existing w0 data userId Hstore), Efind.
      split; [reflexivity|].
      apply existsb_exists in Ehas as (q & Hq & Heq). apply String.eqb_eq in Heq.
      rewrite Heq. exact Hq.
  - rewrite (writeUsers_run w0 data _ Hstore) in Hrun. injection Hrun as <-.
    pose proof (find_by_id_insert userId data index user
                  (with_projects (projects user ++ [projectName]) user) Efind eq_refl)
      as Hfound.
    split.
    + unfold assignProjectToUser, bind.
      erewrite readUsers_existing by reflexivity. rewrite Hfound.
      cbn [projects with_projects]. rewrite existsb_last. reflexivity.
    + exists (projects user ++ [projectName]).
      erewrite getUserProjects_existing by reflexivity. rewrite Hfound.
      split; [reflexivity|]. apply in_or_app. right. left. reflexivity.
Qed.

(** X13. After [removeProjectFromUser], the projects of the user are those
    it had, in their order, without the removed one. *)
Theorem removeProjectFromUser_removes
    (w w' : World) (users : list User) (userId projectName : string) :
  users_store w = UsersFile users ->
  removeProjectFromUser sha256_hex userId projectName w = (Returned tt, w') ->
  exists before,
    getUserProjects sha256_hex userId w = (Returned before, w)
    /\ getUserProjects sha256_hex userId w'
       = (Returned (List.filter (fun p => negb (String.eqb p projectName)) before), w')
    /\ ~ In projectName (List.filter (fun p => negb (String.eqb p projectName)) before).
Proof.
  intros Hstore Hrun.
  unfold removeProjectFromUser in Hrun. unfold bind at 1 in Hrun.
  rewrite (readUsers_existing sha256_hex w users Hstore) in Hrun.
  destruct (find_by_id userId users) as [[index user]|] eqn:Efind; [|discriminate Hrun].
  rewrite (writeUsers_run w users _ Hstore) in Hrun. injection Hrun as <-.
  exists (projects user). split; [|split].
  - rewrite (getUserProjects_existing w users userId Hstore), Efind. reflexivity.
  - erewrite getUserProjects_existing by reflexivity.
    rewrite (find_by_id_insert userId users index user
               (with_projects
                  (List.filter (fun p => negb (String.eqb p projectName)) (projects user))
                  user) Efind eq_refl).
    reflexivity.
  - intros Hin. apply filter_In in Hin as [_ Hne].
    rewrite String.eqb_refl in Hne. discriminate Hne.
Qed.

(** X14. [assignProjectToUser] and [removeProjectFromUser] leave the projects
    of every other user as they are. *)
Theorem project_assignment_is_per_user
    (w w1 w2 : World) (users : list User) (userId projectName other : string)
    (r1 r2 : outcome unit) :
  users_store w = UsersFile users ->
  other <> userId ->
  assignProjectToUser sha256_hex userId projectName w = (r1, w1) ->
  removeProjectFromUser sha256_hex userId projectName w = (r2, w2) ->
  (getUserProjects sha256_hex other w1).1 = (getUserProjects sha256_hex other w).1
  /\ (getUserProjects sha256_hex other w2).1 = (getUserProjects sha256_hex other w).1.
Proof.
  intros Hstore Hother Hassign Hremove.
  rewrite (getUserProjects_existing w users other Hstore).
  unfold assignProjectToUser in Hassign. unfold bind at 1 in Hassign.
  rewrite (readUsers_existing sha256_hex w users Hstore) in Hassign.
  unfold removeProjectFromUser in Hremove. unfold bind at 1 in Hremove.
  rewrite (readUsers_existing sha256_hex w users Hstore) in Hremove.
  destruct (find_by_id userId users) as [[index user]|] eqn:Efind.
  2:{ injection Hassign as _ <-. injection Hremove as _ <-.
      rewrite (getUserProjects_existing w users other Hstore). split; reflexivity. }
  rewrite (writeUsers_run w users _ Hstore) in Hremove. injection Hremove as _ <-.
  split.
  - destruct (existsb (String.eqb projectName) (projects user)); cbn [negb] in Hassign.
    + injection Hassign as _ <-.
      rewrite (getUserProjects_existing w users other Hstore). reflexivity.
    + rewrite (writeUsers_run w users _ Hstore) in Hassign. injection Hassign as _ <-.
      erewrite getUserProjects_existing by reflexivity.
      rewrite (find_by_id_insert_other userId other users index user
                 (with_projects (projects user ++ [projectName]) user)
                 Efind eq_refl Hother).
      destruct (find_by_id other users) as [[j v]|]; reflexivity.
  - erewrite getUserProjects_existing by reflexivity.
    rewrite (find_by_id_insert_other userId other users index user
               (with_projects
                  (List.filter (fun p => negb (String.eqb p projectName)) (projects user))
                  user) Efind eq_refl Hother).
    destruct (find_by_id other users) as [[j v]|]; reflexivity.
Qed.

End UserAccounts.
Section UserAccountsExamples.
Import JsString Js Users.

Lemma with_alice_ids_distinct :
  List.NoDup (map id (stored_users Examples.with_alice)).
Proof. repeat constructor; cbn; intuition discriminate. Qed.

Lemma changeUserRole_keeps_an_admin_witness :
  1 <= adminCount
         (stored_users (changeUserRole Examples.toy_hash "id-1" "user" Examples.alice_alone).2).
Proof.
  eapply (changeUserRole_keeps_an_admin Examples.toy_hash Examples.alice_alone).
  - reflexivity.
  - vm_compute. lia.
  - apply surjective_pairing.
Defined.

Lemma createUser_then_authenticate_witness :
  authenticate Examples.toy_hash "alice" "secret1" Examples.with_alice
  = (Returned
       (AuthSuccess
          {| pub_id := "id-1"; pub_username := "alice";
             pub_firstName := Some "Alice"; pub_lastName := Some "A";
             pub_role := "admin"; pub_mustChangePassword := Some false;
             pub_createdAt := "2024-01-02T00:00:00.000Z"; pub_projects := [] |}),
     Examples.with_alice).
Proof.
  apply (createUser_then_authenticate Examples.toy_hash Examples.first_start
           Examples.with_alice "alice" "secret1" "admin" false "Alice" "A").
  reflexivity.
Defined.

Lemma first_start_admin_logs_in_witness :
  exists user w',
    authenticate Examples.toy_hash "admin" "admin123" Examples.first_start
    = (Returned (AuthSuccess user), w')
    /\ pub_username user = "admin"
    /\ pub_role user = "admin"
    /\ listUsers Examples.toy_hash w' = (Returned [user], w').
Proof.
  apply (first_start_admin_logs_in Examples.toy_hash Examples.first_start).
  intros users H. discriminate H.
Defined.

(** The password of three accented letters takes six bytes, and is
    refused for its three characters. *)
Lemma changes_check_arguments_first_witness :
  String.length "ééé" = 6
  /\ changePassword Examples.toy_hash "id-0" "ééé" Examples.first_start
     = (Thrown {| message := "Le mot de passe doit contenir au moins 6 caractères" |},
        Examples.first_start)
  /\ exists e,
       changeUserRole Examples.toy_hash "id-0" "root" Examples.first_start
       = (Thrown e, Examples.first_start).
Proof.
  split; [reflexivity|].
  apply (changes_check_arguments_first Examples.toy_hash Examples.first_start
           "id-0" "ééé" "root").
  - vm_compute. lia.
  - reflexivity.
Defined.

Lemma unknown_user_is_refused_witness :
  deleteUser Examples.toy_hash "id-7" Examples.with_alice
  = (Thrown {| message := "Utilisateur non trouvé" |}, Examples.with_alice).
Proof.
  refine (proj1 (unknown_user_is_refused Examples.toy_hash Examples.with_alice
                   (stored_users Examples.with_alice) "id-7" _ _)).
  - reflexivity.
  - reflexivity.
Defined.

Lemma changePassword_then_authenticate_witness :
  exists w',
    changePassword Examples.toy_hash "id-1" "new-secret" Examples.with_alice
    = (Returned tt, w')
    /\ forall attempt,
         authenticate Examples.toy_hash "alice" attempt w'
         = (Returned
              (if String.eqb (Examples.toy_hash "new-secret") (Examples.toy_hash attempt)
               then AuthSuccess
                      {| pub_id := "id-1"; pub_username := "alice";
                         pub_firstName := Some "Alice"; pub_lastName := Some "A";
                         pub_role := "admin"; pub_mustChangePassword := Some false;
                         pub_createdAt := "2024-01-02T00:00:00.000Z";
                         pub_projects := [] |}
               else AuthFailure "Mot de passe incorrect"), w').
Proof.
  refine (changePassword_then_authenticate Examples.toy_hash Examples.with_alice
            (stored_users Examples.with_alice) "id-1" "new-secret" 1
            {| id := "id-1"; username := "alice";
               firstName := Some "Alice"; lastName := Some "A";
               password := Examples.toy_hash "secret1"; role := "admin";
               mustChangePassword := Some false;
               createdAt := "2024-01-02T00:00:00.000Z"; projects := [] |}
            _ _ _ _).
  - reflexivity.
  - reflexivity.
  - reflexivity.
  - vm_compute. lia.
Defined.

Lemma createUser_keeps_usernames_distinct_witness :
  List.NoDup (map username (stored_users Examples.with_alice)).
Proof.
  eapply (createUser_keeps_usernames_distinct Examples.toy_hash Examples.first_start
            Examples.with_alice "alice" "secret1" "admin" false "Alice" "A").
  - constructor.
  - apply surjective_pairing.
Defined.

Lemma updateUser_takes_empty_name_witness :
  exists updated w',
    updateUser Examples.toy_hash "id-1"
      {| upd_firstName := None; upd_lastName := None;
         upd_username := Some EmptyString; upd_mustChangePassword := None |}
      Examples.with_alice
    = (Returned updated, w')
    /\ pub_username updated = EmptyString
    /\ map username (stored_users w') = ["admin"; EmptyString].
Proof.
  refine (updateUser_takes_empty_name Examples.toy_hash Examples.with_alice
            (stored_users Examples.with_alice) "id-1" _ 1
            {| id := "id-1"; username := "alice";
               firstName := Some "Alice"; lastName := Some "A";
               password := Examples.toy_hash "secret1"; role := "admin";
               mustChangePassword := Some false;
               createdAt := "2024-01-02T00:00:00.000Z"; projects := [] |}
            _ _ _).
  - reflexivity.
  - reflexivity.
  - reflexivity.
Defined.

Lemma deleteUser_removes_that_user_witness :
  getUserById Examples.toy_hash "id-0" Examples.alice_alone
  = (Returned None, Examples.alice_alone)
  /\ length (stored_users Examples.alice_alone) + 1
     = length (stored_users Examples.with_alice)
  /\ forall other, other <> "id-0" ->
       exists found,
         getUserById Examples.toy_hash other Examples.with_alice
         = (Returned found, Examples.with_alice)
         /\ getUserById Examples.toy_hash other Examples.alice_alone
            = (Returned found, Examples.alice_alone).
Proof.
  apply (deleteUser_removes_that_user Examples.toy_hash Examples.with_alice
           Examples.alice_alone (stored_users Examples.with_alice) "id-0").
  - reflexivity.
  - exact with_alice_ids_distinct.
  - reflexivity.
Defined.

Lemma deleteUser_keeps_an_admin_witness :
  1 <= adminCount (stored_users Examples.alice_alone).
Proof.
  eapply (deleteUser_keeps_an_admin Examples.toy_hash Examples.with_alice
            Examples.alice_alone (stored_users Examples.with_alice) "id-0" 0).
  - reflexivity.
  - vm_compute. lia.
  - reflexivity.
  - left. reflexivity.
  - apply surjective_pairing.
Defined.

Lemma assignProjectToUser_idempotent_witness :
  let assigned := (assignProjectToUser Examples.toy_hash "id-1" "shop" Examples.with_alice).2 in
  assignProjectToUser Examples.toy_hash "id-1" "shop" assigned = (Returned tt, assigned)
  /\ exists projects,
       getUserProjects Examples.toy_hash "id-1" assigned = (Returned projects, assigned)
       /\ In "shop" projects.
Proof.
  apply (assignProjectToUser_idempotent Examples.toy_hash Examples.with_alice).
  reflexivity.
Defined.

Lemma removeProjectFromUser_removes_witness :
  let assigned := (assignProjectToUser Examples.toy_hash "id-1" "shop" Examples.with_alice).2 in
  let removed := (removeProjectFromUser Examples.toy_hash "id-1" "shop" assigned).2 in
  exists before,
    getUserProjects Examples.toy_hash "id-1" assigned = (Returned before, assigned)
    /\ getUserProjects Examples.toy_hash "id-1" removed
       = (Returned (List.filter (fun p => negb (String.eqb p "shop")) before), removed)
    /\ ~ In "shop" (List.filter (fun p => negb (String.eqb p "shop")) before).
Proof.
  eapply (removeProjectFromUser_removes Examples.toy_hash).
  - reflexivity.
  - reflexivity.
Defined.

Lemma project_assignment_is_per_user_witness :
  (getUserProjects Examples.toy_hash "id-0"
     (assignProjectToUser Examples.toy_hash "id-1" "shop" Examples.with_alice).2).1
  = (getUserProjects Examples.toy_hash "id-0" Examples.with_alice).1
  /\ (getUserProjects Examples.toy_hash "id-0"
        (removeProjectFromUser Examples.toy_hash "id-1" "shop" Examples.with_alice).2).1
     = (getUserProjects Examples.toy_hash "id-0" Examples.with_alice).1.
Proof.
  eapply (project_assignment_is_per_user Examples.toy_hash Examples.with_alice _ _
            (stored_users Examples.with_alice) "id-1" "shop" "id-0").
  - reflexivity.
  - discriminate.
  - apply surjective_pairing.
  - apply surjective_pairing.
Defined.

End UserAccountsExamples.

(* ===================================================================== *)
(** * generateScripts: a second run, and what a run leaves alone *)
(* ===================================================================== *)

Section Regeneration.
Import JsString Runtime Scripts Materialisation.

(** X15.  The five paths are distinct and each ends with the name of its file. *)
Theorem getScriptsPaths_distinct (p : string) :
  List.NoDup (getScriptsPaths p)
  /\ exists front,
       getScriptsPaths p
       = [ front +:+ "start.sh"; front +:+ "stop.sh"; front +:+ "restart.sh";
           front +:+ "status.sh"; front +:+ "deploy.sh" ].
Proof.
  split; [apply getScriptsPaths_NoDup|].
  destruct (getScriptsPaths_names p) as [front Hfront].
  exists front. exact Hfront.
Qed.

Lemma with_fs_same (w : World) : with_fs (fs w) w = w.
Proof. destruct w. reflexivity. Qed.

(** A file that already holds its text and is executable: writing it
    again changes the log only. *)
Lemma write_step_again (path content : string) (k : js unit) (w : World) :
  Path.last_is_slash path = false ->
  holds w path content ->
  (writeFileSync path content ;;;
   chmodSync path "755" ;;;
   logger Debug ("Script créé: " +:+ path) ;;; k) w
  = k (with_log (log w ++ [(Debug, "Script créé: " +:+ path)]) w).
Proof.
  intros Hslash Hholds. unfold holds in Hholds.
  unfold bind, writeFileSync. rewrite Hslash, Hholds.
  rewrite (insert_id (fs w) path _ Hholds), with_fs_same.
  unfold chmodSync. rewrite (entry_plain _ path Hslash), (canonical_plain path Hslash), Hholds.
  rewrite (insert_id (fs w) path _ Hholds), with_fs_same.
  reflexivity.
Qed.

Lemma write_all_again (todo : list (string * string)) (after : js unit) :
  forall w,
    Forall (fun t => Path.last_is_slash t.1 = false) todo ->
    Forall (fun t => holds w t.1 t.2) todo ->
    exists w',
      write_all todo after w = after w'
      /\ fs w' = fs w /\ projects w' = projects w.
Proof.
  induction todo as [|[path content] todo IH]; intros w Hplain Hall.
  - exists w. repeat split.
  - apply Forall_cons in Hall as [Hfirst Hrest].
    apply Forall_cons in Hplain as [Hslash Hplain].
    cbn [write_all]. rewrite (write_step_again path content _ w Hslash Hfirst).
    destruct (IH (with_log (log w ++ [(Debug, "Script créé: " +:+ path)]) w))
      as (w' & Hrun & Hfs & Hp); [exact Hplain | exact Hrest|].
    exists w'. split; [exact Hrun|]. split; [exact Hfs | exact Hp].
Qed.

(** One file, when the whole run returns: the write went through, and the
    path did not hold a directory. *)
Lemma write_step_returned (path content : string) (k : js unit) (w w' : World) :
  (writeFileSync path content ;;;
   chmodSync path "755" ;;;
   logger Debug ("Script créé: " +:+ path) ;;; k) w = (Returned tt, w') ->
  k (written (path, content) w) = (Returned tt, w')
  /\ fs w !! path <> Some Dir.
Proof.
  intros Hrun.
  destruct (write_step path content k w) as [Hok|[e Hfail]].
  - split; [rewrite <- Hok; exact Hrun|].
    intros Hdir. unfold bind, writeFileSync in Hrun. rewrite Hdir in Hrun.
    destruct (Path.last_is_slash path); discriminate Hrun.
  - rewrite Hfail in Hrun. discriminate Hrun.
Qed.

Lemma write_all_returned (todo : list (string * string)) (after : js unit) :
  forall w w',
    write_all todo after w = (Returned tt, w') ->
    after (written_all todo w) = (Returned tt, w')
    /\ forall q, fs w !! q = Some Dir -> fs (written_all todo w) !! q = Some Dir.
Proof.
  induction todo as [|[path content] todo IH]; intros w w' Hrun.
  - split; [exact Hrun|]. intros q Hq. exact Hq.
  - cbn [write_all] in Hrun.
    apply write_step_returned in Hrun as [Hrun Hnodir].
    destruct (IH _ _ Hrun) as [Hafter Hdirs].
    cbn [written_all fold_left]. fold (written_all todo (written (path, content) w)).
    split; [exact Hafter|].
    intros q Hq. apply Hdirs. cbn.
    rewrite lookup_insert_ne; [exact Hq|]. intros <-. exact (Hnodir Hq).
Qed.

Lemma written_all_present (done : list (string * string)) (q : string) :
  forall w, is_Some (fs w !! q) -> is_Some (fs (written_all done w) !! q).
Proof.
  induction done as [|t done IH]; intros w Hq; [exact Hq|].
  cbn [written_all fold_left]. fold (written_all done (written t w)).
  apply IH. cbn. destruct (decide (t.1 = q)) as [->|Hne].
  - rewrite lookup_insert_eq. eexists. reflexivity.
  - rewrite lookup_insert_ne by exact Hne. exact Hq.
Qed.

(** [mkdir -p] over directories that exist does nothing. *)
Lemma mkdir_idle (requested : string) (dirs : list string) (w : World) :
  Forall (fun d => fs w !! canonical d = Some Dir) dirs ->
  for_of dirs (mkdir_one requested) w = (Returned tt, w).
Proof.
  induction dirs as [|d dirs IH]; intros Hall; [reflexivity|].
  apply Forall_cons in Hall as [Hd Hrest].
  cbn [for_of]. unfold bind, mkdir_one. rewrite Hd. apply IH, Hrest.
Qed.

(** [mkdir -p] that returns has made every directory on its way. *)
Lemma mkdir_made (requested : string) (dirs : list string) :
  forall w w',
    for_of dirs (mkdir_one requested) w = (Returned tt, w') ->
    Forall (fun d => fs w' !! canonical d = Some Dir) dirs.
Proof.
  induction dirs as [|d dirs IH]; intros w w' Hrun; [constructor|].
  cbn [for_of] in Hrun. unfold bind in Hrun.
  destruct (mkdir_one requested d w) as [[[]|e] w1] eqn:Eone; [|discriminate Hrun].
  constructor; [|exact (IH _ _ Hrun)].
  destruct (mkdir_keeps requested dirs w1 _ w' Hrun) as (_ & _ & Hkeep).
  apply Hkeep. unfold mkdir_one in Eone.
  destruct (fs w !! canonical d) as [[|content mode]|] eqn:Ed.
  - injection Eone as <-. exact Ed.
  - discriminate Eone.
  - injection Eone as <-. cbn. apply lookup_insert_eq.
Qed.

(** X16. [generateScripts] is idempotent on the files: after a call that
    returns, a second call returns too and leaves every file as the first
    has left it. *)
Theorem generateScripts_again (p : string) (w w' : World) :
  generateScripts p w = (Returned tt, w') ->
  exists w'',
    generateScripts p w' = (Returned tt, w'')
    /\ fs w'' = fs w'
    /\ projects w'' = projects w'.
Proof.
  intros Hrun. rewrite generateScripts_run in Hrun. unfold bind at 1 in Hrun.
  destruct (loadProjectConfig p w) as [[config|e] w0] eqn:Eload; [|discriminate Hrun].
  pose proof (loadProjectConfig_world _ _ _ _ Eload) as ->.
  unfold bind at 1 in Hrun. unfold existsSync at 1 in Hrun. unfold bind at 1 in Hrun.
  destruct ((if negb match entry (fs w) (scriptsDirectory p) with
                     | Some _ => true
                     | None => false
                     end
             then mkdirSync_recursive (scriptsDirectory p) else ret tt) w)
    as [[[]|e] w1] eqn:Emk; [|discriminate Hrun].
  apply write_all_returned in Hrun as [Hrun Hdirs].
  set (done := targets p (stored_services config)) in *.
  assert (Hw' : w' = with_log (log (written_all done w1)
                               ++ [(Success, "Scripts générés pour " +:+ p)])
                       (written_all done w1)).
  { unfold logger in Hrun. congruence. }
  clear Hrun. subst w'.
  (* the first call has not touched the stored projects *)
  assert (Hp1 : projects w1 = projects w).
  { destruct (negb _) in Emk.
    - apply (mkdir_keeps _ _ _ _ _ Emk).
    - injection Emk as <-. reflexivity. }
  assert (Hload' : forall w2, projects w2 = projects w ->
                     loadProjectConfig p w2 = (Returned config, w2)).
  { intros w2 Hp2. unfold loadProjectConfig in *. rewrite Hp2.
    destruct (List.find _ (projects w)); [|discriminate Eload].
    injection Eload as ->. reflexivity. }
  (* the directory step of the second call does nothing *)
  set (w' := with_log (log (written_all done w1)
                       ++ [(Success, "Scripts générés pour " +:+ p)])
               (written_all done w1)).
  rewrite (entry_plain _ _ (scriptsDirectory_plain p)) in Emk.
  assert (Hmk : (if negb match entry (fs w') (scriptsDirectory p) with
                         | Some _ => true
                         | None => false
                         end
                 then mkdirSync_recursive (scriptsDirectory p) else ret tt) w'
                = (Returned tt, w')).
  { assert (Hfs' : fs w' = fs (written_all done w1)) by reflexivity.
    rewrite (entry_plain _ _ (scriptsDirectory_plain p)).
    destruct (fs w' !! scriptsDirectory p) eqn:Enow; [reflexivity|].
    cbn [negb]. apply mkdir_idle. rewrite Hfs' in Enow |- *.
    destruct (fs w !! scriptsDirectory p) eqn:Ethen; cbn [negb] in Emk.
    - exfalso. injection Emk as Hw1.
      destruct (written_all_present done (scriptsDirectory p) w1) as [n' Hn'].
      + rewrite <- Hw1, Ethen. eexists. reflexivity.
      + rewrite Hn' in Enow. discriminate Enow.
    - apply mkdir_made in Emk.
      eapply Forall_impl; [exact Emk|]. intros d Hd. apply Hdirs, Hd. }
  (* the five files hold their texts already *)
  assert (Hholds : Forall (fun t => holds w' t.1 t.2) done).
  { pose proof (written_all_holds done) as Hh.
    unfold holds in *. cbn. apply Hh.
    unfold done. rewrite targets_paths. apply getScriptsPaths_NoDup. }
  destruct (write_all_again done (logger Success ("Scripts générés pour " +:+ p)) w'
              (targets_plain p (stored_services config)) Hholds)
    as (w2 & Hagain & Hfs & Hp2).
  eexists. split; [|split].
  - rewrite generateScripts_run. unfold bind at 1.
    rewrite (Hload' w')
      by (change (projects w') with (projects (written_all done w1));
          rewrite written_all_projects; exact Hp1).
    unfold bind at 1. unfold existsSync at 1. unfold bind at 1.
    rewrite Hmk. fold done. rewrite Hagain. reflexivity.
  - exact Hfs.
  - exact Hp2.
Qed.


(** X17. [generateScripts] changes nothing but its five files: whatever else
    the file system holds is still there afterwards, whether the call
    returns or throws, and the stored projects are the same. *)
Theorem generateScripts_elsewhere
    (p : string) (w w' : World) (r : outcome unit) (q : string) (n : node) :
  generateScripts p w = (r, w') ->
  fs w !! q = Some n ->
  ~ In q (getScriptsPaths p) ->
  fs w' !! q = Some n /\ projects w' = projects w.
Proof.
  intros Hrun Hq Hother. split.
  - exact (proj1 (generateScripts_keeps p w w' r q n Hrun Hq Hother)).
  - exact (proj1 (generateScripts_outcome p w r w' Hrun)).
Qed.


Lemma generateScripts_again_witness :
  let first := (generateScripts "blog" Examples.two_projects_world).2 in
  exists w'',
    generateScripts "blog" first = (Returned tt, w'')
    /\ fs w'' = fs first
    /\ projects w'' = projects first.
Proof.
  apply (generateScripts_again "blog" Examples.two_projects_world).
  vm_compute. reflexivity.
Defined.

Lemma generateScripts_elsewhere_witness :
  fs (generateScripts "shop" Examples.blocked_world).2 !! "/var/www/shop/scripts"
  = Some Dir
  /\ projects (generateScripts "shop" Examples.blocked_world).2
     = projects Examples.blocked_world.
Proof.
  eapply (generateScripts_elsewhere "shop" Examples.blocked_world).
  - apply surjective_pairing.
  - reflexivity.
  - vm_compute. intuition discriminate.
Defined.

End Regeneration.

Section StatusFilter.
Import JsString Project Scripts ScriptShape.

Lemma join_holds (sep x : string) (xs : list string) :
  In x xs -> exists pre post, join sep xs = pre +:+ x +:+ post.
Proof.
  induction xs as [|y xs IH]; intros Hin; [destruct Hin|].
  destruct Hin as [->|Hin].
  - destruct xs as [|z xs].
    + exists EmptyString, EmptyString. cbn [join].
      rewrite app_nil_l_str, app_nil_r_str. reflexivity.
    + exists EmptyString, (sep +:+ join sep (z :: xs)).
      rewrite app_nil_l_str. reflexivity.
  - destruct (IH Hin) as (pre & post & Heq).
    destruct xs as [|z xs]; [destruct Hin|].
    exists (y +:+ sep +:+ pre), post.
    change (join sep (y :: z :: xs)) with (y +:+ sep +:+ join sep (z :: xs)).
    rewrite Heq, !app_assoc_str. reflexivity.
Qed.

(** X18. The filter of status.sh names the handle of every service of the
    project. *)
Theorem status_script_names_every_handle
    (p : string) (svcs : list Service) (s : Service) :
  In s svcs ->
  exists before after,
    generateStatusScript p svcs
    = before +:+ "pm2 list | grep -E " +:+ dq +:+ "(" +:+ after
    /\ includes after (handle p s) = true
    /\ includes (generateStatusScript p svcs) (handle p s) = true.
Proof.
  intros Hin.
  assert (Hne : svcs <> []) by (intros ->; destruct Hin).
  assert (Hhandle : In (handle p s) (status_alternatives p svcs)).
  { unfold status_alternatives. apply in_or_app. left. apply in_map. exact Hin. }
  destruct (join_holds "|" _ _ Hhandle) as (pre & post & Hjoin).
  set (before := status_header p
                 +:+ "# Afficher le statut de tous les services du projet" +:+ nl).
  set (tail := post +:+ ")" +:+ dq +:+ " || echo " +:+ dq +:+ "Aucun service actif"
               +:+ dq +:+ nl).
  assert (Heq : generateStatusScript p svcs
                = before +:+ "pm2 list | grep -E " +:+ dq +:+ "("
                  +:+ pre +:+ handle p s +:+ tail).
  { rewrite (status_script_shape p svcs Hne).
    unfold status_filter_line, status_pattern, before, tail. rewrite Hjoin.
    cbn [unlines]. rewrite ?app_assoc_str, ?app_nil_r_str. reflexivity. }
  exists before, (pre +:+ handle p s +:+ tail).
  split; [exact Heq|]. split; [apply includes_middle|].
  rewrite Heq.
  replace (before +:+ "pm2 list | grep -E " +:+ dq +:+ "(" +:+ pre +:+ handle p s +:+ tail)
    with ((before +:+ "pm2 list | grep -E " +:+ dq +:+ "(" +:+ pre) +:+ handle p s +:+ tail)
    by (rewrite ?app_assoc_str; reflexivity).
  apply includes_middle.
Qed.


Lemma status_script_names_every_handle_witness :
  exists before after,
    generateStatusScript "shop" Examples.shop_services
    = before +:+ "pm2 list | grep -E " +:+ dq +:+ "(" +:+ after
    /\ includes after "shop-web" = true
    /\ includes (generateStatusScript "shop" Examples.shop_services) "shop-web" = true.
Proof.
  apply (status_script_names_every_handle "shop" Examples.shop_services
           (Examples.service "web" "web" "serve-web")).
  right. left. reflexivity.
Defined.

End StatusFilter.

Section RegenerationRoutes.
Import JsString Runtime Scripts Materialisation Server.

(** X19. POST /api/regenerate-all-scripts answers with a success whatever
    happens to the single projects: the failures are in the log only. *)
Theorem regenerate_all_scripts_answers_success (w : World) :
  exists w',
    regenerate_all_scripts w
    = (Returned {| answer_status := 200; answer_success := true;
                   answer_message := Some "Tous les scripts régénérés";
                   answer_error := None |}, w')
    /\ List.filter reported (drop (length (log w)) (log w'))
       = map (fun a => outcome_entry a.1 a.2) (attempts (projects w) w)
         ++ [(Success, "Scripts régénérés pour tous les projets")].
Proof.
  destruct (regenerate_loop (projects w) w) as (w1 & new & Hrun & Hp & Hlog & Hrep).
  exists (with_log (log w1 ++ [(Success, "Scripts régénérés pour tous les projets")]) w1).
  split.
  - unfold regenerate_all_scripts, try_catch, bind at 1.
    unfold regenerateAllScripts, bind, loadProjects.
    fold regenerate_one.
    change (for_of (projects w) (fun project => regenerate_one project))
      with (for_of (projects w) regenerate_one).
    rewrite Hrun. reflexivity.
  - cbn [log with_log]. rewrite Hlog, <- app_assoc.
    rewrite skipn_app, skipn_all, Nat.sub_diag, drop_0. cbn [app].
    rewrite List.filter_app, Hrep. reflexivity.
Qed.

(** X20. POST /api/projects/:name/regenerate-scripts answers with a success
    exactly when [generateScripts] returns, and then the five files hold the
    texts generated from the stored services; otherwise it answers 400 with
    the message of the failure, which it has logged. *)
Theorem regenerate_scripts_answer (p : string) (w : World) :
  exists answer w',
    regenerate_scripts p w = (Returned answer, w')
    /\ match (generateScripts p w).1 with
       | Returned _ =>
           answer = {| answer_status := 200; answer_success := true;
                       answer_message := Some "Scripts régénérés";
                       answer_error := None |}
           /\ exists config,
                loadProjectConfig p w = (Returned config, w)
                /\ Forall (fun t => holds w' t.1 t.2) (targets p (stored_services config))
       | Thrown e =>
           answer = {| answer_status := 400; answer_success := false;
                       answer_message := None;
                       answer_error := Some (message e) |}
           /\ log w' = log (generateScripts p w).2 ++ [(Failure, "API: " +:+ message e)]
           /\ fs w' = fs (generateScripts p w).2
       end.
Proof.
  destruct (generateScripts p w) as [r w1] eqn:Erun.
  destruct (generateScripts_outcome p w r w1 Erun) as (_ & _ & k & Hnew & _ & Hk).
  unfold regenerate_scripts, try_catch, bind at 1. rewrite Erun. cbn [fst snd].
  destruct r as [[]|e].
  - eexists _, _. split; [reflexivity|]. split; [reflexivity|].
    destruct Hk as [-> [config Hc]]. exists config. split; [exact Hc|].
    exact (Hnew config Hc).
  - eexists _, _. split; [reflexivity|]. repeat split.
Qed.

End RegenerationRoutes.

(* ===================================================================== *)
(** * fileManager.js: what the operations leave behind *)
(* ===================================================================== *)

Section FileOperations.
Import JsString Runtime FileManager.

Lemma remove_below_outside (path q : string) (m : gmap string node) :
  below path q = false -> remove_below path m !! q = m !! q.
Proof.
  intros Hout. unfold remove_below. destruct (m !! q) as [n|] eqn:Eq.
  - apply map_lookup_filter_Some. split; [exact Eq | exact Hout].
  - apply map_lookup_filter_None_2. left. exact Eq.
Qed.

Lemma remove_below_inside (path q : string) (m : gmap string node) :
  below path q = true -> remove_below path m !! q = None.
Proof.
  intros Hin. unfold remove_below. apply map_lookup_filter_None_2. right.
  intros n _ Hout. cbn in Hout. congruence.
Qed.

Lemma below_itself (path : string) : below path path = true.
Proof. unfold below. rewrite String.eqb_refl. reflexivity. Qed.

Lemma writeFileSync_returned (path content : string) (w w' : World) :
  writeFileSync path content w = (Returned tt, w') ->
  exists mode,
    fs w' = <[path := File content mode]> (fs w)
    /\ projects w' = projects w
    /\ Path.last_is_slash path = false.
Proof.
  unfold writeFileSync. intros Hrun.
  destruct (Path.last_is_slash path); [discriminate Hrun|].
  destruct (fs w !! path) as [[|old mode]|].
  - discriminate Hrun.
  - injection Hrun as <-. exists mode. repeat split.
  - destruct (parent_error w path); [discriminate Hrun|].
    injection Hrun as <-. exists "644". repeat split.
Qed.

(** X21. What [writeFile] has written, [readFile] hands out, and
    [getFileInfo] reports as a file of that size. *)
Theorem writeFile_then_readFile
    (root relativePath content : string) (w w' : World) :
  writeFile root relativePath content w = (Returned tt, w') ->
  readFile root relativePath w' = (Returned content, w')
  /\ exists info,
       getFileInfo root relativePath w' = (Returned info, w')
       /\ info_is_directory info = false
       /\ info_size info = Some (String.length content)
       /\ info_path info = relativePath.
Proof.
  intros Hrun. unfold writeFile in Hrun.
  set (fullPath := Path.join [root; relativePath]) in *.
  unfold bind at 1 in Hrun.
  destruct (startsWith fullPath root) eqn:Eguard; cbn [negb] in Hrun;
    [|discriminate Hrun].
  cbn [ret] in Hrun. unfold bind at 1 in Hrun. unfold existsSync at 1 in Hrun.
  unfold bind at 1 in Hrun.
  destruct ((if negb match entry (fs w) (Path.dirname fullPath) with
                     | Some _ => true
                     | None => false
                     end
             then mkdirSync_recursive (Path.dirname fullPath) else ret tt) w)
    as [[[]|e] w1]; [|discriminate Hrun].
  apply writeFileSync_returned in Hrun as (mode & Hfs & _ & Hslash).
  assert (Hfile : entry (fs w') fullPath = Some (File content mode)).
  { rewrite (entry_plain _ _ Hslash), Hfs. apply lookup_insert_eq. }
  split.
  - unfold readFile. fold fullPath. unfold bind, existsSync.
    rewrite Eguard. cbn [negb ret]. repeat (rewrite Hfile; cbn [negb ret]). reflexivity.
  - eexists. split; [|split; [|split]].
    + unfold getFileInfo. fold fullPath. unfold bind, existsSync, stat.
      rewrite Eguard. cbn [negb ret]. repeat (rewrite Hfile; cbn [negb ret]). reflexivity.
    + reflexivity.
    + reflexivity.
    + reflexivity.
Qed.

(** X22. [deleteItem] returns only for a path at which there is a file or
    a directory, a slash at the end of the path apart.  After it, that path
    is gone, and so is all that was below a directory; nothing that is
    neither the path nor below it has changed; the operations on the path
    answer that it is not found. *)
Theorem deleteItem_removes (root relativePath : string) (w w' : World) :
  deleteItem root relativePath w = (Returned tt, w') ->
  (exists n,
     fs w !! canonical (Path.join [root; relativePath]) = Some n
     /\ (Path.last_is_slash (Path.join [root; relativePath]) = true -> n = Dir)
     /\ (n = Dir ->
         forall q, below (canonical (Path.join [root; relativePath])) q = true ->
                   fs w' !! q = None))
  /\ fs w' !! canonical (Path.join [root; relativePath]) = None
  /\ (forall q, below (canonical (Path.join [root; relativePath])) q = false ->
        fs w' !! q = fs w !! q)
  /\ deleteItem root relativePath w'
     = (Thrown {| message := "Fichier ou dossier non trouvé" |}, w')
  /\ readFile root relativePath w'
     = (Thrown {| message := "Fichier non trouvé" |}, w')
  /\ getFileInfo root relativePath w'
     = (Thrown {| message := "Fichier non trouvé" |}, w').
Proof.
  intros Hrun. unfold deleteItem in Hrun.
  set (fullPath := Path.join [root; relativePath]) in *.
  unfold bind at 1 in Hrun.
  destruct (startsWith fullPath root) eqn:Eguard; cbn [negb] in Hrun;
    [|discriminate Hrun].
  cbn [ret] in Hrun. unfold bind at 1 in Hrun. unfold existsSync at 1 in Hrun.
  unfold bind at 1 in Hrun.
  destruct (entry (fs w) fullPath) as [n|] eqn:Enode; cbn [negb] in Hrun;
    [|discriminate Hrun].
  cbn [ret] in Hrun. unfold bind at 1 in Hrun. unfold stat at 1 in Hrun.
  rewrite Enode in Hrun. unfold bind at 1 in Hrun.
  pose proof (entry_found _ _ _ Enode) as Hfound.
  assert (Hgone : (n = Dir ->
                   forall q, below (canonical fullPath) q = true -> fs w' !! q = None)
                  /\ fs w' !! canonical fullPath = None
                  /\ forall q, below (canonical fullPath) q = false ->
                               fs w' !! q = fs w !! q).
  { destruct n as [|content mode]; cbn [isDirectory] in Hrun.
    - unfold rm_recursive, ret in Hrun. rewrite Hfound in Hrun.
      injection Hrun as <-. cbn [fs with_fs]. split; [|split].
      + intros _ q Hq. apply remove_below_inside, Hq.
      + apply remove_below_inside, below_itself.
      + intros q Hq. apply remove_below_outside, Hq.
    - unfold unlink, ret in Hrun.
      rewrite Hfound, (entry_file _ _ _ _ Enode) in Hrun. injection Hrun as <-.
      cbn [fs with_fs]. split; [|split].
      + discriminate.
      + apply lookup_delete_eq.
      + intros q Hq. apply lookup_delete_ne. intros <-.
        rewrite below_itself in Hq. discriminate Hq. }
  destruct Hgone as (Hbelow & Hgone & Hrest).
  assert (Hnone : entry (fs w') fullPath = None).
  { unfold entry. rewrite Hgone. reflexivity. }
  split.
  { exists n. split; [exact Hfound|]. split; [|exact Hbelow].
    intros Hslash. destruct n as [|content mode]; [reflexivity|].
    rewrite (entry_file _ _ _ _ Enode) in Hslash. discriminate Hslash. }
  split; [exact Hgone|]. split; [exact Hrest|]. split; [|split].
  - unfold deleteItem. fold fullPath. unfold bind, existsSync.
    rewrite Eguard. cbn [negb ret]. repeat (rewrite Hnone; cbn [negb ret]). reflexivity.
  - unfold readFile. fold fullPath. unfold bind, existsSync.
    rewrite Eguard. cbn [negb ret]. repeat (rewrite Hnone; cbn [negb ret]). reflexivity.
  - unfold getFileInfo. fold fullPath. unfold bind, existsSync.
    rewrite Eguard. cbn [negb ret]. repeat (rewrite Hnone; cbn [negb ret]). reflexivity.
Qed.

Lemma ancestors_last (path : string) :
  Path.dirname path <> path -> In path (ancestors path).
Proof.
  intros Hne. unfold ancestors. cbn [ancestors_fuel].
  apply String.eqb_neq in Hne. rewrite Hne.
  apply in_or_app. right. left. reflexivity.
Qed.

(** X23. [createDirectory] that returns found nothing at the path, has
    made the directory, has left every entry that was there, and refuses
    to make it a second time.  The file system holds the directory under
    the path without the slashes at its end, which is the path itself
    unless [dirName] ends with a slash. *)
Theorem createDirectory_makes
    (root relativePath dirName made : string) (w w' : World) :
  createDirectory root relativePath dirName w = (Returned made, w') ->
  Path.dirname (Path.join [root; relativePath; dirName])
  <> Path.join [root; relativePath; dirName] ->
  fs w !! canonical (Path.join [root; relativePath; dirName]) = None
  /\ fs w' !! canonical (Path.join [root; relativePath; dirName]) = Some Dir
  /\ (Path.last_is_slash (Path.join [root; relativePath; dirName]) = false ->
      fs w !! Path.join [root; relativePath; dirName] = None
      /\ fs w' !! Path.join [root; relativePath; dirName] = Some Dir)
  /\ (forall q n, fs w !! q = Some n -> fs w' !! q = Some n)
  /\ createDirectory root relativePath dirName w'
     = (Thrown {| message := "Un dossier avec ce nom existe déjà" |}, w').
Proof.
  intros Hrun Hparent. unfold createDirectory in Hrun.
  set (fullPath := Path.join [root; relativePath; dirName]) in *.
  unfold bind at 1 in Hrun.
  destruct (startsWith fullPath root) eqn:Eguard; cbn [negb] in Hrun;
    [|discriminate Hrun].
  cbn [ret] in Hrun. unfold bind at 1 in Hrun. unfold existsSync at 1 in Hrun.
  unfold bind at 1 in Hrun.
  destruct (entry (fs w) fullPath) as [n|] eqn:Enode; [discriminate Hrun|].
  cbn [ret] in Hrun. unfold bind at 1 in Hrun.
  destruct (mkdirSync_recursive fullPath w) as [[[]|e] w1] eqn:Emk; [|discriminate Hrun].
  unfold ret in Hrun. injection Hrun as _ <-.
  unfold mkdirSync_recursive in Emk.
  pose proof (mkdir_made _ _ _ _ Emk) as Hmade.
  destruct (mkdir_keeps _ _ _ _ _ Emk) as (_ & _ & Hkeep).
  assert (Hdir : fs w1 !! canonical fullPath = Some Dir).
  { rewrite Forall_forall in Hmade. apply Hmade, list_elem_of_In, ancestors_last, Hparent. }
  assert (Hfree : fs w !! canonical fullPath = None).
  { destruct (fs w !! canonical fullPath) as [n|] eqn:Ebefore; [|reflexivity].
    pose proof (Hkeep _ _ Ebefore) as Hstill. rewrite Hdir in Hstill.
    injection Hstill as <-. rewrite (entry_directory _ _ Ebefore) in Enode.
    discriminate Enode. }
  split; [exact Hfree|]. split; [exact Hdir|]. split; [|split; [exact Hkeep|]].
  { intros Hslash. rewrite (canonical_plain _ Hslash) in Hfree, Hdir.
    split; [exact Hfree | exact Hdir]. }
  unfold createDirectory. fold fullPath. unfold bind, existsSync.
  rewrite Eguard. cbn [negb ret]. rewrite (entry_directory _ _ Hdir). reflexivity.
Qed.

(** X24. An operation on a path that does not start with the text of the
    project root is refused before it looks at the file system. *)
Theorem fileManager_refuses
    (root relativePath : string) (w : World) :
  startsWith (Path.join [root; relativePath]) root = false ->
  deleteItem root relativePath w
  = (Thrown {| message := "Accès refusé : chemin invalide" |}, w)
  /\ readFile root relativePath w
     = (Thrown {| message := "Accès refusé : chemin invalide" |}, w)
  /\ getFileInfo root relativePath w
     = (Thrown {| message := "Accès refusé : chemin invalide" |}, w)
  /\ (forall content,
        writeFile root relativePath content w
        = (Thrown {| message := "Accès refusé : chemin invalide" |}, w))
  /\ (forall localeCompare,
        listFiles localeCompare root relativePath w
        = (Thrown {| message := "Accès refusé : chemin invalide" |}, w)).
Proof.
  intros Hguard. repeat split.
  - unfold deleteItem, bind. rewrite Hguard. reflexivity.
  - unfold readFile, bind. rewrite Hguard. reflexivity.
  - unfold getFileInfo, bind. rewrite Hguard. reflexivity.
  - intros content. unfold writeFile, bind. rewrite Hguard. reflexivity.
  - intros localeCompare. unfold listFiles, bind. rewrite Hguard. reflexivity.
Qed.


Lemma writeFile_then_readFile_witness :
  let written :=
    (writeFile "/var/www/shop/sites" "notes/todo.txt" "milk" Examples.shop_backup_world).2 in
  readFile "/var/www/shop/sites" "notes/todo.txt" written = (Returned "milk", written)
  /\ exists info,
       getFileInfo "/var/www/shop/sites" "notes/todo.txt" written = (Returned info, written)
       /\ info_is_directory info = false
       /\ info_size info = Some 4
       /\ info_path info = "notes/todo.txt".
Proof.
  apply (writeFile_then_readFile "/var/www/shop/sites" "notes/todo.txt" "milk"
           Examples.shop_backup_world).
  vm_compute. reflexivity.
Defined.

(** The directory api of the project shop, asked for with a slash at its
    end, is removed with the three entries below it. *)
Lemma deleteItem_removes_witness :
  let removed :=
    (deleteItem "/var/www/shop/sites" "api/" Examples.shop_site_world).2 in
  Path.join ["/var/www/shop/sites"; "api/"] = "/var/www/shop/sites/api/"
  /\ (exists n,
        fs Examples.shop_site_world !! "/var/www/shop/sites/api" = Some n
        /\ (Path.last_is_slash "/var/www/shop/sites/api/" = true -> n = Dir)
        /\ (n = Dir ->
            forall q, below "/var/www/shop/sites/api" q = true -> fs removed !! q = None))
  /\ fs removed !! "/var/www/shop/sites/api" = None
  /\ (forall q, below "/var/www/shop/sites/api" q = false ->
        fs removed !! q = fs Examples.shop_site_world !! q)
  /\ deleteItem "/var/www/shop/sites" "api/" removed
     = (Thrown {| message := "Fichier ou dossier non trouvé" |}, removed)
  /\ readFile "/var/www/shop/sites" "api/" removed
     = (Thrown {| message := "Fichier non trouvé" |}, removed)
  /\ getFileInfo "/var/www/shop/sites" "api/" removed
     = (Thrown {| message := "Fichier non trouvé" |}, removed).
Proof.
  split; [reflexivity|].
  apply (deleteItem_removes "/var/www/shop/sites" "api/" Examples.shop_site_world).
  vm_compute. reflexivity.
Defined.

Lemma createDirectory_makes_witness :
  let made :=
    (createDirectory "/var/www/shop/sites" "assets" "img" Examples.shop_backup_world).2 in
  fs Examples.shop_backup_world !! "/var/www/shop/sites/assets/img" = None
  /\ fs made !! "/var/www/shop/sites/assets/img" = Some Dir
  /\ (Path.last_is_slash "/var/www/shop/sites/assets/img" = false ->
      fs Examples.shop_backup_world !! Path.join ["/var/www/shop/sites"; "assets"; "img"] = None
      /\ fs made !! Path.join ["/var/www/shop/sites"; "assets"; "img"] = Some Dir)
  /\ (forall q n, fs Examples.shop_backup_world !! q = Some n -> fs made !! q = Some n)
  /\ createDirectory "/var/www/shop/sites" "assets" "img" made
     = (Thrown {| message := "Un dossier avec ce nom existe déjà" |}, made).
Proof.
  eapply (createDirectory_makes "/var/www/shop/sites" "assets" "img" "assets/img"
            Examples.shop_backup_world).
  - vm_compute. reflexivity.
  - vm_compute. discriminate.
Defined.

Lemma fileManager_refuses_witness :
  deleteItem "/var/www/shop/sites" "../../shop2/.env" Examples.shop_backup_world
  = (Thrown {| message := "Accès refusé : chemin invalide" |}, Examples.shop_backup_world).
Proof.
  refine (proj1 (fileManager_refuses "/var/www/shop/sites" "../../shop2/.env"
                   Examples.shop_backup_world _)).
  reflexivity.
Defined.

End FileOperations.

Section Listing.
Import JsString Runtime FileManager.

Variable localeCompare : string -> string -> Z.

Lemma insert_entry_forallb (P : FileEntry -> bool) (x : FileEntry) (sorted : list FileEntry) :
  P x = true -> forallb P sorted = true ->
  forallb P (insert_entry localeCompare x sorted) = true.
Proof.
  intros Hx. induction sorted as [|y sorted IH]; intros Hall.
  - cbn. rewrite Hx. reflexivity.
  - cbn [insert_entry]. cbn [forallb] in Hall. apply andb_true_iff in Hall as [Hy Hall].
    destruct (compare_entries localeCompare x y <=? 0)%Z.
    + cbn [forallb]. rewrite Hx, Hy, Hall. reflexivity.
    + cbn [forallb]. rewrite Hy, (IH Hall). reflexivity.
Qed.

Lemma insert_entry_directories_first (x : FileEntry) (sorted : list FileEntry) :
  directories_first sorted ->
  directories_first (insert_entry localeCompare x sorted).
Proof.
  intros (dirs & rest & -> & Hdirs & Hrest).
  induction dirs as [|d dirs IH].
  - cbn [app]. destruct (entry_is_directory x) eqn:Ex.
    + exists [x], rest. split; [|split].
      * destruct rest as [|y rest]; [reflexivity|].
        cbn [insert_entry]. unfold compare_entries.
        cbn [forallb] in Hrest. apply andb_true_iff in Hrest as [Hy _].
        apply negb_true_iff in Hy. rewrite Ex, Hy. reflexivity.
      * cbn. rewrite Ex. reflexivity.
      * exact Hrest.
    + exists [], (insert_entry localeCompare x rest). split; [reflexivity|].
      split; [reflexivity|]. apply insert_entry_forallb; [|exact Hrest].
      rewrite Ex. reflexivity.
  - cbn [forallb] in Hdirs. apply andb_true_iff in Hdirs as [Hd Hdirs].
    cbn [app insert_entry].
    destruct (compare_entries localeCompare x d <=? 0)%Z eqn:Ecmp.
    + destruct (entry_is_directory x) eqn:Ex.
      * exists (x :: d :: dirs), rest. split; [reflexivity|]. split; [|exact Hrest].
        cbn [forallb]. rewrite Ex, Hd, Hdirs. reflexivity.
      * exfalso. unfold compare_entries in Ecmp. rewrite Ex, Hd in Ecmp.
        discriminate Ecmp.
    + destruct (IH Hdirs) as (dirs' & rest' & Heq & Hdirs' & Hrest').
      exists (d :: dirs'), rest'. split; [rewrite Heq; reflexivity|].
      split; [|exact Hrest']. cbn [forallb]. rewrite Hd, Hdirs'. reflexivity.
Qed.

Lemma sort_entries_directories_first (files : list FileEntry) :
  directories_first (sort_entries localeCompare files).
Proof.
  induction files as [|x files IH].
  - exists [], []. repeat split.
  - cbn [sort_entries fold_right]. apply insert_entry_directories_first, IH.
Qed.

(** X25. In a listing of [listFiles], the directories come before the files,
    whatever the collation of the names. *)
Theorem listFiles_directories_first
    (root relativePath : string) (w w' : World) (listing : list FileEntry) :
  listFiles localeCompare root relativePath w = (Returned listing, w') ->
  directories_first listing.
Proof.
  unfold listFiles. intros Hrun.
  unfold bind at 1 in Hrun.
  destruct (startsWith (Path.join [root; relativePath]) root); cbn [negb] in Hrun;
    [|discriminate Hrun].
  cbn [ret] in Hrun. unfold bind at 1 in Hrun. unfold existsSync at 1 in Hrun.
  unfold bind at 1 in Hrun.
  destruct (entry (fs w) (Path.join [root; relativePath])); cbn [negb] in Hrun;
    [|discriminate Hrun].
  cbn [ret] in Hrun. unfold bind at 1 in Hrun.
  destruct (readdir (Path.join [root; relativePath]) w) as [[items|e] w1];
    [|discriminate Hrun].
  unfold bind at 1 in Hrun.
  match type of Hrun with
  | match ?run with _ => _ end = _ => destruct run as [[files|e] w2]
  end; [|discriminate Hrun].
  unfold ret in Hrun. injection Hrun as <- _.
  apply sort_entries_directories_first.
Qed.

End Listing.

Section ListingExamples.
Import JsString Runtime FileManager.

Lemma listFiles_directories_first_witness :
  directories_first
    (match (listFiles Examples.byte_order "/var/www/shop/sites" "api"
              Examples.shop_site_world).1 with
     | Returned listing => listing
     | Thrown _ => []
     end).
Proof.
  eapply (listFiles_directories_first Examples.byte_order "/var/www/shop/sites" "api"
            Examples.shop_site_world Examples.shop_site_world).
  vm_compute. reflexivity.
Defined.

End ListingExamples.

(* ===================================================================== *)
(** * DELETE /api/projects/:name/files: the test on the path *)
(* ===================================================================== *)

Section DeleteFilesRoute.
Import JsString Runtime Server.

Lemma stop_services_returns (projectName target : string) (w : World) :
  exists w', stop_services projectName target w = (Returned tt, w') /\ fs w' = fs w.
Proof.
  unfold stop_services, try_catch, bind.
  destruct (loadProjectConfig projectName w) as [[config|e] w0] eqn:Eload;
    pose proof (loadProjectConfig_world _ _ _ _ Eload) as ->.
  - destruct (stop_loop_run projectName target (default [] (Project.services config)) w)
      as (w1 & Hrun & _ & Hfs & _).
    rewrite Hrun. eexists. split; [reflexivity | exact Hfs].
  - eexists. split; reflexivity.
Qed.

Lemma removal_answer (c1 c2 : js unit) (ok a : Response) (w w' : World) :
  (c1 ;;; c2 ;;; ret ok) w = (Returned a, w') -> a = ok.
Proof.
  unfold bind, ret. destruct (c1 w) as [[[]|e1] w1]; [|discriminate].
  destruct (c2 w1) as [[[]|e2] w2]; [|discriminate].
  intros H. injection H as <- _. reflexivity.
Qed.

(** X26. A request that the route refuses, with status 400 or 404, has run
    no command and has changed nothing. *)
Theorem delete_files_refusal_changes_nothing
    (projectName : string) (query_path : option string) (w w' : World)
    (answer : Response) :
  delete_files projectName query_path w = (Returned answer, w') ->
  status answer = 400 \/ status answer = 404 ->
  w' = w.
Proof.
  intros Hrun Hstatus.
  assert (Hnot : status answer <> 200 /\ status answer <> 500)
    by (destruct Hstatus as [-> | ->]; split; discriminate).
  destruct Hnot as [Hnot200 Hnot500].
  unfold delete_files, try_catch in Hrun. unfold bind at 1 in Hrun.
  unfold getProject at 1 in Hrun.
  destruct (List.find _ (projects w)) as [project|].
  2:{ injection Hrun as _ <-. reflexivity. }
  destruct query_path as [relativePath|].
  2:{ injection Hrun as _ <-. reflexivity. }
  destruct (truthy relativePath); cbn [negb] in Hrun.
  2:{ injection Hrun as _ <-. reflexivity. }
  destruct (negb _ || _).
  { injection Hrun as _ <-. reflexivity. }
  exfalso.
  match type of Hrun with
  | match ?run with _ => _ end = _ => destruct run as [[a|e] w1] eqn:Ebody
  end.
  - apply removal_answer in Ebody. injection Hrun as <- _. subst a.
    apply Hnot200. reflexivity.
  - unfold bind, logger, ret in Hrun. injection Hrun as <- _. apply Hnot500. reflexivity.
Qed.


Lemma collapse_slash_free (a b : string) :
  slash_free a = true -> collapse_slashes (a +:+ b) = a +:+ collapse_slashes b.
Proof.
  induction a as [|c a IH]; intros Hfree; [reflexivity|].
  cbn [slash_free] in Hfree. apply andb_true_iff in Hfree as [Hc Hfree].
  apply negb_true_iff in Hc.
  rewrite !app_cons_str. cbn [collapse_slashes]. rewrite Hc, (IH Hfree). reflexivity.
Qed.

Lemma collapse_only_slashes (r : string) :
  only_slashes r = true -> collapse_slashes (String slash r) = String slash EmptyString.
Proof.
  induction r as [|c r IH]; intros Honly; [reflexivity|].
  cbn [only_slashes] in Honly. apply andb_true_iff in Honly as [Hc Honly].
  apply Ascii.eqb_eq in Hc. subst c.
  change (collapse_slashes (String slash (String slash r)))
    with (collapse_slashes (String slash r)).
  exact (IH Honly).
Qed.

Lemma collapse_segment (seg rest : string) :
  slash_free seg = true -> seg <> EmptyString ->
  collapse_slashes (String slash (seg +:+ rest))
  = String slash (seg +:+ collapse_slashes rest).
Proof.
  intros Hfree Hne. rewrite <- (collapse_slash_free seg rest Hfree).
  destruct seg as [|c seg]; [congruence|].
  cbn [slash_free] in Hfree. apply andb_true_iff in Hfree as [Hc _].
  apply negb_true_iff in Hc.
  rewrite app_cons_str. cbn [collapse_slashes].
  rewrite Hc. reflexivity.
Qed.

(** A path of slashes only leads to the project root with a slash at its
    end. *)
Lemma fullTargetPath_of_slashes (p relativePath : string) :
  slash_free p = true -> p <> EmptyString ->
  only_slashes relativePath = true ->
  fullTargetPath_of p relativePath = projectPath_of p +:+ "/".
Proof.
  intros Hfree Hne Honly.
  unfold fullTargetPath_of, projectPath_of.
  rewrite !app_assoc_str.
  change (collapse_slashes ("/var/www/" +:+ p +:+ "/sites" +:+ "/" +:+ relativePath))
    with (collapse_slashes
            (String slash ("var" +:+ String slash ("www" +:+ String slash
               (p +:+ String slash ("sites" +:+ String slash relativePath)))))).
  rewrite (collapse_segment "var") by (reflexivity || discriminate).
  rewrite (collapse_segment "www") by (reflexivity || discriminate).
  rewrite (collapse_segment p _ Hfree Hne).
  rewrite (collapse_segment "sites") by (reflexivity || discriminate).
  rewrite (collapse_only_slashes relativePath Honly). reflexivity.
Qed.


Lemma split_slash_free (p : string) :
  slash_free p = true -> Path.split_slash p = [p].
Proof.
  induction p as [|c p IH]; intros Hfree; [reflexivity|].
  cbn [slash_free] in Hfree. apply andb_true_iff in Hfree as [Hc Hfree].
  apply negb_true_iff in Hc.
  cbn [Path.split_slash]. rewrite Hc, (IH Hfree). reflexivity.
Qed.

Lemma length_with_slash (s : string) :
  String.length (s +:+ "/") = S (String.length s).
Proof.
  induction s as [|c s IH]; [reflexivity|].
  rewrite app_cons_str. cbn [String.length]. rewrite IH. reflexivity.
Qed.

Lemma list_ascii_app (a b : string) :
  String.list_ascii_of_string (a +:+ b)
  = String.list_ascii_of_string a ++ String.list_ascii_of_string b.
Proof.
  induction a as [|c a IH]; [reflexivity|].
  rewrite app_cons_str. cbn [String.list_ascii_of_string app]. rewrite IH. reflexivity.
Qed.

(** [rm] does not refuse the project root with a slash at its end. *)
Lemma rm_accepts_root (p : string) : rm_refuses (projectPath_of p +:+ "/") = false.
Proof.
  assert (Hlast : Path.basename (projectPath_of p +:+ "/") = "sites").
  { unfold projectPath_of. rewrite !app_assoc_str.
    change ("/var/www/" +:+ p +:+ "/sites" +:+ "/") with ("/var/www/" +:+ p +:+ "/sites/").
    rewrite <- app_assoc_str.
    unfold Path.basename. rewrite list_ascii_app, rev_app_distr.
    generalize (rev (String.list_ascii_of_string ("/var/www/" +:+ p))). intros r.
    reflexivity. }
  unfold rm_refuses. rewrite Hlast. reflexivity.
Qed.

Lemma resolve_step_empty (files : gmap string node) (absolute : bool) (stack : list string) :
  resolve_step files absolute (Some stack) EmptyString = Some stack.
Proof. reflexivity. Qed.

Lemma resolve_step_name (files : gmap string node) (absolute : bool)
    (stack : list string) (seg : string) :
  seg <> EmptyString -> seg <> "." -> seg <> ".." ->
  resolve_step files absolute (Some stack) seg = Some (seg :: stack).
Proof.
  intros Hne Hdot Hdots. apply String.eqb_neq in Hne, Hdot, Hdots.
  unfold resolve_step. rewrite Hne, Hdot, Hdots. reflexivity.
Qed.

(** The project root with a slash at its end is the project root. *)
Lemma resolve_root (files : gmap string node) (p : string) :
  plain_project_name p ->
  resolve files (projectPath_of p +:+ "/") = Some (projectPath_of p).
Proof.
  intros (Hfree & Hne & Hdot & Hdots).
  assert (Hsplit : Path.split_slash (projectPath_of p +:+ "/")
                   = [EmptyString; "var"; "www"; p; "sites"; EmptyString]).
  { unfold projectPath_of. rewrite !app_assoc_str.
    change ("/var/www/" +:+ p +:+ "/sites" +:+ "/")
      with (EmptyString +:+ "/" +:+ ("var" +:+ "/" +:+ ("www" +:+ "/"
              +:+ (p +:+ "/" +:+ ("sites" +:+ "/" +:+ EmptyString))))).
    rewrite !split_slash_app, (split_slash_free p Hfree). reflexivity. }
  unfold resolve. rewrite Hsplit.
  change (Path.first_is_slash (projectPath_of p +:+ "/")) with true.
  cbn [fold_left].
  rewrite resolve_step_empty.
  rewrite (resolve_step_name files true [] "var") by discriminate.
  rewrite (resolve_step_name files true ["var"] "www") by discriminate.
  rewrite (resolve_step_name files true ["www"; "var"] p Hne Hdot Hdots).
  rewrite (resolve_step_name files true [p; "www"; "var"] "sites") by discriminate.
  rewrite resolve_step_empty. reflexivity.
Qed.

Lemma eqb_with_slash (s : string) : String.eqb (s +:+ "/") s = false.
Proof.
  apply String.eqb_neq. intros Heq.
  apply (f_equal String.length) in Heq. rewrite length_with_slash in Heq. lia.
Qed.

(** X27. A path made of slashes only passes the test of the route, and the
    route removes the root of the project with everything below it. *)
Theorem delete_files_removes_root_for_slashes
    (p relativePath : string) (w : World) (project : Project.Config) :
  getProject p w = (Returned (Some project), w) ->
  plain_project_name p ->
  relativePath <> EmptyString ->
  only_slashes relativePath = true ->
  exists w',
    delete_files p (Some relativePath) w
    = (Returned {| status := 200; success := true; error := None |}, w')
    /\ last (commands w')
       = Some ("rm -rf " +:+ dq +:+ projectPath_of p +:+ "/" +:+ dq)
    /\ forall q, FileManager.below (projectPath_of p) q = true -> fs w' !! q = None.
Proof.
  intros Hproject Hplain Hne Honly.
  pose proof Hplain as (Hfree & Hp & _).
  pose proof (fullTargetPath_of_slashes p relativePath Hfree Hp Honly) as Htarget.
  unfold fullTargetPath_of in Htarget.
  destruct (stop_services_returns p (projectPath_of p +:+ "/") w) as (w1 & Hstop & _).
  exists (with_fs
            (FileManager.remove_below (projectPath_of p) (fs w1))
            (with_commands
               (commands w1 ++ ["rm -rf " +:+ dq +:+ (projectPath_of p +:+ "/") +:+ dq]) w1)).
  split; [|split].
  - unfold delete_files, try_catch. unfold bind at 1. rewrite Hproject.
    destruct relativePath as [|c r]; [congruence|]. cbn [truthy negb].
    rewrite Htarget.
    replace (startsWith (projectPath_of p +:+ "/") (projectPath_of p +:+ "/")) with true.
    2:{ symmetry. unfold startsWith.
        rewrite <- (app_nil_r_str (projectPath_of p +:+ "/")) at 2. apply prefix_app. }
    rewrite eqb_with_slash. cbn [negb orb].
    unfold bind at 1. rewrite Hstop.
    unfold bind, execCommand_rm_rf, ret.
    rewrite (rm_accepts_root p), (resolve_root _ p Hplain). reflexivity.
  - cbn [commands with_fs with_commands]. rewrite last_snoc, !app_assoc_str. reflexivity.
  - intros q Hq. cbn [fs with_fs with_commands]. unfold FileManager.remove_below.
    apply map_lookup_filter_None_2. right. intros n _ Hout. cbn in Hout. congruence.
Qed.







Lemma delete_files_refusal_changes_nothing_witness :
  (delete_files "shop" (Some EmptyString) Examples.shop_site_world).2
  = Examples.shop_site_world.
Proof.
  eapply (delete_files_refusal_changes_nothing "shop" (Some EmptyString)
            Examples.shop_site_world _
            {| status := 400; success := false; error := Some "Chemin requis" |}).
  - vm_compute. reflexivity.
  - left. reflexivity.
Defined.

Lemma delete_files_removes_root_for_slashes_witness :
  exists w',
    delete_files "shop" (Some "/") Examples.shop_site_world
    = (Returned {| status := 200; success := true; error := None |}, w')
    /\ last (commands w')
       = Some ("rm -rf " +:+ dq +:+ "/var/www/shop/sites/" +:+ dq)
    /\ forall q, FileManager.below "/var/www/shop/sites" q = true -> fs w' !! q = None.
Proof.
  apply (delete_files_removes_root_for_slashes "shop" "/" Examples.shop_site_world
           Examples.shop_site_config).
  - reflexivity.
  - repeat split; discriminate.
  - discriminate.
  - reflexivity.
Defined.

End DeleteFilesRoute.

(* ===================================================================== *)
(** * databases.json: an unreadable file, and who sees a database *)
(* ===================================================================== *)

Section DatabaseStore.
Import JsString Js Databases.

Variable DATABASES_CONFIG_FILE : string.

(** [loadDatabases] never throws. *)
Lemma loadDatabases_run (w : World) :
  exists databases w',
    loadDatabases DATABASES_CONFIG_FILE w = (Returned databases, w')
    /\ match file w with
       | Stored mysql mongodb => databases = (mysql, mongodb) /\ w' = w
       | NoFile => databases = ([], []) /\ file w' = Stored [] []
       | Unreadable why =>
           databases = ([], [])
           /\ w' = with_log (log w ++ [(Runtime.Failure,
                                        "Erreur lors du chargement des BDD: " +:+ why)]) w
       | NoConfigDir => databases = ([], []) /\ file w' = NoConfigDir
       end.
Proof.
  destruct w as [[| |why|mysql mongodb] known entries clock calls];
    eexists _, _; (split; [reflexivity|]); cbn; split; reflexivity.
Qed.


(** X29.  A databases.json that cannot be parsed is read as an empty
    configuration, and the next database that is created replaces it: after
    [createMySQLDatabase] the file holds the new database and nothing
    else. *)
Theorem createMySQLDatabase_replaces_unreadable_file
    (config : DatabaseConfig) (w : World) (why : string) :
  file w = Unreadable why ->
  demanded config ->
  (forall projectName,
     cfg_projectName config = Some projectName -> truthy projectName = true ->
     existsb (String.eqb projectName) (stored_projects w) = true) ->
  exists database w',
    createMySQLDatabase DATABASES_CONFIG_FILE config w = (Returned database, w')
    /\ file w' = Stored [database] []
    /\ In (Runtime.Failure, "Erreur lors du chargement des BDD: " +:+ why) (log w').
Proof.
  intros Hfile (name & host & username & password & Hn & Hh & Hu & Hp
                & Tn & Th & Tu & Tp) Hproject.
  destruct w as [f known entries clock calls]. cbn [file] in Hfile. subst f.
  unfold createMySQLDatabase. rewrite Hn, Hh, Hu, Hp, Tn, Th, Tu, Tp.
  cbn [negb orb].
  destruct (cfg_projectName config) as [projectName|] eqn:Eproject.
  - destruct (truthy projectName) eqn:Tproject.
    + pose proof (Hproject projectName eq_refl Tproject) as Hknown.
      cbn [stored_projects] in Hknown.
      eexists _, _. split; [|split].
      * unfold bind at 1. unfold bind at 1. unfold projectExists.
        cbn [stored_projects]. rewrite Hknown. cbn [negb ret].
        reflexivity.
      * reflexivity.
      * cbn. rewrite !in_app_iff. cbn. tauto.
    + eexists _, _. split; [reflexivity|]. split; [reflexivity|].
      cbn. rewrite !in_app_iff. cbn. tauto.
  - eexists _, _. split; [reflexivity|]. split; [reflexivity|].
    cbn. rewrite !in_app_iff. cbn. tauto.
Qed.


Lemma saveDatabases_returned
    (databases : list Database * list Database) (w w' : World) :
  saveDatabases DATABASES_CONFIG_FILE databases w = (Returned tt, w') ->
  file w' = Stored databases.1 databases.2.
Proof.
  destruct w as [[| |why|mysql mongodb] known entries clock calls]; intros Hrun.
  - discriminate Hrun.
  - injection Hrun as <-. reflexivity.
  - injection Hrun as <-. reflexivity.
  - injection Hrun as <-. reflexivity.
Qed.

(** What a [createMySQLDatabase] that returns has done: the new entry is
    the last of the MySQL entries of the file. *)
Lemma createMySQLDatabase_returned
    (config : DatabaseConfig) (w w' : World) (database : Database) :
  createMySQLDatabase DATABASES_CONFIG_FILE config w = (Returned database, w') ->
  (exists mysql mongodb, file w' = Stored (mysql ++ [database]) mongodb)
  /\ db_type database = "mysql"
  /\ db_projectName database
     = match cfg_projectName config with
       | Some projectName => if truthy projectName then Some projectName else None
       | None => None
       end.
Proof.
  intros Hrun. unfold createMySQLDatabase in Hrun.
  destruct (cfg_name config) as [name|]; [|discriminate Hrun].
  destruct (cfg_host config) as [host|]; [|discriminate Hrun].
  destruct (cfg_username config) as [username|]; [|discriminate Hrun].
  destruct (cfg_password config) as [password|]; [|discriminate Hrun].
  destruct (negb (truthy name) || negb (truthy host)
            || negb (truthy username) || negb (truthy password));
    [discriminate Hrun|].
  unfold bind at 1 in Hrun.
  match type of Hrun with
  | match ?check w with _ => _ end = _ =>
      destruct (check w) as [[[]|e] w0] eqn:Echeck; [|discriminate Hrun]
  end.
  unfold bind at 1 in Hrun.
  destruct (loadDatabases_run w0) as (databases & w1 & Hload & Hcase).
  rewrite Hload in Hrun. unfold bind at 1 in Hrun.
  destruct (existsb (fun db => String.eqb (db_name db) name) databases.1);
    [discriminate Hrun|].
  cbn [ret] in Hrun.
  unfold bind at 1 in Hrun. unfold Date_now at 1 in Hrun.
  unfold bind at 1 in Hrun. unfold new_Date_toISOString at 1 in Hrun.
  cbv beta iota zeta in Hrun. cbn [clock_source clock_calls file stored_projects log] in Hrun.
  unfold bind at 1 in Hrun. unfold logger at 1 in Hrun.
  unfold bind at 1 in Hrun.
  match type of Hrun with
  | match saveDatabases _ ?dbs ?w2 with _ => _ end = _ =>
      destruct (saveDatabases DATABASES_CONFIG_FILE dbs w2) as [[[]|e] w3] eqn:Esave;
      [|discriminate Hrun]
  end.
  apply saveDatabases_returned in Esave. cbn [fst snd] in Esave.
  unfold bind, logger, ret in Hrun. injection Hrun as <- <-.
  split; [eexists _, _; cbn [file with_log]; exact Esave|].
  split; reflexivity.
Qed.

Lemma in_all_typed_last (mysql mongodb : list Database) (database : Database) :
  db_type database = "mysql" ->
  In database (all_typed (mysql ++ [database], mongodb)).
Proof.
  intros Htype. unfold all_typed. cbn [fst snd].
  apply in_or_app. left. rewrite map_app. apply in_or_app. right. left.
  destruct database. cbn in Htype. subst. reflexivity.
Qed.

(** X30.  A database that [createMySQLDatabase] has created is visible to an
    administrator, and to a user who is no administrator exactly when it was
    created for a project that is among the projects of that user; a
    database created without project is visible to administrators only. *)
Theorem created_database_visibility
    (config : DatabaseConfig) (w w' : World) (database : Database) (user : Users.User) :
  createMySQLDatabase DATABASES_CONFIG_FILE config w = (Returned database, w') ->
  exists visible,
    getDatabasesForUser DATABASES_CONFIG_FILE user w' = (Returned visible, w')
    /\ (In database visible
        <-> Users.role user = "admin"
            \/ exists projectName,
                 cfg_projectName config = Some projectName
                 /\ truthy projectName = true
                 /\ In projectName (Users.projects user)).
Proof.
  intros Hrun.
  destruct (createMySQLDatabase_returned config w w' database Hrun)
    as ((mysql & mongodb & Hfile) & Htype & Hproject).
  destruct (loadDatabases_run w') as (databases & w'' & Hload & Hcase).
  rewrite Hfile in Hcase. destruct Hcase as [-> ->].
  destruct (String.eqb (Users.role user) "admin") eqn:Erole.
  - eexists. split.
    + unfold getDatabasesForUser. rewrite Erole.
      unfold getAllDatabases, bind. rewrite Hload. reflexivity.
    + split.
      * intros _. left. apply String.eqb_eq, Erole.
      * intros _. apply in_all_typed_last, Htype.
  - eexists. split.
    + unfold getDatabasesForUser. rewrite Erole. unfold bind. rewrite Hload. reflexivity.
    + rewrite filter_In. unfold accessible. rewrite Hproject. split.
      * intros [_ Hpass]. right.
        destruct (cfg_projectName config) as [projectName|]; [|discriminate Hpass].
        destruct (truthy projectName) eqn:Tproject; [|discriminate Hpass].
        exists projectName. split; [reflexivity|]. split; [exact Tproject|].
        rewrite Tproject in Hpass. cbn [andb] in Hpass.
        apply existsb_exists in Hpass as (q & Hq & Heq). apply String.eqb_eq in Heq.
        rewrite Heq. exact Hq.
      * intros [Hadmin|(projectName & -> & Tproject & Hin)].
        { apply String.eqb_neq in Erole. contradiction. }
        split; [apply in_all_typed_last, Htype|].
        rewrite Tproject. cbv iota. rewrite Tproject. cbn [andb]. apply existsb_exists.
        exists projectName. split; [exact Hin | apply String.eqb_refl].
Qed.

End DatabaseStore.

Section DatabaseStoreExamples.
Import JsString Js Databases.

Lemma createMySQLDatabase_replaces_unreadable_file_witness :
  exists database w',
    createMySQLDatabase "/etc/websftp/databases.json" Examples.orders_database
      Examples.broken_databases
    = (Returned database, w')
    /\ file w' = Stored [database] []
    /\ In (Runtime.Failure,
           "Erreur lors du chargement des BDD: " +:+ "Unexpected end of JSON input")
         (log w').
Proof.
  apply (createMySQLDatabase_replaces_unreadable_file "/etc/websftp/databases.json"
           Examples.orders_database Examples.broken_databases
           "Unexpected end of JSON input").
  - reflexivity.
  - exists "orders", "localhost", "shop", "s3cret". repeat split.
  - intros projectName Hname _. injection Hname as <-. reflexivity.
Defined.

Lemma created_database_visibility_witness :
  let created :=
    createMySQLDatabase "/etc/websftp/databases.json" Examples.orders_database
      Examples.broken_databases in
  exists visible,
    getDatabasesForUser "/etc/websftp/databases.json" Examples.bob created.2
    = (Returned visible, created.2)
    /\ (In {| db_id := "mysql_1700000000000"; db_name := "orders"; db_type := "mysql";
              db_host := "localhost"; db_port := 3306%N;
              db_username := "shop"; db_password := "s3cret";
              db_authDatabase := None; db_projectName := Some "shop";
              db_createdAt := "2024-03-01T00:00:00.001Z" |} visible
        <-> Users.role Examples.bob = "admin"
            \/ exists projectName,
                 cfg_projectName Examples.orders_database = Some projectName
                 /\ truthy projectName = true
                 /\ In projectName (Users.projects Examples.bob)).
Proof.
  apply (created_database_visibility "/etc/websftp/databases.json"
           Examples.orders_database Examples.broken_databases).
  vm_compute. reflexivity.
Defined.

End DatabaseStoreExamples.
